(** * Triage and crisis scoring of the telemedicine backend

    A shallow embedding of the two scoring services of the backend,

      - [backend/services/risk_assessment_service.py]
        (class [RiskAssessmentService]), and
      - [backend/services/mental_health_security.py]
        (class [MentalHealthSecurityService]),

    together with the properties their specification states about them,
    and of the code around them: the consent validation of
    [MentalHealthComplianceService] in the same file, and the follow-up
    questions and the analysis of their answers in
    [backend/services/conversation_service.py] (class
    [ConversationService]), whose answers the triage service scores.

    The services are written in Python over JSON-shaped request data, and
    most of the behaviour the specification talks about is decided by what
    Python does with a value of an unexpected shape: which exception is
    raised, and which [try]/[except] block catches it.  The embedding
    therefore keeps the dynamic typing: request data is a [Py.value], and
    every operation that can raise returns in the exception monad
    [Py.exc].

    How the code is read:

      - A method with a [try]/[except Exception] around its body is a
        pair: the body, in [Py.exc], and the method, which runs the body
        under [Py.try_except] with the handler's [return].
      - A loop that updates local variables is a recursive function over
        the items that passes the variables along.
      - A returned dictionary with fixed keys is a record.
      - [logging] calls are left out: they return nothing and change
        nothing the services read.
      - [datetime.utcnow().isoformat()] is an argument, [now], of the
        two functions that read the clock.
      - The tables [__init__] assigns to [self] are constants of the
        functions of the triage service; [RiskAssessmentObject] has the
        same methods over the attributes as a store, for what is said of
        the one object all requests share.
      - The library functions whose full behaviour is not modelled
        (parsing and printing numbers, lowercasing, [re.sub], the depth
        of the stack) form the interface [Py.Runtime]. *)

From Stdlib Require Import ZArith QArith String Ascii List Bool Lia Lqa.
From Stdlib Require Import DecimalString.
Import ListNotations.

Local Open Scope string_scope.
Local Open Scope Z_scope.

Set Warnings "-register-all".

(* ================================================================== *)
(** * Python values and the operations the services use               *)
(* ================================================================== *)

Module Py.

(** The built-in exception classes that the modelled operations raise.
    All of them derive from [Exception], so an [except Exception] clause
    catches every one of them. *)
Inductive exn : Set :=
| TypeError
| ValueError
| AttributeError
| OverflowError
| RecursionError.

(** A computation that returns a value or raises. *)
Inductive exc (A : Type) : Type :=
| Ret (a : A)
| Raise (e : exn).

Arguments Ret {A} a.
Arguments Raise {A} e.

Definition bind {A B : Type} (c : exc A) (k : A -> exc B) : exc B :=
  match c with
  | Ret a => k a
  | Raise e => Raise e
  end.

(** [try: c  except Exception as e: h e], for a handler that returns. *)
Definition try_except {A : Type} (c : exc A) (h : exn -> A) : A :=
  match c with
  | Ret a => a
  | Raise e => h e
  end.

(** A binary64 float, by the number it denotes.  The two zeros are
    identified; no operation used by the services tells them apart except
    formatting. *)
Inductive pyfloat : Set :=
| FNan
| FInf (negative : bool)
| FFin (q : Q).

(** JSON-shaped data as Python sees it after [request.get_json()].  A
    dictionary is kept as the list of its items in insertion order, which
    is the order [dict.items()] yields them in; its keys are strings, as
    JSON object keys are. *)
Inductive value : Type :=
| PNone
| PBool (b : bool)
| PInt (z : Z)
| PFloat (f : pyfloat)
| PStr (s : string)
| PList (l : list value)
| PDict (items : list (string * value)).

(** ** Strings

    A [str] is held as the bytes of its UTF-8 encoding.  Comparing,
    joining and searching text give the same on the bytes as on the
    characters; counting and iterating do not, and go by characters. *)

(** [needle in hay] for two [str]. *)
Fixpoint contains (needle hay : string) : bool :=
  String.prefix needle hay ||
  match hay with
  | EmptyString => false
  | String _ rest => contains needle rest
  end.

(** [sep.join(parts)] for a list of [str]. *)
Definition join (sep : string) (parts : list string) : string :=
  String.concat sep parts.

(** A byte that continues a character: [10xxxxxx]. *)
Definition is_continuation (c : ascii) : bool :=
  match c with
  | Ascii _ _ _ _ _ _ false true => true
  | _ => false
  end.

(** The one-character strings of a [str], as iterating over it yields:
    a character is a byte together with the continuation bytes that
    follow it. *)
Fixpoint chars (s : string) : list string :=
  match s with
  | EmptyString => []
  | String c rest =>
      let continued :=
        match rest with
        | String d _ => is_continuation d
        | EmptyString => false
        end in
      match chars rest with
      | following :: others =>
          if continued
          then String c following :: others
          else String c EmptyString :: following :: others
      | [] => [String c EmptyString]
      end
  end.

(** [str(n)] for an [int]. *)
Definition int_repr (z : Z) : string :=
  DecimalString.NilZero.string_of_int (Z.to_int z).

(** ** Floats *)

(** [x <= y] on floats: false as soon as one side is NaN. *)
Definition float_le (x y : pyfloat) : bool :=
  match x, y with
  | FNan, _ | _, FNan => false
  | FInf true, _ => true
  | _, FInf false => true
  | FInf false, _ => false
  | _, FInf true => false
  | FFin a, FFin b => Qle_bool a b
  end.

(** Round a non-negative integer to the nearest integer with a 53-bit
    significand, ties to even: the value [float(n)] takes. *)
Definition round_binary64 (a : Z) : Z :=
  let e := Z.log2 a - 52 in
  if e <=? 0 then a
  else
    let m := Z.shiftr a e in
    let r := a - Z.shiftl m e in
    let half := Z.shiftl 1 (e - 1) in
    let m' := if (half <? r) || ((r =? half) && Z.odd m) then m + 1 else m in
    Z.shiftl m' e.

(** [float(n)] for an [int]: [OverflowError] beyond the binary64 range. *)
Definition float_of_int (z : Z) : exc pyfloat :=
  let a := round_binary64 (Z.abs z) in
  if 2 ^ 1024 <=? a then Raise OverflowError
  else Ret (FFin (inject_Z (Z.sgn z * a))).

(** [int(x)] for a [float]: truncation towards zero. *)
Definition int_of_float (f : pyfloat) : exc Z :=
  match f with
  | FNan => Raise ValueError
  | FInf _ => Raise OverflowError
  | FFin q => Ret (Z.quot (Qnum q) (Z.pos (Qden q)))
  end.

(** ** The part of the Python runtime that is not modelled in full

    These library functions are taken as an interface.  General theorems
    hold for every implementation of it; the instance [cpython] below
    implements it on plain ASCII text and decimal numerals, and is used
    to run the services on concrete requests. *)
Class Runtime : Type := {
  (** [s.lower()] *)
  str_lower : string -> string;
  (** [float(s)] for a [str]; [None] stands for [ValueError] *)
  float_of_str : string -> option pyfloat;
  (** [int(s)] for a [str]; [None] stands for [ValueError] *)
  int_of_str : string -> option Z;
  (** [repr(x)] for a [float], also what an f-string prints *)
  float_repr : pyfloat -> string;
  (** [repr(s)] for a [str]: the quoted, escaped form *)
  str_repr : string -> string;
  (** [re.sub(pattern, repl, text, flags=re.IGNORECASE)] *)
  re_sub : string -> string -> string -> string;
  (** how many frames the interpreter stack still allows when the
      recursion of the sanitizer starts *)
  recursion_limit : nat;
  (** the frames a list or dictionary comprehension takes: one up to
      Python 3.11, none since *)
  comprehension_frames : nat;
  (** how many frames deep a call of [re.sub] goes, its own included *)
  re_sub_frames : nat
}.

Section Builtins.
Context {rt : Runtime}.

(** [repr(v)] *)
Fixpoint repr (v : value) : string :=
  match v with
  | PNone => "None"
  | PBool true => "True"
  | PBool false => "False"
  | PInt z => int_repr z
  | PFloat f => float_repr f
  | PStr s => str_repr s
  | PList l =>
      "[" ++ join ", "
               ((fix each (l : list value) : list string :=
                   match l with
                   | [] => []
                   | x :: rest => repr x :: each rest
                   end) l) ++ "]"
  | PDict items =>
      "{" ++ join ", "
               ((fix each (items : list (string * value)) : list string :=
                   match items with
                   | [] => []
                   | (k, x) :: rest =>
                       (str_repr k ++ ": " ++ repr x) :: each rest
                   end) items) ++ "}"
  end.

(** [str(v)], also what [f"{v}"] prints. *)
Definition str (v : value) : string :=
  match v with
  | PStr s => s
  | _ => repr v
  end.

(** Truth value of [v] in a condition. *)
Definition truthy (v : value) : bool :=
  match v with
  | PNone => false
  | PBool b => b
  | PInt z => negb (z =? 0)
  | PFloat FNan => true
  | PFloat (FInf _) => true
  | PFloat (FFin q) => negb (Qeq_bool q 0)
  | PStr s => negb (String.eqb s EmptyString)
  | PList l => match l with [] => false | _ => true end
  | PDict items => match items with [] => false | _ => true end
  end.

(** [v is None] *)
Definition is_none (v : value) : bool :=
  match v with PNone => true | _ => false end.

(** [v == s] for a string constant [s]. *)
Definition eq_str (v : value) (s : string) : bool :=
  match v with PStr t => String.eqb t s | _ => false end.

(** [isinstance(v, int)]; [bool] is a subclass of [int]. *)
Definition as_int (v : value) : option Z :=
  match v with
  | PInt z => Some z
  | PBool b => Some (if b then 1 else 0)
  | _ => None
  end.

(** [isinstance(v, str)] *)
Definition as_str (v : value) : option string :=
  match v with PStr s => Some s | _ => None end.

(** [v >= k] and [v <= k] for an integer constant [k]: defined between
    numbers, [TypeError] otherwise. *)
Definition ge_int (v : value) (k : Z) : exc bool :=
  match v with
  | PBool _ | PInt _ =>
      match as_int v with Some z => Ret (k <=? z) | None => Raise TypeError end
  | PFloat f => Ret (float_le (FFin (inject_Z k)) f)
  | _ => Raise TypeError
  end.

Definition le_int (v : value) (k : Z) : exc bool :=
  match v with
  | PBool _ | PInt _ =>
      match as_int v with Some z => Ret (z <=? k) | None => Raise TypeError end
  | PFloat f => Ret (float_le f (FFin (inject_Z k)))
  | _ => Raise TypeError
  end.

(** [float(v)] *)
Definition to_float (v : value) : exc pyfloat :=
  match v with
  | PBool b => Ret (FFin (if b then 1%Q else 0%Q))
  | PInt z => float_of_int z
  | PFloat f => Ret f
  | PStr s =>
      match float_of_str s with
      | Some f => Ret f
      | None => Raise ValueError
      end
  | PNone | PList _ | PDict _ => Raise TypeError
  end.

(** [int(v)] *)
Definition to_int (v : value) : exc Z :=
  match v with
  | PBool b => Ret (if b then 1 else 0)
  | PInt z => Ret z
  | PFloat f => int_of_float f
  | PStr s =>
      match int_of_str s with
      | Some z => Ret z
      | None => Raise ValueError
      end
  | PNone | PList _ | PDict _ => Raise TypeError
  end.

(** The elements [for x in v] runs over. *)
Definition iter (v : value) : exc (list value) :=
  match v with
  | PList l => Ret l
  | PStr s => Ret (map PStr (chars s))
  | PDict items => Ret (map (fun kv => PStr (fst kv)) items)
  | PNone | PBool _ | PInt _ | PFloat _ => Raise TypeError
  end.

(** [len(v)] *)
Definition len (v : value) : exc Z :=
  match v with
  | PList l => Ret (Z.of_nat (List.length l))
  | PStr s => Ret (Z.of_nat (List.length (chars s)))
  | PDict items => Ret (Z.of_nat (List.length items))
  | PNone | PBool _ | PInt _ | PFloat _ => Raise TypeError
  end.

(** Every item of the iterable must be a [str] for [sep.join]. *)
Fixpoint all_str (l : list value) : exc (list string) :=
  match l with
  | [] => Ret []
  | PStr s :: rest => bind (all_str rest) (fun ss => Ret (s :: ss))
  | _ :: _ => Raise TypeError
  end.

(** [sep.join(v)] *)
Definition str_join (sep : string) (v : value) : exc string :=
  bind (iter v) (fun l => bind (all_str l) (fun ss => Ret (join sep ss))).

(** Lookup in an item list: the value stored under [key]. *)
Fixpoint lookup (key : string) (items : list (string * value)) : option value :=
  match items with
  | [] => None
  | (k, v) :: rest => if String.eqb k key then Some v else lookup key rest
  end.

(** [d.get(key, default)]; only a [dict] has the method. *)
Definition get (d : value) (key : string) (default : value) : exc value :=
  match d with
  | PDict items =>
      Ret (match lookup key items with Some v => v | None => default end)
  | _ => Raise AttributeError
  end.

(** [d.items()] *)
Definition items_of (d : value) : exc (list (string * value)) :=
  match d with
  | PDict items => Ret items
  | _ => Raise AttributeError
  end.

(** [s.lower()] as a method call: only a [str] has it. *)
Definition lower (v : value) : exc string :=
  match v with
  | PStr s => Ret (str_lower s)
  | _ => Raise AttributeError
  end.

(** [x.copy()]: lists and dictionaries have the method. *)
Definition copy (v : value) : exc value :=
  match v with
  | PList _ | PDict _ => Ret v
  | _ => Raise AttributeError
  end.

End Builtins.

End Py.

Notation "x <- c ;; k" := (Py.bind c (fun x => k))
  (at level 61, c at next level, right associativity).

(* ================================================================== *)
(** * The keyword loop both services use                              *)
(* ================================================================== *)

(** [for keyword in keywords: if keyword in text: risk_score += weight;
    risk_factors.append(f"{label}{keyword}")], over the running
    [(risk_score, risk_factors)].  [_assess_symptom_risk] and
    [assess_crisis_risk] each run three loops of this shape. *)
Fixpoint keyword_pass (weight : Z) (label : string) (keywords : list string)
    (text : string) (st : Z * list string) : Z * list string :=
  match keywords with
  | [] => st
  | keyword :: rest =>
      keyword_pass weight label rest text
        (if Py.contains keyword text
         then (fst st + weight, app (snd st) [label ++ keyword])
         else st)
  end.

(** The keywords of a list that occur in [text]. *)
Definition hits (text : string) (keywords : list string) : list string :=
  filter (fun keyword => Py.contains keyword text) keywords.

(** [risk_score += weight; risk_factors.append(factor)] *)
Definition bump (weight : Z) (factor : string) (st : Z * list string)
  : Z * list string :=
  (fst st + weight, app (snd st) [factor]).

(* ================================================================== *)
(** * services/risk_assessment_service.py                             *)
(* ================================================================== *)

Module RiskAssessmentService.
Import Py.

(** What a component scorer returns: the keys [score] and [factors] that
    every scorer sets, and the keys particular to one scorer. *)
Record RiskComponent : Type := {
  score : Z;
  factors : list string;
  details : list (string * value)
}.

Definition emergency_keywords : list string := [
  "chest pain"; "difficulty breathing"; "shortness of breath";
  "severe bleeding"; "unconscious"; "seizure"; "stroke symptoms";
  "heart attack"; "severe allergic reaction"; "poisoning"; "severe burns";
  "broken bone"; "head injury"; "severe abdominal pain"
].

Definition high_risk_keywords : list string := [
  "severe pain"; "high fever"; "persistent vomiting"; "dehydration";
  "severe headache"; "vision problems"; "severe dizziness"; "fainting";
  "blood in stool"; "blood in urine"; "severe rash"; "difficulty swallowing"
].

Definition moderate_risk_keywords : list string := [
  "moderate pain"; "fever"; "nausea"; "vomiting"; "diarrhea"; "headache";
  "fatigue"; "muscle aches"; "sore throat"; "cough"; "runny nose"
].

(** The three bands of a vital sign, each a pair (low, high).  The
    bounds are the numbers the table writes, [99.5] as [199 # 2]. *)
Record Bands : Set := {
  normal : Q * Q;
  concerning : Q * Q;
  critical : Q * Q
}.

Definition vital_ranges : list (string * Bands) := [
  ("heart_rate",
   {| normal := (60, 100); concerning := (50, 120); critical := (40, 150) |});
  ("systolic_bp",
   {| normal := (90, 140); concerning := (80, 160); critical := (70, 180) |});
  ("diastolic_bp",
   {| normal := (60, 90); concerning := (50, 100); critical := (40, 110) |});
  ("temperature_f",
   {| normal := (97, 199 # 2); concerning := (96, 101);
      critical := (95, 103) |});
  ("respiratory_rate",
   {| normal := (12, 20); concerning := (10, 24); critical := (8, 30) |});
  ("oxygen_saturation",
   {| normal := (95, 100); concerning := (90, 94); critical := (0, 89) |})
]%Q.

(** [vital_name in self.vital_ranges], then [self.vital_ranges[vital_name]] *)
Fixpoint ranges_of (vital_name : string) (table : list (string * Bands))
  : option Bands :=
  match table with
  | [] => None
  | (name, ranges) :: rest =>
      if String.eqb name vital_name then Some ranges
      else ranges_of vital_name rest
  end.

(** [band[0] <= vital_value <= band[1]] *)
Definition within (band : Q * Q) (vital_value : pyfloat) : bool :=
  float_le (FFin (fst band)) vital_value &&
  float_le vital_value (FFin (snd band)).

(** The running state of the loop of [_assess_vital_signs_risk]. *)
Record VitalState : Type := {
  v_score : Z;
  v_factors : list string;
  v_abnormal : list string
}.

Definition vital_init : VitalState :=
  {| v_score := 0; v_factors := []; v_abnormal := [] |}.

Section Scorers.
Context {rt : Runtime}.

(** The [try] block of [_assess_symptom_risk]. *)
Definition symptom_body (symptoms : value) : exc RiskComponent :=
  joined <- Py.str_join " " symptoms ;;
  let symptom_text := str_lower joined in
  let st := (0, []) in
  let st := keyword_pass 8 "Emergency symptom detected: "
              emergency_keywords symptom_text st in
  let st := keyword_pass 5 "High-risk symptom: "
              high_risk_keywords symptom_text st in
  let st := keyword_pass 2 "Moderate-risk symptom: "
              moderate_risk_keywords symptom_text st in
  let st :=
    if contains "fever" symptom_text && contains "headache" symptom_text
    then bump 2 "Fever + headache combination increases risk" st
    else st in
  let st :=
    if contains "chest pain" symptom_text
       && contains "shortness of breath" symptom_text
    then bump 6 "Chest pain + breathing difficulty - high risk combination" st
    else st in
  symptom_count <- Py.len symptoms ;;
  Ret {| score := Z.min (fst st) 10;
         factors := snd st;
         details :=
           [("symptom_count", PInt symptom_count);
            ("emergency_symptoms_detected",
             PBool (existsb (fun es => contains es symptom_text)
                      emergency_keywords))] |}.

Definition symptom_fallback : RiskComponent :=
  {| score := 5;
     factors := ["Symptom assessment error"];
     details := [("symptom_count", PInt 0)] |}.

Definition _assess_symptom_risk (symptoms : value) : RiskComponent :=
  try_except (symptom_body symptoms) (fun _ => symptom_fallback).

(** The three [if]/[elif] branches that flag a vital sign. *)
Definition flag (weight : Z) (label vital_name : string)
    (vital_value : pyfloat) (st : VitalState) : VitalState :=
  {| v_score := v_score st + weight;
     v_factors :=
       app (v_factors st)
         [label ++ vital_name ++ ": " ++ float_repr vital_value];
     v_abnormal := app (v_abnormal st) [vital_name] |}.

Definition classify_vital (vital_name : string) (vital_value : pyfloat)
    (st : VitalState) : VitalState :=
  match ranges_of vital_name vital_ranges with
  | Some ranges =>
      if negb (within (critical ranges) vital_value)
      then flag 6 "Critical " vital_name vital_value st
      else if negb (within (concerning ranges) vital_value)
      then flag 4 "Concerning " vital_name vital_value st
      else if negb (within (normal ranges) vital_value)
      then flag 2 "Abnormal " vital_name vital_value st
      else st
  | None => st
  end.

(** The handler of the inner [except ValueError]. *)
Definition invalid_vital (vital_name : string) (value : value)
    (st : VitalState) : VitalState :=
  {| v_score := v_score st;
     v_factors :=
       app (v_factors st)
         ["Invalid " ++ vital_name ++ " value: " ++ Py.str value];
     v_abnormal := v_abnormal st |}.

(** One iteration of [for vital_name, value in vitals.items()]. *)
Definition vital_step (st : VitalState) (item : string * value)
  : exc VitalState :=
  let (vital_name, value) := item in
  if Py.is_none value || Py.eq_str value EmptyString then Ret st
  else
    match Py.to_float value with
    | Ret vital_value => Ret (classify_vital vital_name vital_value st)
    | Raise ValueError => Ret (invalid_vital vital_name value st)
    | Raise e => Raise e
    end.

Fixpoint vital_loop (items : list (string * value)) (st : VitalState)
  : exc VitalState :=
  match items with
  | [] => Ret st
  | item :: rest => st' <- vital_step st item ;; vital_loop rest st'
  end.

(** The component built by the [return] of [_assess_vital_signs_risk]. *)
Definition vital_component (items : list (string * value)) (st : VitalState)
  : RiskComponent :=
  {| score := Z.min (v_score st) 8;
     factors := v_factors st;
     details :=
       [("abnormal_vitals", PList (map PStr (v_abnormal st)));
        ("vitals_provided", PList (map (fun kv => PStr (fst kv)) items))] |}.

(** The outer [try] block of [_assess_vital_signs_risk]. *)
Definition vital_body (vitals : value) : exc RiskComponent :=
  items <- Py.items_of vitals ;;
  st <- vital_loop items vital_init ;;
  Ret (vital_component items st).

Definition vital_fallback : RiskComponent :=
  {| score := 3;
     factors := ["Vital signs assessment error"];
     details := [("abnormal_vitals", PList [])] |}.

Definition _assess_vital_signs_risk (vitals : value) : RiskComponent :=
  try_except (vital_body vitals) (fun _ => vital_fallback).

Definition _get_age_category (age : value) : exc string :=
  infant <- Py.le_int age 2 ;;
  if infant then Ret "infant"
  else
    child <- Py.le_int age 12 ;;
    if child then Ret "child"
    else
      adolescent <- Py.le_int age 17 ;;
      if adolescent then Ret "adolescent"
      else
        adult <- Py.le_int age 64 ;;
        if adult then Ret "adult" else Ret "senior".

(** The age rule of [_assess_context_risk], from [if age:] on. *)
Definition age_rule (age : value) (st : Z * list string)
  : exc (Z * list string) :=
  if Py.truthy age then
    senior <- Py.ge_int age 65 ;;
    if senior
    then Ret (bump 2 "Age 65+ increases risk for complications" st)
    else
      infant <- Py.le_int age 2 ;;
      if infant
      then Ret (bump 3 "Very young age increases risk" st)
      else
        child <- Py.le_int age 12 ;;
        if child
        then Ret (bump 1 "Pediatric patient - increased monitoring needed" st)
        else Ret st
  else Ret st.

Definition high_risk_conditions : list string := [
  "diabetes"; "heart disease"; "hypertension"; "asthma"; "copd";
  "cancer"; "immunocompromised"; "kidney disease"; "liver disease"
].

(** [for condition in medical_history: ...] *)
Fixpoint history_loop (medical_history : list value) (st : Z * list string)
  : exc (Z * list string) :=
  match medical_history with
  | [] => Ret st
  | condition :: rest =>
      text <- Py.lower condition ;;
      history_loop rest
        (if existsb (fun risk_condition => contains risk_condition text)
              high_risk_conditions
         then bump 2 ("High-risk medical condition: " ++ Py.str condition) st
         else st)
  end.

(** The [try] block of [_assess_context_risk]. *)
Definition context_body (context : value) : exc RiskComponent :=
  age <- Py.get context "age" PNone ;;
  st <- age_rule age (0, []) ;;
  medical_history <- Py.get context "medical_history" (PList []) ;;
  conditions <- Py.iter medical_history ;;
  st <- history_loop conditions st ;;
  pregnant <- Py.get context "pregnant" PNone ;;
  let st :=
    if Py.truthy pregnant
    then bump 2 "Pregnancy requires special medical consideration" st
    else st in
  age_category <-
    (if Py.truthy age then _get_age_category age else Ret "unknown") ;;
  Ret {| score := Z.min (fst st) 6;
         factors := snd st;
         details := [("age_category", PStr age_category)] |}.

Definition context_fallback : RiskComponent :=
  {| score := 1;
     factors := ["Context assessment error"];
     details := [("age_category", PStr "unknown")] |}.

Definition _assess_context_risk (context : value) : RiskComponent :=
  try_except (context_body context) (fun _ => context_fallback).

(** The pain-scale rule of [_assess_followup_risk], from [if pain_scale:]. *)
Definition pain_rule (pain_scale : value) (st : Z * list string)
  : exc (Z * list string) :=
  if Py.truthy pain_scale then
    pain_level <- Py.to_int pain_scale ;;
    if 8 <=? pain_level
    then Ret (bump 3 ("Severe pain level: " ++ int_repr pain_level ++ "/10") st)
    else if 6 <=? pain_level
    then Ret (bump 2 ("Moderate-severe pain: " ++ int_repr pain_level ++ "/10")
                st)
    else Ret st
  else Ret st.

(** The [try] block of [_assess_followup_risk]. *)
Definition followup_body (follow_up_data : value) : exc RiskComponent :=
  pain_scale <- Py.get follow_up_data "pain_scale" PNone ;;
  st <- pain_rule pain_scale (0, []) ;;
  progression <- Py.get follow_up_data "symptom_progression" PNone ;;
  let st :=
    if Py.eq_str progression "Getting worse"
    then bump 2 "Symptoms are worsening" st
    else if Py.eq_str progression "Fluctuating"
    then bump 1 "Symptoms are fluctuating" st
    else st in
  breathing <- Py.get follow_up_data "breathing_difficulty" PNone ;;
  let st :=
    if Py.eq_str breathing "yes"
    then bump 4 "Patient reports breathing difficulty" st
    else st in
  Ret {| score := Z.min (fst st) 5; factors := snd st; details := [] |}.

Definition followup_fallback : RiskComponent :=
  {| score := 1; factors := ["Follow-up assessment error"]; details := [] |}.

Definition _assess_followup_risk (follow_up_data : value) : RiskComponent :=
  try_except (followup_body follow_up_data) (fun _ => followup_fallback).

(** What [_determine_final_risk_level] returns. *)
Record FinalLevel : Set := {
  final_risk_level : string;
  final_urgency_level : string;
  final_triage_category : string;
  final_time_to_care : string
}.

Definition _determine_final_risk_level (total_score : Z) : FinalLevel :=
  if 15 <=? total_score then
    {| final_risk_level := "CRITICAL";
       final_urgency_level := "emergency";
       final_triage_category := "immediate";
       final_time_to_care := "Immediate (0-15 minutes)" |}
  else if 10 <=? total_score then
    {| final_risk_level := "HIGH";
       final_urgency_level := "urgent";
       final_triage_category := "urgent";
       final_time_to_care := "Within 1 hour" |}
  else if 6 <=? total_score then
    {| final_risk_level := "MODERATE";
       final_urgency_level := "semi_urgent";
       final_triage_category := "semi_urgent";
       final_time_to_care := "Within 2-4 hours" |}
  else if 3 <=? total_score then
    {| final_risk_level := "LOW_MODERATE";
       final_urgency_level := "less_urgent";
       final_triage_category := "less_urgent";
       final_time_to_care := "Within 24 hours" |}
  else
    {| final_risk_level := "LOW";
       final_urgency_level := "routine";
       final_triage_category := "non_urgent";
       final_time_to_care := "Routine care (1-7 days)" |}.

(** [_generate_recommendations] reads only [overall_risk_level] of the
    assessment it is given. *)
Definition _generate_recommendations (risk_level : string) : list string :=
  if String.eqb risk_level "CRITICAL" then
    ["🚨 SEEK IMMEDIATE EMERGENCY CARE - Call 911 or go to nearest ER";
     "Do not drive yourself - call ambulance or have someone drive you";
     "If symptoms worsen while waiting, call 911 immediately"]
  else if String.eqb risk_level "HIGH" then
    ["⚠️ Seek urgent medical attention within 1 hour";
     "Go to urgent care center or emergency room";
     "Do not wait - this requires prompt medical evaluation"]
  else if String.eqb risk_level "MODERATE" then
    ["📞 Contact your healthcare provider within 2-4 hours";
     "Monitor symptoms closely for any worsening";
     "Consider urgent care if symptoms worsen"]
  else if String.eqb risk_level "LOW_MODERATE" then
    ["📅 Schedule appointment with healthcare provider within 24 hours";
     "Monitor symptoms and seek care if they worsen";
     "Rest, stay hydrated, and follow basic self-care measures"]
  else
    ["🏠 Home care and monitoring appropriate";
     "Schedule routine appointment if symptoms persist";
     "Rest, fluids, and over-the-counter remedies as appropriate"].

(** The dictionary [assess_comprehensive_risk] returns.  The keys that
    only one of its two [return] statements sets are optional; [error]
    holds the exception whose text the handler stores. *)
Record TriageResult : Type := {
  overall_risk_level : string;
  risk_score : Z;
  risk_factors : list string;
  recommendations : list string;
  urgency_level : string;
  triage_category : option string;
  time_to_care : option string;
  assessment_components : list (string * RiskComponent);
  assessment_timestamp : option string;
  assessment_version : option string;
  error : option exn
}.

(** The part of [risk_assessment] the four steps accumulate into. *)
Record Running : Type := {
  run_score : Z;
  run_factors : list string;
  run_components : list (string * RiskComponent)
}.

(** [risk_assessment['risk_score'] += c['score']], then
    [risk_assessment['risk_factors'].extend(c['factors'])], then
    [risk_assessment['assessment_components'][key] = c]. *)
Definition absorb (key : string) (c : RiskComponent) (ra : Running)
  : Running :=
  {| run_score := run_score ra + score c;
     run_factors := app (run_factors ra) (factors c);
     run_components := app (run_components ra) [(key, c)] |}.

(** The four methods [assess_comprehensive_risk] calls on [self].  A
    method call may raise as far as the caller can tell; that is what
    the [try] block of the aggregator guards against. *)
Record Scorers : Type := {
  score_symptoms : value -> exc RiskComponent;
  score_vitals : value -> exc RiskComponent;
  score_context : value -> exc RiskComponent;
  score_followup : value -> exc RiskComponent
}.

(** The [try] block of [assess_comprehensive_risk]; [now] is what
    [datetime.utcnow().isoformat()] returns at the call. *)
Definition assess_body (self : Scorers) (now : string)
    (symptoms vitals user_context follow_up_data : value)
  : exc TriageResult :=
  let ra := {| run_score := 0; run_factors := []; run_components := [] |} in
  symptom_risk <- score_symptoms self symptoms ;;
  let ra := absorb "symptoms" symptom_risk ra in
  ra <- (if Py.truthy vitals
         then vital_risk <- score_vitals self vitals ;;
              Ret (absorb "vitals" vital_risk ra)
         else Ret ra) ;;
  ra <- (if Py.truthy user_context
         then context_risk <- score_context self user_context ;;
              Ret (absorb "context" context_risk ra)
         else Ret ra) ;;
  ra <- (if Py.truthy follow_up_data
         then followup_risk <- score_followup self follow_up_data ;;
              Ret (absorb "follow_up" followup_risk ra)
         else Ret ra) ;;
  let final_assessment := _determine_final_risk_level (run_score ra) in
  Ret {| overall_risk_level := final_risk_level final_assessment;
         risk_score := run_score ra;
         risk_factors := run_factors ra;
         recommendations :=
           _generate_recommendations (final_risk_level final_assessment);
         urgency_level := final_urgency_level final_assessment;
         triage_category := Some (final_triage_category final_assessment);
         time_to_care := Some (final_time_to_care final_assessment);
         assessment_components := run_components ra;
         assessment_timestamp := Some now;
         assessment_version := Some "2.0";
         error := None |}.

(** The dictionary the [except Exception] clause of the aggregator
    returns. *)
Definition fail_safe (e : exn) : TriageResult :=
  {| overall_risk_level := "HIGH";
     risk_score := 10;
     risk_factors := ["Assessment error - defaulting to high risk for safety"];
     recommendations :=
       ["Seek immediate medical attention due to assessment system error"];
     urgency_level := "urgent";
     triage_category := None;
     time_to_care := None;
     assessment_components := [];
     assessment_timestamp := None;
     assessment_version := None;
     error := Some e |}.

(** [assess_comprehensive_risk] over any implementation of the four
    methods. *)
Definition assess_with (self : Scorers) (now : string)
    (symptoms vitals user_context follow_up_data : value) : TriageResult :=
  try_except
    (assess_body self now symptoms vitals user_context follow_up_data)
    fail_safe.

(** The methods as the class defines them: each returns, whatever
    happens inside it. *)
Definition this : Scorers :=
  {| score_symptoms := fun symptoms => Ret (_assess_symptom_risk symptoms);
     score_vitals := fun vitals => Ret (_assess_vital_signs_risk vitals);
     score_context := fun context => Ret (_assess_context_risk context);
     score_followup :=
       fun follow_up_data => Ret (_assess_followup_risk follow_up_data) |}.

Definition assess_comprehensive_risk (now : string)
    (symptoms vitals user_context follow_up_data : value) : TriageResult :=
  assess_with this now symptoms vitals user_context follow_up_data.

End Scorers.

End RiskAssessmentService.

(* ================================================================== *)
(** * The triage service as a shared object                           *)
(* ================================================================== *)

(** [RiskAssessmentService] is instantiated once ([risk_service] in
    [backend/api/integration_routes.py]) and every request calls that
    one object.  What a call can leave behind for the next is what it
    assigns to the attributes of [self].  Here the attributes are a
    store, and a method is a function from the store it finds to what it
    returns or raises and the store it leaves: [self.x] reads the store,
    [self.x = v] writes it, and a call of another method of [self] passes
    the store on.  The methods below are the methods of the class,
    statement by statement, with every access to [self] kept. *)
Module RiskAssessmentObject.
Import Py.
Import RiskAssessmentService.

(** The attributes [__init__] assigns. *)
Record Attributes : Type := {
  self_emergency_keywords : list string;
  self_high_risk_keywords : list string;
  self_moderate_risk_keywords : list string;
  self_vital_ranges : list (string * Bands)
}.

Definition method (A : Type) : Type := Attributes -> exc A * Attributes.

Definition ret {A : Type} (a : A) : method A :=
  fun self => (Ret a, self).

(** One statement after another: the second runs on the store the first
    leaves, and what the first raises ends the method with the store as
    it is then. *)
Definition bind {A B : Type} (m : method A) (k : A -> method B) : method B :=
  fun self =>
    match m self with
    | (Ret a, self') => k a self'
    | (Raise e, self') => (Raise e, self')
    end.

(** An expression that does not touch [self]. *)
Definition lift {A : Type} (c : exc A) : method A :=
  fun self => (c, self).

(** [self.attribute] *)
Definition read {A : Type} (attribute : Attributes -> A) : method A :=
  fun self => (Ret (attribute self), self).

(** [self.attribute = ...] *)
Definition assign (update : Attributes -> Attributes) : method unit :=
  fun self => (Ret tt, update self).

(** [try: m except Exception as e: handler e]: the handler runs on the
    store the body has left. *)
Definition attempt {A : Type} (m : method A) (handler : exn -> method A)
  : method A :=
  fun self =>
    match m self with
    | (Ret a, self') => (Ret a, self')
    | (Raise e, self') => handler e self'
    end.

Notation "x <~ m ;; k" := (bind m (fun x => k))
  (at level 61, m at next level, right associativity).

(** An object before [__init__] has run on it. *)
Definition blank : Attributes :=
  {| self_emergency_keywords := [];
     self_high_risk_keywords := [];
     self_moderate_risk_keywords := [];
     self_vital_ranges := [] |}.

Definition set_emergency_keywords (v : list string) (self : Attributes)
  : Attributes :=
  {| self_emergency_keywords := v;
     self_high_risk_keywords := self_high_risk_keywords self;
     self_moderate_risk_keywords := self_moderate_risk_keywords self;
     self_vital_ranges := self_vital_ranges self |}.

Definition set_high_risk_keywords (v : list string) (self : Attributes)
  : Attributes :=
  {| self_emergency_keywords := self_emergency_keywords self;
     self_high_risk_keywords := v;
     self_moderate_risk_keywords := self_moderate_risk_keywords self;
     self_vital_ranges := self_vital_ranges self |}.

Definition set_moderate_risk_keywords (v : list string) (self : Attributes)
  : Attributes :=
  {| self_emergency_keywords := self_emergency_keywords self;
     self_high_risk_keywords := self_high_risk_keywords self;
     self_moderate_risk_keywords := v;
     self_vital_ranges := self_vital_ranges self |}.

Definition set_vital_ranges (v : list (string * Bands)) (self : Attributes)
  : Attributes :=
  {| self_emergency_keywords := self_emergency_keywords self;
     self_high_risk_keywords := self_high_risk_keywords self;
     self_moderate_risk_keywords := self_moderate_risk_keywords self;
     self_vital_ranges := v |}.

(** [__init__]: the four assignments. *)
Definition __init__ : method unit :=
  _ <~ assign (set_emergency_keywords emergency_keywords) ;;
  _ <~ assign (set_high_risk_keywords high_risk_keywords) ;;
  _ <~ assign (set_moderate_risk_keywords moderate_risk_keywords) ;;
  assign (set_vital_ranges vital_ranges).

(** [risk_service = RiskAssessmentService()] *)
Definition risk_service : Attributes := snd (__init__ blank).

Section Methods.
Context {rt : Runtime}.

(** The [try] block of [_assess_symptom_risk]. *)
Definition symptom_body (symptoms : value) : method RiskComponent :=
  joined <~ lift (Py.str_join " " symptoms) ;;
  let symptom_text := str_lower joined in
  let st := (0, []) in
  emergency <~ read self_emergency_keywords ;;
  let st := keyword_pass 8 "Emergency symptom detected: "
              emergency symptom_text st in
  high_risk <~ read self_high_risk_keywords ;;
  let st := keyword_pass 5 "High-risk symptom: "
              high_risk symptom_text st in
  moderate_risk <~ read self_moderate_risk_keywords ;;
  let st := keyword_pass 2 "Moderate-risk symptom: "
              moderate_risk symptom_text st in
  let st :=
    if contains "fever" symptom_text && contains "headache" symptom_text
    then bump 2 "Fever + headache combination increases risk" st
    else st in
  let st :=
    if contains "chest pain" symptom_text
       && contains "shortness of breath" symptom_text
    then bump 6 "Chest pain + breathing difficulty - high risk combination" st
    else st in
  symptom_count <~ lift (Py.len symptoms) ;;
  emergency <~ read self_emergency_keywords ;;
  ret {| score := Z.min (fst st) 10;
         factors := snd st;
         details :=
           [("symptom_count", PInt symptom_count);
            ("emergency_symptoms_detected",
             PBool (existsb (fun es => contains es symptom_text)
                      emergency))] |}.

Definition _assess_symptom_risk (symptoms : value) : method RiskComponent :=
  attempt (symptom_body symptoms) (fun _ => ret symptom_fallback).

(** The ladder of the three bands of one vital sign. *)
Definition ladder (ranges : Bands) (vital_name : string)
    (vital_value : pyfloat) (st : VitalState) : VitalState :=
  if negb (within (critical ranges) vital_value)
  then flag 6 "Critical " vital_name vital_value st
  else if negb (within (concerning ranges) vital_value)
  then flag 4 "Concerning " vital_name vital_value st
  else if negb (within (normal ranges) vital_value)
  then flag 2 "Abnormal " vital_name vital_value st
  else st.

(** [if vital_name in self.vital_ranges: ranges =
    self.vital_ranges[vital_name]; ...] *)
Definition classify_vital (vital_name : string) (vital_value : pyfloat)
    (st : VitalState) : method VitalState :=
  table <~ read self_vital_ranges ;;
  match ranges_of vital_name table with
  | Some ranges => ret (ladder ranges vital_name vital_value st)
  | None => ret st
  end.

Definition vital_step (st : VitalState) (item : string * value)
  : method VitalState :=
  let (vital_name, value) := item in
  if Py.is_none value || Py.eq_str value EmptyString then ret st
  else
    match Py.to_float value with
    | Ret vital_value => classify_vital vital_name vital_value st
    | Raise ValueError => ret (invalid_vital vital_name value st)
    | Raise e => lift (Raise e)
    end.

Fixpoint vital_loop (items : list (string * value)) (st : VitalState)
  : method VitalState :=
  match items with
  | [] => ret st
  | item :: rest => st' <~ vital_step st item ;; vital_loop rest st'
  end.

Definition vital_body (vitals : value) : method RiskComponent :=
  items <~ lift (Py.items_of vitals) ;;
  st <~ vital_loop items vital_init ;;
  ret (vital_component items st).

Definition _assess_vital_signs_risk (vitals : value) : method RiskComponent :=
  attempt (vital_body vitals) (fun _ => ret vital_fallback).

(** The methods that touch no attribute of [self]. *)
Definition _get_age_category (age : value) : method string :=
  lift (RiskAssessmentService._get_age_category age).

Definition _determine_final_risk_level (total_score : Z)
  : method FinalLevel :=
  ret (RiskAssessmentService._determine_final_risk_level total_score).

Definition _generate_recommendations (risk_level : string)
  : method (list string) :=
  ret (RiskAssessmentService._generate_recommendations risk_level).

(** The [try] block of [_assess_context_risk], with its call of
    [self._get_age_category]. *)
Definition context_body (context : value) : method RiskComponent :=
  age <~ lift (Py.get context "age" PNone) ;;
  st <~ lift (age_rule age (0, [])) ;;
  medical_history <~ lift (Py.get context "medical_history" (PList [])) ;;
  conditions <~ lift (Py.iter medical_history) ;;
  st <~ lift (history_loop conditions st) ;;
  pregnant <~ lift (Py.get context "pregnant" PNone) ;;
  let st :=
    if Py.truthy pregnant
    then bump 2 "Pregnancy requires special medical consideration" st
    else st in
  age_category <~
    (if Py.truthy age then _get_age_category age else ret "unknown") ;;
  ret {| score := Z.min (fst st) 6;
         factors := snd st;
         details := [("age_category", PStr age_category)] |}.

Definition _assess_context_risk (context : value) : method RiskComponent :=
  attempt (context_body context) (fun _ => ret context_fallback).

Definition _assess_followup_risk (follow_up_data : value)
  : method RiskComponent :=
  attempt (lift (followup_body follow_up_data))
    (fun _ => ret followup_fallback).

(** The [try] block of [assess_comprehensive_risk]. *)
Definition assess_body (now : string)
    (symptoms vitals user_context follow_up_data : value)
  : method TriageResult :=
  let ra := {| run_score := 0; run_factors := []; run_components := [] |} in
  symptom_risk <~ _assess_symptom_risk symptoms ;;
  let ra := absorb "symptoms" symptom_risk ra in
  ra <~ (if Py.truthy vitals
         then vital_risk <~ _assess_vital_signs_risk vitals ;;
              ret (absorb "vitals" vital_risk ra)
         else ret ra) ;;
  ra <~ (if Py.truthy user_context
         then context_risk <~ _assess_context_risk user_context ;;
              ret (absorb "context" context_risk ra)
         else ret ra) ;;
  ra <~ (if Py.truthy follow_up_data
         then followup_risk <~ _assess_followup_risk follow_up_data ;;
              ret (absorb "follow_up" followup_risk ra)
         else ret ra) ;;
  final_assessment <~ _determine_final_risk_level (run_score ra) ;;
  recommendations <~
    _generate_recommendations (final_risk_level final_assessment) ;;
  ret {| overall_risk_level := final_risk_level final_assessment;
         risk_score := run_score ra;
         risk_factors := run_factors ra;
         recommendations := recommendations;
         urgency_level := final_urgency_level final_assessment;
         triage_category := Some (final_triage_category final_assessment);
         time_to_care := Some (final_time_to_care final_assessment);
         assessment_components := run_components ra;
         assessment_timestamp := Some now;
         assessment_version := Some "2.0";
         error := None |}.

Definition assess_comprehensive_risk (now : string)
    (symptoms vitals user_context follow_up_data : value)
  : method TriageResult :=
  attempt (assess_body now symptoms vitals user_context follow_up_data)
    (fun e => ret (fail_safe e)).

(** A call of a method of the object, with its arguments. *)
Inductive call : Type :=
| Assess (now : string) (symptoms vitals user_context follow_up_data : value)
| AssessSymptoms (symptoms : value)
| AssessVitals (vitals : value)
| AssessContext (context : value)
| AssessFollowUp (follow_up_data : value)
| DetermineFinalRiskLevel (total_score : Z)
| GenerateRecommendations (risk_level : string)
| GetAgeCategory (age : value).

(** The object a call leaves. *)
Definition after (c : call) (self : Attributes) : Attributes :=
  match c with
  | Assess now symptoms vitals user_context follow_up_data =>
      snd (assess_comprehensive_risk now symptoms vitals user_context
             follow_up_data self)
  | AssessSymptoms symptoms => snd (_assess_symptom_risk symptoms self)
  | AssessVitals vitals => snd (_assess_vital_signs_risk vitals self)
  | AssessContext context => snd (_assess_context_risk context self)
  | AssessFollowUp follow_up_data =>
      snd (_assess_followup_risk follow_up_data self)
  | DetermineFinalRiskLevel total_score =>
      snd (_determine_final_risk_level total_score self)
  | GenerateRecommendations risk_level =>
      snd (_generate_recommendations risk_level self)
  | GetAgeCategory age => snd (_get_age_category age self)
  end.

(** The object a sequence of calls leaves. *)
Definition after_all (calls : list call) (self : Attributes) : Attributes :=
  fold_left (fun self c => after c self) calls self.

End Methods.

End RiskAssessmentObject.

(* ================================================================== *)
(** * services/mental_health_security.py                              *)
(* ================================================================== *)

Module MentalHealthSecurityService.
Import Py.

(** The dictionary [_load_risk_keywords] returns, by its three keys. *)
Record RiskKeywords : Set := {
  crisis : list string;
  high_risk : list string;
  moderate_risk : list string
}.

Definition _load_risk_keywords : RiskKeywords :=
  {| crisis := [
       "suicide"; "kill myself"; "end it all"; "not worth living";
       "better off dead"; "hurt myself"; "self-harm"; "cutting"
     ];
     high_risk := [
       "hopeless"; "worthless"; "trapped"; "burden"; "pain";
       "can't go on"; "no point"; "give up"
     ];
     moderate_risk := [
       "depressed"; "anxious"; "overwhelmed"; "stressed";
       "panic"; "worried"; "sad"; "lonely"
     ] |}.

(** [self.risk_keywords], set once in [__init__]. *)
Definition risk_keywords : RiskKeywords := _load_risk_keywords.

(** The dictionary [assess_crisis_risk] returns. *)
Record CrisisResult : Type := {
  risk_level : string;
  risk_score : Z;
  risk_indicators : list string;
  crisis_intervention_needed : bool;
  professional_referral_suggested : bool;
  assessment_timestamp : string
}.

(** [isinstance(v, dict)] *)
Definition is_dict (v : value) : bool :=
  match v with PDict _ => true | _ => false end.

(** One of the three numeric checks: [isinstance(rating, int) and
    test rating], then the bump. *)
Definition rating_rule (rating : value) (test : Z -> bool) (weight : Z)
    (indicator : string) (st : Z * list string) : Z * list string :=
  match as_int rating with
  | Some n => if test n then bump weight indicator st else st
  | None => st
  end.

(** The thresholds of [assess_crisis_risk]. *)
Definition level_of (risk_score : Z) : string :=
  if 10 <=? risk_score then "crisis"
  else if 6 <=? risk_score then "high"
  else if 3 <=? risk_score then "moderate"
  else "low".

Definition dangerous_patterns : list string := [
  "<script[^>]*>.*?</script>";
  "javascript:";
  "onload\s*=";
  "onerror\s*=";
  "eval\s*\(";
  "document\.";
  "window\.";
  "alert\s*\("
].

Section Service.
Context {rt : Runtime}.

(** [for key, value in responses.items(): if isinstance(value, str):
    text_inputs.append(value.lower())] *)
Fixpoint response_texts (items : list (string * value)) : list string :=
  match items with
  | [] => []
  | (_, PStr s) :: rest => str_lower s :: response_texts rest
  | _ :: rest => response_texts rest
  end.

(** [[str(s).lower() for s in xs]] *)
Definition lowered (xs : list value) : list string :=
  map (fun s => str_lower (Py.str s)) xs.

(** The [try] block of [assess_crisis_risk]; [now] is what
    [datetime.utcnow().isoformat()] returns at the call. *)
Definition crisis_body (now : string) (user_input : value)
  : exc CrisisResult :=
  responses <- Py.get user_input "responses" (PDict []) ;;
  items <- Py.items_of responses ;;
  let text_inputs := response_texts items in
  symptoms <- Py.get user_input "symptoms" (PList []) ;;
  symptoms <- Py.iter symptoms ;;
  let text_inputs := app text_inputs (lowered symptoms) in
  triggers <- Py.get user_input "triggers" (PList []) ;;
  triggers <- Py.iter triggers ;;
  let text_inputs := app text_inputs (lowered triggers) in
  support_system <- Py.get user_input "support_system" (PStr EmptyString) ;;
  let text_inputs :=
    if Py.truthy support_system
    then app text_inputs [str_lower (Py.str support_system)]
    else text_inputs in
  let all_text := join " " text_inputs in
  let st := (0, []) in
  let st := keyword_pass 10 "Crisis indicator: "
              (crisis risk_keywords) all_text st in
  let st := keyword_pass 5 "High risk indicator: "
              (high_risk risk_keywords) all_text st in
  let st := keyword_pass 2 "Moderate risk indicator: "
              (moderate_risk risk_keywords) all_text st in
  st <- (if is_dict responses then
           mood_rating <- Py.get responses "mood_rating" PNone ;;
           let st := rating_rule mood_rating (fun n => n <=? 3) 3
                       "Very low mood rating" st in
           anxiety_level <- Py.get responses "anxiety_level" PNone ;;
           let st := rating_rule anxiety_level (fun n => 8 <=? n) 2
                       "High anxiety level" st in
           stress_level <- Py.get responses "stress_level" PNone ;;
           Ret (rating_rule stress_level (fun n => 8 <=? n) 2
                  "High stress level" st)
         else Ret st) ;;
  let risk_level := level_of (fst st) in
  Ret {| risk_level := risk_level;
         risk_score := fst st;
         risk_indicators := snd st;
         crisis_intervention_needed := String.eqb risk_level "crisis";
         professional_referral_suggested :=
           existsb (String.eqb risk_level) ["crisis"; "high"];
         assessment_timestamp := now |}.

(** The dictionary the [except Exception] clause returns. *)
Definition crisis_fail_safe (now : string) : CrisisResult :=
  {| risk_level := "high";
     risk_score := 999;
     risk_indicators := ["Assessment system error - defaulting to high risk"];
     crisis_intervention_needed := true;
     professional_referral_suggested := true;
     assessment_timestamp := now |}.

Definition assess_crisis_risk (now : string) (user_input : value)
  : CrisisResult :=
  try_except (crisis_body now user_input) (fun _ => crisis_fail_safe now).

(** The inner function [clean_text] of [sanitize_mental_health_input]. *)
Definition clean_text (text : value) : value :=
  match text with
  | PStr s =>
      PStr (fold_left (fun text pattern => re_sub pattern "[REMOVED]" text)
              dangerous_patterns s)
  | _ => text
  end.

(** The inner function [clean_dict].  [stack] is the number of frames
    the stack still allows.  A call takes one frame; on a list or a
    dictionary the comprehension takes its frames and every item is
    cleaned below them; on a [str] the call of [clean_text] takes one
    frame and its calls of [re.sub] theirs.  The call that finds too few
    frames left raises [RecursionError]. *)
Fixpoint clean_dict (stack : nat) (d : value) {struct d} : exc value :=
  match stack with
  | O => Raise RecursionError
  | S stack' =>
      match d with
      | PDict items =>
          if (comprehension_frames <=? stack')%nat then
            items' <-
              (fix each (items : list (string * value))
                 : exc (list (string * value)) :=
                 match items with
                 | [] => Ret []
                 | (k, v) :: rest =>
                     v' <- clean_dict (stack' - comprehension_frames) v ;;
                     rest' <- each rest ;;
                     Ret ((k, v') :: rest')
                 end) items ;;
            Ret (PDict items')
          else Raise RecursionError
      | PList l =>
          if (comprehension_frames <=? stack')%nat then
            l' <-
              (fix each (l : list value) : exc (list value) :=
                 match l with
                 | [] => Ret []
                 | item :: rest =>
                     item' <- clean_dict (stack' - comprehension_frames) item ;;
                     rest' <- each rest ;;
                     Ret (item' :: rest')
                 end) l ;;
            Ret (PList l')
          else Raise RecursionError
      | PStr _ =>
          if (S re_sub_frames <=? stack')%nat
          then Ret (clean_text d)
          else Raise RecursionError
      | _ => Ret d
      end
  end.

(** The [try] block of [sanitize_mental_health_input]. *)
Definition sanitize_body (data : value) : exc value :=
  sanitized <- Py.copy data ;;
  clean_dict recursion_limit sanitized.

Definition sanitize_mental_health_input (data : value) : value :=
  try_except (sanitize_body data) (fun _ => data).

End Service.

End MentalHealthSecurityService.

(* ================================================================== *)
(** * A reference runtime                                             *)
(* ================================================================== *)

(** An implementation of [Py.Runtime] that agrees with CPython on a
    fragment of its inputs, and serves to run the services on concrete
    requests:

      - text is ASCII;
      - a numeral is a plain decimal: an optional sign, digits, and for
        [float] an optional fraction; any other text is rejected;
      - a float is printed as its decimal expansion with at least one
        digit after the point, which is what CPython prints for the
        short decimals below 10^16 that the requests hold;
      - a [str] without quotes, backslashes and control characters is
        quoted by single quotes;
      - a regular expression is a sequence of single-character atoms,
        each optionally under [*] or [*?], matched in either case:
        enough for the eight patterns of [dangerous_patterns];
      - a thousand frames are free when the sanitizer starts, a
        comprehension takes one of them, and [re.sub] goes four frames
        deep, as CPython 3.11 does once the patterns are compiled. *)
Module CPython.
Import Py.

Definition lower_char (c : ascii) : ascii :=
  let n := nat_of_ascii c in
  if ((65 <=? n) && (n <=? 90))%nat then ascii_of_nat (n + 32) else c.

Fixpoint lower (s : string) : string :=
  match s with
  | EmptyString => EmptyString
  | String c rest => String (lower_char c) (lower rest)
  end.

Definition digit (c : ascii) : option Z :=
  let n := nat_of_ascii c in
  if ((48 <=? n) && (n <=? 57))%nat then Some (Z.of_nat (n - 48)) else None.

(** The number a string of digits denotes, after the digits [acc]. *)
Fixpoint digits (s : string) (acc : Z) : option Z :=
  match s with
  | EmptyString => Some acc
  | String c rest =>
      match digit c with
      | Some d => digits rest (10 * acc + d)
      | None => None
      end
  end.

Definition split_sign (s : string) : bool * string :=
  match s with
  | String "-" rest => (true, rest)
  | String "+" rest => (false, rest)
  | _ => (false, s)
  end.

Definition parse_int (s : string) : option Z :=
  let (negative, body) := split_sign s in
  match body with
  | EmptyString => None
  | _ =>
      match digits body 0 with
      | Some n => Some (if negative then - n else n)
      | None => None
      end
  end.

(** The text before the first ["."], and the text after it if any. *)
Fixpoint split_dot (s : string) : string * option string :=
  match s with
  | EmptyString => (EmptyString, None)
  | String "." rest => (EmptyString, Some rest)
  | String c rest =>
      let (whole, fraction) := split_dot rest in (String c whole, fraction)
  end.

Definition parse_float (s : string) : option pyfloat :=
  let (negative, body) := split_sign s in
  let (whole, fraction) := split_dot body in
  let fraction := match fraction with Some f => f | None => EmptyString end in
  match (String.length whole + String.length fraction)%nat with
  | O => None
  | _ =>
      match digits whole 0, digits fraction 0 with
      | Some w, Some f =>
          let scale := 10 ^ Z.of_nat (String.length fraction) in
          let n := w * scale + f in
          Some (FFin (Qmake (if negative then - n else n) (Z.to_pos scale)))
      | _, _ => None
      end
  end.

(** The digits of [r / d] after the point, at most [n] of them. *)
Fixpoint fraction_digits (n : nat) (r d : Z) : string :=
  match n with
  | O => EmptyString
  | S n' =>
      if r =? 0 then EmptyString
      else int_repr (10 * r / d) ++ fraction_digits n' (10 * r mod d) d
  end.

Definition print_float (f : pyfloat) : string :=
  match f with
  | FNan => "nan"
  | FInf true => "-inf"
  | FInf false => "inf"
  | FFin q =>
      let n := Z.abs (Qnum q) in
      let d := Z.pos (Qden q) in
      let fraction := fraction_digits 17 (n mod d) d in
      (if Qnum q <? 0 then "-" else EmptyString) ++ int_repr (n / d) ++ "." ++
      (match fraction with EmptyString => "0" | _ => fraction end)
  end.

Definition quote (s : string) : string := "'" ++ s ++ "'".

(** ** Regular expressions *)

Inductive atom : Set :=
| Lit (c : ascii)         (* the character, in either case *)
| AnyChar                 (* [.]: anything but a newline *)
| Space                   (* [\s] *)
| Not (c : ascii).        (* [[^c]] *)

Inductive quantifier : Set := Once | Greedy | Lazy.

Definition is_space (c : ascii) : bool :=
  let n := nat_of_ascii c in
  ((n =? 32) || ((9 <=? n) && (n <=? 13)) || ((28 <=? n) && (n <=? 31)))%nat.

Definition accepts (a : atom) (c : ascii) : bool :=
  match a with
  | Lit x => Ascii.eqb (lower_char x) (lower_char c)
  | AnyChar => negb (nat_of_ascii c =? 10)%nat
  | Space => is_space c
  | Not x => negb (Ascii.eqb x c)
  end.

(** Read one atom off a pattern. *)
Definition read_atom (p : string) : option (atom * string) :=
  match p with
  | EmptyString => None
  | String "\" (String "s" rest) => Some (Space, rest)
  | String "\" (String c rest) => Some (Lit c, rest)
  | String "[" (String "^" (String c (String "]" rest))) => Some (Not c, rest)
  | String "." rest => Some (AnyChar, rest)
  | String c rest => Some (Lit c, rest)
  end.

Definition read_quantifier (p : string) : quantifier * string :=
  match p with
  | String "*" (String "?" rest) => (Lazy, rest)
  | String "*" rest => (Greedy, rest)
  | _ => (Once, p)
  end.

Fixpoint compile (fuel : nat) (p : string) : list (atom * quantifier) :=
  match fuel with
  | O => []
  | S fuel' =>
      match read_atom p with
      | None => []
      | Some (a, rest) =>
          let (q, rest) := read_quantifier rest in
          (a, q) :: compile fuel' rest
      end
  end.

(** Match the pattern at the start of [s]: what is left of [s] after the
    match, if there is one. *)
Fixpoint match_here (items : list (atom * quantifier)) (s : string)
  : option string :=
  match items with
  | [] => Some s
  | (a, Once) :: rest =>
      match s with
      | String c t => if accepts a c then match_here rest t else None
      | EmptyString => None
      end
  | (a, Greedy) :: rest =>
      (fix star (s : string) : option string :=
         match s with
         | String c t =>
             if accepts a c
             then match star t with
                  | Some remaining => Some remaining
                  | None => match_here rest s
                  end
             else match_here rest s
         | EmptyString => match_here rest s
         end) s
  | (a, Lazy) :: rest =>
      (fix star (s : string) : option string :=
         match match_here rest s with
         | Some remaining => Some remaining
         | None =>
             match s with
             | String c t => if accepts a c then star t else None
             | EmptyString => None
             end
         end) s
  end.

(** Replace every match, scanning from the left. *)
Fixpoint replace_all (fuel : nat) (items : list (atom * quantifier))
    (repl s : string) : string :=
  match fuel with
  | O => s
  | S fuel' =>
      match match_here items s, s with
      | Some remaining, String c t =>
          if (String.length remaining <? String.length s)%nat
          then repl ++ replace_all fuel' items repl remaining
          else String c (replace_all fuel' items repl t)
      | None, String c t => String c (replace_all fuel' items repl t)
      | _, EmptyString => EmptyString
      end
  end.

Definition sub (pattern repl text : string) : string :=
  replace_all (S (String.length text))
    (compile (String.length pattern) pattern) repl text.

End CPython.

#[export] Instance cpython : Py.Runtime :=
  {| Py.str_lower := CPython.lower;
     Py.float_of_str := CPython.parse_float;
     Py.int_of_str := CPython.parse_int;
     Py.float_repr := CPython.print_float;
     Py.str_repr := CPython.quote;
     Py.re_sub := CPython.sub;
     Py.recursion_limit := 1000;
     Py.comprehension_frames := 1;
     Py.re_sub_frames := 4 |}.

(* ================================================================== *)
(** * Concrete requests                                               *)
(* ================================================================== *)

Module Requests.
Import Py.

(** A timestamp as [datetime.utcnow().isoformat()] prints one. *)
Definition noon : string := "2025-01-01T12:00:00.000000".

Definition midnight : string := "2025-01-02T00:00:00.000000".

(** [{"age": "abc"}]: an age that is text. *)
Definition context_with_text_age : value :=
  PDict [("age", PStr "abc")].

(** [{"age": 0}]: a child in the first year of life. *)
Definition context_newborn : value :=
  PDict [("age", PInt 0)].

(** [{"oxygen_saturation": 98}] *)
Definition vitals_healthy_oxygen : value :=
  PDict [("oxygen_saturation", PInt 98)].

(** [{"temperature_f": 104}] *)
Definition vitals_high_fever : value :=
  PDict [("temperature_f", PInt 104)].

(** [{"heart_rate": "abc"}] *)
Definition vitals_text_heart_rate : value :=
  PDict [("heart_rate", PStr "abc")].

(** [{"pain_scale": "abc", "breathing_difficulty": "yes"}] *)
Definition followup_text_pain : value :=
  PDict [("pain_scale", PStr "abc"); ("breathing_difficulty", PStr "yes")].

(** [["chest pain", "difficulty breathing"]] *)
Definition symptoms_chest_and_difficulty : list string :=
  ["chest pain"; "difficulty breathing"].

(** [["chest pain", "shortness of breath"]] *)
Definition symptoms_chest_and_shortness : list string :=
  ["chest pain"; "shortness of breath"].

(** [{"responses": {"mood_rating": 1, "anxiety_level": 10,
    "stress_level": 10}, "symptoms": ["suicidal thoughts"]}] *)
Definition questionnaire_suicidal_thoughts : value :=
  PDict [("responses",
          PDict [("mood_rating", PInt 1);
                 ("anxiety_level", PInt 10);
                 ("stress_level", PInt 10)]);
         ("symptoms", PList [PStr "suicidal thoughts"])].

(** The crisis-level input of [test_crisis_detection] in
    [backend/security_validation.py]. *)
Definition test_crisis_input : value :=
  PDict [("responses",
          PDict [("mood_rating", PInt 1);
                 ("anxiety_level", PInt 10);
                 ("sleep_quality", PInt 2)]);
         ("symptoms",
          PList [PStr "want to hurt myself"; PStr "suicidal thoughts";
                 PStr "hopeless"]);
         ("support_system",
          PStr "I feel like ending it all, no one cares")].

(** [{"responses": null}] *)
Definition questionnaire_null_responses : value :=
  PDict [("responses", PNone)].

(** [x] under [n] list brackets. *)
Fixpoint nested (n : nat) (x : value) : value :=
  match n with
  | O => x
  | S n' => PList [nested n' x]
  end.

(** [{"symptoms": [[...["<script>alert(1)</script>"]...]]}], the text
    under 1000 brackets. *)
Definition deeply_nested_script : value :=
  PDict [("symptoms", nested 1000 (PStr "<script>alert(1)</script>"))].

(** A symptom scorer that raises, as a method of [self] can. *)
Definition raising_scorers : RiskAssessmentService.Scorers :=
  {| RiskAssessmentService.score_symptoms := fun _ => Raise TypeError;
     RiskAssessmentService.score_vitals :=
       RiskAssessmentService.score_vitals RiskAssessmentService.this;
     RiskAssessmentService.score_context :=
       RiskAssessmentService.score_context RiskAssessmentService.this;
     RiskAssessmentService.score_followup :=
       RiskAssessmentService.score_followup RiskAssessmentService.this |}.

End Requests.

(* ================================================================== *)
(** * Notions the statements use                                      *)
(* ================================================================== *)

Module Notions.
Import Py.
Import RiskAssessmentService.

(** The bands of a vital sign are nested: normal inside concerning
    inside critical. *)
Definition nested_bands (b : Bands) : Prop :=
  (fst (critical b) <= fst (concerning b) /\
   fst (concerning b) <= fst (normal b) /\
   snd (normal b) <= snd (concerning b) /\
   snd (concerning b) <= snd (critical b))%Q.

(** The state of the vitals loop after [st], when a further run of the
    loop from [vital_init] ends in [d]. *)
Definition vs_app (st d : VitalState) : VitalState :=
  {| v_score := v_score st + v_score d;
     v_factors := app (v_factors st) (v_factors d);
     v_abnormal := app (v_abnormal st) (v_abnormal d) |}.

(** What a step of the aggregator adds to the total: the score of the
    component when the step's input is given, nothing otherwise. *)
Definition share (input : value) (c : RiskComponent) : Z :=
  if truthy input then score c else 0.

(** The factors a step of the aggregator appends. *)
Definition shared_factors (input : value) (c : RiskComponent) : list string :=
  if truthy input then factors c else [].

End Notions.

(* ================================================================== *)
(** * Further operations on Python values                             *)
(* ================================================================== *)

Module PyMore.
Import Py.

(** [x in container] for a [str] [x]: an element of a list that equals
    it, a substring of a [str], a key of a dictionary; [TypeError] on a
    value that is no container. *)
Definition contained (x : string) (container : value) : exc bool :=
  match container with
  | PList l => Ret (existsb (fun element => eq_str element x) l)
  | PStr s => Ret (contains x s)
  | PDict items =>
      Ret (match lookup x items with Some _ => true | None => false end)
  | PNone | PBool _ | PInt _ | PFloat _ => Raise TypeError
  end.

End PyMore.

(* ================================================================== *)
(** * services/mental_health_security.py, consent validation          *)
(* ================================================================== *)

Module MentalHealthComplianceService.
Import Py.

(** The dictionary [validate_mental_health_consent] returns; the keys
    that only one of its two [return] statements sets are optional. *)
Record ConsentResult : Type := {
  valid : bool;
  missing_consents : option (list string);
  special_requirements : option (list string);
  error : option string;
  timestamp : string
}.

Definition required_mental_health_consents : list string := [
  "psychological_assessment";
  "crisis_intervention";
  "professional_referral";
  "emergency_contact";
  "data_retention_mental_health"
].

(** [for consent in required: if consent not in provided_consents:
    missing_consents.append(consent)] *)
Fixpoint missing_loop (required : list string) (provided_consents : value)
    (missing_consents : list string) : exc (list string) :=
  match required with
  | [] => Ret missing_consents
  | consent :: rest =>
      present <- PyMore.contained consent provided_consents ;;
      missing_loop rest provided_consents
        (if present then missing_consents
         else app missing_consents [consent])
  end.

(** The [try] block of [validate_mental_health_consent]; [now] is what
    [datetime.utcnow().isoformat()] returns at the call. *)
Definition consent_body (now : string) (consent_data : value)
  : exc ConsentResult :=
  provided_consents <- Py.get consent_data "consent_types" (PList []) ;;
  missing_consents <-
    missing_loop required_mental_health_consents provided_consents [] ;;
  Ret {| valid := (List.length missing_consents =? 0)%nat;
         missing_consents := Some missing_consents;
         special_requirements :=
           Some ["Crisis intervention consent required";
                 "Professional referral authorization needed";
                 "Emergency contact permission required"];
         error := None;
         timestamp := now |}.

Definition validate_mental_health_consent (now : string)
    (consent_data : value) : ConsentResult :=
  try_except (consent_body now consent_data)
    (fun _ => {| valid := false;
                 missing_consents := None;
                 special_requirements := None;
                 error := Some "Consent validation failed";
                 timestamp := now |}).

End MentalHealthComplianceService.

(* ================================================================== *)
(** * services/conversation_service.py                                *)
(* ================================================================== *)

Module ConversationService.
Import Py.

(** One follow-up question.  [options] and [unit] are keys only some of
    the questions have. *)
Record Question : Type := {
  q_id : string;
  q_question : string;
  q_type : string;
  q_options : option (list value);
  q_unit : option string;
  q_required : bool
}.

Definition pain_symptoms : list string :=
  ["pain"; "ache"; "hurt"; "sore"; "tender"; "sharp"; "dull"].

Definition fever_symptoms : list string :=
  ["fever"; "temperature"; "hot"; "chills"; "sweating"].

Definition respiratory_symptoms : list string :=
  ["cough"; "breathing"; "shortness"; "wheeze"; "chest"].

Definition digestive_symptoms : list string :=
  ["nausea"; "vomit"; "stomach"; "abdominal"; "diarrhea"; "constipation"].

Definition pain_questions : list Question := [
  {| q_id := "pain_scale";
     q_question := "On a scale of 1-10, how would you rate your pain level?";
     q_type := "scale";
     q_options := Some (map PInt [1; 2; 3; 4; 5; 6; 7; 8; 9; 10]);
     q_unit := None;
     q_required := true |};
  {| q_id := "pain_type";
     q_question := "How would you describe the pain?";
     q_type := "multiple_choice";
     q_options :=
       Some (map PStr ["Sharp/stabbing"; "Dull/aching"; "Burning";
                       "Throbbing"; "Cramping"]);
     q_unit := None;
     q_required := true |};
  {| q_id := "pain_triggers";
     q_question := "What makes the pain worse?";
     q_type := "multiple_choice";
     q_options :=
       Some (map PStr ["Movement"; "Rest"; "Eating"; "Breathing"; "Touch";
                       "Nothing specific"]);
     q_unit := None;
     q_required := false |}
].

Definition fever_questions : list Question := [
  {| q_id := "temperature_reading";
     q_question := "What is your current temperature (if measured)?";
     q_type := "number";
     q_options := None;
     q_unit := Some "°F";
     q_required := false |};
  {| q_id := "fever_duration";
     q_question := "How long have you had the fever?";
     q_type := "multiple_choice";
     q_options :=
       Some (map PStr ["Less than 24 hours"; "1-2 days"; "3-5 days";
                       "More than 5 days"]);
     q_unit := None;
     q_required := true |}
].

Definition respiratory_questions : list Question := [
  {| q_id := "breathing_difficulty";
     q_question := "Are you having difficulty breathing?";
     q_type := "yes_no";
     q_options := None;
     q_unit := None;
     q_required := true |};
  {| q_id := "cough_type";
     q_question := "If you have a cough, is it:";
     q_type := "multiple_choice";
     q_options :=
       Some (map PStr ["Dry cough"; "Cough with phlegm"; "Cough with blood";
                       "No cough"]);
     q_unit := None;
     q_required := false |}
].

Definition digestive_questions : list Question := [
  {| q_id := "last_meal";
     q_question := "When did you last eat, and what did you eat?";
     q_type := "text";
     q_options := None;
     q_unit := None;
     q_required := false |};
  {| q_id := "digestive_frequency";
     q_question := "How often are you experiencing these symptoms?";
     q_type := "multiple_choice";
     q_options :=
       Some (map PStr ["Constantly"; "Several times a day"; "Once a day";
                       "Occasionally"]);
     q_unit := None;
     q_required := true |}
].

Definition general_questions : list Question := [
  {| q_id := "recent_travel";
     q_question :=
       "Have you traveled recently or been exposed to anyone who is sick?";
     q_type := "yes_no_text";
     q_options := None;
     q_unit := None;
     q_required := false |};
  {| q_id := "medications";
     q_question := "Are you currently taking any medications?";
     q_type := "yes_no_text";
     q_options := None;
     q_unit := None;
     q_required := false |};
  {| q_id := "symptom_progression";
     q_question :=
       "Are your symptoms getting better, worse, or staying the same?";
     q_type := "multiple_choice";
     q_options :=
       Some (map PStr ["Getting better"; "Getting worse"; "Staying the same";
                       "Fluctuating"]);
     q_unit := None;
     q_required := true |}
].

(** The dictionary [question_context]. *)
Record QuestionContext : Type := {
  assessment_id : value;
  symptoms_analyzed : value;
  question_round : Z
}.

(** The dictionary [generate_follow_up_questions] returns; the keys that
    only one of its two [return] statements sets are optional, and
    [error] holds the exception whose text the handler stores. *)
Record FollowUp : Type := {
  success : bool;
  has_follow_up : bool;
  questions : list Question;
  context : option QuestionContext;
  total_questions : option Z;
  estimated_time_minutes : option pyfloat;
  error : option exn
}.

(** [any(word in text for word in words)] *)
Definition mentions (words : list string) (text : string) : bool :=
  existsb (fun word => contains word text) words.

(** [follow_up_questions.extend(block)] under its [if]. *)
Definition extend_if (triggered : bool) (block follow_up_questions
    : list Question) : list Question :=
  if triggered then app follow_up_questions block else follow_up_questions.

Section Service.
Context {rt : Runtime}.

(** The [try] block of [generate_follow_up_questions]. *)
Definition questions_body (initial_assessment symptoms : value)
  : exc FollowUp :=
  assessment_id <- Py.get initial_assessment "assessment_id" PNone ;;
  let question_context :=
    {| assessment_id := assessment_id;
       symptoms_analyzed := symptoms;
       question_round := 1 |} in
  joined <- Py.str_join " " symptoms ;;
  let text := str_lower joined in
  let follow_up_questions := [] in
  let follow_up_questions :=
    extend_if (mentions pain_symptoms text) pain_questions
      follow_up_questions in
  let follow_up_questions :=
    extend_if (mentions fever_symptoms text) fever_questions
      follow_up_questions in
  let follow_up_questions :=
    extend_if (mentions respiratory_symptoms text) respiratory_questions
      follow_up_questions in
  let follow_up_questions :=
    extend_if (mentions digestive_symptoms text) digestive_questions
      follow_up_questions in
  let follow_up_questions := app follow_up_questions general_questions in
  let prioritized_questions := firstn 5 follow_up_questions in
  let count := Z.of_nat (List.length prioritized_questions) in
  Ret {| success := true;
         has_follow_up := 0 <? count;
         questions := prioritized_questions;
         context := Some question_context;
         total_questions := Some count;
         estimated_time_minutes := Some (FFin (inject_Z count * (1 # 2)));
         error := None |}.

Definition generate_follow_up_questions
    (initial_assessment symptoms : value) : FollowUp :=
  try_except (questions_body initial_assessment symptoms)
    (fun e => {| success := false;
                 has_follow_up := false;
                 questions := [];
                 context := None;
                 total_questions := None;
                 estimated_time_minutes := None;
                 error := Some e |}).

(** The local variables of [_analyze_follow_up_risk]. *)
Record Analysis : Type := {
  a_risk_score : Z;
  a_insights : list string;
  a_recommendations : list string;
  a_escalated : bool
}.

(** The dictionary [_analyze_follow_up_risk] returns. *)
Record FollowUpRisk : Type := {
  risk_level : string;
  risk_score : Z;
  escalated : bool;
  insights : list string;
  recommendations : list string
}.

(** [risk_score += weight; insights.append(insight)], and for a branch
    that escalates [recommendations.append(...); escalated = True]. *)
Definition note (weight : Z) (insight : string) (st : Analysis) : Analysis :=
  {| a_risk_score := a_risk_score st + weight;
     a_insights := app (a_insights st) [insight];
     a_recommendations := a_recommendations st;
     a_escalated := a_escalated st |}.

Definition advise (recommendation : string) (st : Analysis) : Analysis :=
  {| a_risk_score := a_risk_score st;
     a_insights := a_insights st;
     a_recommendations := app (a_recommendations st) [recommendation];
     a_escalated := a_escalated st |}.

Definition escalate (st : Analysis) : Analysis :=
  {| a_risk_score := a_risk_score st;
     a_insights := a_insights st;
     a_recommendations := a_recommendations st;
     a_escalated := true |}.

(** The pain rule, from [if pain_scale:] on. *)
Definition analyze_pain (pain_scale : value) (st : Analysis) : exc Analysis :=
  if Py.truthy pain_scale then
    pain_level <- Py.to_int pain_scale ;;
    if 8 <=? pain_level then
      Ret (escalate
             (advise "Consider immediate medical attention for severe pain"
                (note 3 ("Severe pain level (" ++ Py.str pain_scale
                         ++ "/10) indicates significant discomfort") st)))
    else
      pain_level <- Py.to_int pain_scale ;;
      if 6 <=? pain_level then
        Ret (note 2 ("Moderate to severe pain (" ++ Py.str pain_scale
                     ++ "/10)") st)
      else Ret st
  else Ret st.

(** The temperature rule, from [if temperature:] on. *)
Definition analyze_temperature (temperature : value) (st : Analysis)
  : exc Analysis :=
  if Py.truthy temperature then
    temp_float <- Py.to_float temperature ;;
    if float_le (FFin 103) temp_float then
      Ret (escalate
             (advise "High fever - see doctor or go to ER"
                (note 3 ("High fever (" ++ float_repr temp_float
                         ++ "°F) requires medical attention") st)))
    else if float_le (FFin 101) temp_float then
      Ret (note 2 ("Moderate fever (" ++ float_repr temp_float ++ "°F)") st)
    else Ret st
  else Ret st.

(** The thresholds of [_analyze_follow_up_risk]. *)
Definition level_of (risk_score : Z) : string :=
  if 6 <=? risk_score then "HIGH"
  else if 3 <=? risk_score then "MODERATE"
  else "LOW".

(** The [try] block of [_analyze_follow_up_risk]. *)
Definition analysis_body (answers : value) : exc FollowUpRisk :=
  let st := {| a_risk_score := 0; a_insights := [];
               a_recommendations := []; a_escalated := false |} in
  pain_scale <- Py.get answers "pain_scale" PNone ;;
  st <- analyze_pain pain_scale st ;;
  breathing <- Py.get answers "breathing_difficulty" PNone ;;
  let st :=
    if Py.eq_str breathing "yes"
    then escalate
           (advise
              "URGENT: Seek immediate medical attention for breathing problems"
              (note 4 "Breathing difficulty is a serious symptom" st))
    else st in
  temperature <- Py.get answers "temperature_reading" PNone ;;
  st <- analyze_temperature temperature st ;;
  progression <- Py.get answers "symptom_progression" PNone ;;
  let st :=
    if Py.eq_str progression "Getting worse"
    then advise
           "Symptoms are worsening - consider seeing a healthcare provider"
           (note 2 "Worsening symptoms indicate need for medical evaluation"
              st)
    else st in
  Ret {| risk_level := level_of (a_risk_score st);
         risk_score := a_risk_score st;
         escalated := a_escalated st;
         insights := a_insights st;
         recommendations := a_recommendations st |}.

Definition analysis_fallback : FollowUpRisk :=
  {| risk_level := "MODERATE";
     risk_score := 3;
     escalated := true;
     insights := ["Error in risk analysis - defaulting to moderate risk"];
     recommendations :=
       ["Consult healthcare provider due to assessment error"] |}.

Definition _analyze_follow_up_risk (answers : value) : FollowUpRisk :=
  try_except (analysis_body answers) (fun _ => analysis_fallback).

End Service.

End ConversationService.

(* ================================================================== *)
(** * Further notions the statements use                              *)
(* ================================================================== *)

Module Measures.
Import Py.

(** The place of a risk level on the ladder from LOW to CRITICAL. *)
Definition rank (level : string) : nat :=
  if String.eqb level "CRITICAL" then 4
  else if String.eqb level "HIGH" then 3
  else if String.eqb level "MODERATE" then 2
  else if String.eqb level "LOW_MODERATE" then 1
  else 0.

(** The frames [clean_dict] needs on a value: one for its own call,
    on a [str] those of [clean_text] and [re.sub], on a list or a
    dictionary those of the comprehension and of its neediest item. *)
Fixpoint stack_need {rt : Runtime} (v : value) : nat :=
  match v with
  | PList l =>
      S (comprehension_frames
         + (fix neediest (l : list value) : nat :=
              match l with
              | [] => O
              | x :: rest => Nat.max (stack_need x) (neediest rest)
              end) l)
  | PDict items =>
      S (comprehension_frames
         + (fix neediest (items : list (string * value)) : nat :=
              match items with
              | [] => O
              | (_, x) :: rest => Nat.max (stack_need x) (neediest rest)
              end) items)
  | PStr _ => S (S re_sub_frames)
  | _ => 1%nat
  end.

(** The weight the crisis detector gives to an indicator it reports,
    read off the text of the indicator. *)
Definition indicator_weight (indicator : string) : Z :=
  if String.prefix "Crisis indicator: " indicator then 10
  else if String.prefix "High risk indicator: " indicator then 5
  else if String.prefix "Moderate risk indicator: " indicator then 2
  else if String.eqb indicator "Very low mood rating" then 3
  else if String.eqb indicator "High anxiety level" then 2
  else if String.eqb indicator "High stress level" then 2
  else 0.

(** The sum of the weights of a list of indicators. *)
Definition weigh (indicators : list string) : Z :=
  fold_right (fun i total => indicator_weight i + total) 0 indicators.

(** The points the context scorer gives to an integer age.  An age of 0
    is no age to [if age:]. *)
Definition age_points (age : Z) : Z :=
  if age =? 0 then 0
  else if 65 <=? age then 2
  else if age <=? 2 then 3
  else if age <=? 12 then 1
  else 0.

(** [d.get(key)] on the items of a dictionary. *)
Definition get_or_none (key : string) (items : list (string * value))
  : value :=
  match lookup key items with Some v => v | None => PNone end.

(** A text of ASCII characters: every byte is below 128, and is a
    character. *)
Definition is_ascii_char (c : ascii) : bool :=
  match c with Ascii _ _ _ _ _ _ _ high => negb high end.

Fixpoint is_ascii (s : string) : bool :=
  match s with
  | EmptyString => true
  | String c rest => is_ascii_char c && is_ascii rest
  end.

(** Every second character of [t], from the second on, is a space: the
    shape of a text joined from single characters. *)
Fixpoint spaced (t : string) : bool :=
  match t with
  | EmptyString => true
  | String _ EmptyString => true
  | String _ (String c rest) => Ascii.eqb c " " && spaced rest
  end.

(** The first two characters of [keyword] are no spaces. *)
Definition starts_with_two_letters (keyword : string) : bool :=
  match keyword with
  | String a (String b _) => negb (Ascii.eqb a " ") && negb (Ascii.eqb b " ")
  | _ => false
  end.


(** [f] applied to every value inside [v] that is neither a list nor a
    dictionary; keys, order and nesting stay as they are. *)
Fixpoint map_leaves (f : value -> value) (v : value) : value :=
  match v with
  | PList l => PList (map (map_leaves f) l)
  | PDict items =>
      PDict ((fix each (items : list (string * value))
                : list (string * value) :=
                match items with
                | [] => []
                | (k, x) :: rest => (k, map_leaves f x) :: each rest
                end) items)
  | _ => f v
  end.

(** The questions of a block that are asked, by their [id]. *)
Definition asked (id : string)
    (questions : list ConversationService.Question) : bool :=
  existsb (fun q => String.eqb (ConversationService.q_id q) id) questions.

(** A medical-history entry names a high-risk condition. *)
Definition names_high_risk_condition {rt : Runtime} (condition : string)
  : bool :=
  existsb (fun risk_condition => contains risk_condition (str_lower condition))
    RiskAssessmentService.high_risk_conditions.

(** What the loop of the vitals scorer keeps true of its state, [k]
    items into a dictionary whose keys are [keys]: every flagged vital is
    a key of the dictionary and a vital of the table, each is worth
    between 2 and 6, and at most one factor is written per item. *)
Definition vital_invariant (keys : list string) (k : nat)
    (st : RiskAssessmentService.VitalState) : Prop :=
  2 * Z.of_nat (List.length (RiskAssessmentService.v_abnormal st))
    <= RiskAssessmentService.v_score st
    <= 6 * Z.of_nat (List.length (RiskAssessmentService.v_abnormal st)) /\
  (List.length (RiskAssessmentService.v_abnormal st)
     <= List.length (RiskAssessmentService.v_factors st) <= k)%nat /\
  forall name, In name (RiskAssessmentService.v_abnormal st) ->
    In name keys /\
    exists ranges,
      RiskAssessmentService.ranges_of name RiskAssessmentService.vital_ranges
        = Some ranges.

End Measures.
(* ================================================================== *)
(** * Further concrete requests                                       *)
(* ================================================================== *)

Module Cases.
Import Py.

(** [{"oxygen_saturation": 85}] *)
Definition low_oxygen : value := PInt 85.

(** [{"temperature_f": 104, "heart_rate": "abc", "mood": 3}] *)
Definition vitals_mixed : list (string * value) :=
  [("temperature_f", PInt 104); ("heart_rate", PStr "abc");
   ("mood", PInt 3)].

(** [["Crushing CHEST PAIN since noon"]] *)
Definition symptoms_upper_case : list string :=
  ["Crushing CHEST PAIN since noon"].

(** A script under [n] list brackets, as the value of [symptoms]. *)
Definition script_under (n : nat) : value :=
  PDict [("symptoms", Requests.nested n (PStr "<script>alert(1)</script>"))].

(** ["chest pain and fever"], the symptoms as one string. *)
Definition symptoms_text : string := "chest pain and fever".

(** [{"responses": {"mood_rating": 5}, "symptoms": ["I think about
    suicide"]}] *)
Definition questionnaire_with_crisis_symptom : list (string * value) :=
  [("responses", PDict [("mood_rating", PInt 5)]);
   ("symptoms", PList [PStr "I think about suicide"])].

(** [{"responses": null, "symptoms": ["I think about suicide"]}]: the
    [responses] make the assessment fail. *)
Definition questionnaire_failing : list (string * value) :=
  [("responses", PNone); ("symptoms", PList [PStr "I think about suicide"])].

(** [{"consent_types": ["crisis_intervention", "marketing", 7]}] *)
Definition consent_partial : value :=
  PDict [("consent_types",
          PList [PStr "crisis_intervention"; PStr "marketing"; PInt 7])].

(** [{"pain_scale": 9, "breathing_difficulty": "yes"}] *)
Definition answers_severe : list (string * value) :=
  [("pain_scale", PInt 9); ("breathing_difficulty", PStr "yes")].

(** [{"age": 70, "medical_history": ["Type 2 Diabetes",
    "asthma and copd", "hay fever"], "pregnant": false}] *)
Definition history_of_three : list string :=
  ["Type 2 Diabetes"; "asthma and copd"; "hay fever"].

Definition context_senior : list (string * value) :=
  [("age", PInt 70);
   ("medical_history", PList (map PStr history_of_three));
   ("pregnant", PBool false)].

(** The moderate-risk input of [test_crisis_detection] in
    [backend/security_validation.py], which the script expects to be
    rated "moderate" or "low". *)
Definition test_moderate_input : value :=
  PDict [("responses",
          PDict [("mood_rating", PInt 4); ("anxiety_level", PInt 6)]);
         ("symptoms", PList [PStr "feeling sad"; PStr "worried about work"]);
         ("support_system",
          PStr "have some friends but feeling overwhelmed")].

End Cases.

(* ================================================================== *)
(** * Properties                                                      *)
(* ================================================================== *)

Import Py.

(** ** The exception monad *)

Lemma bind_ret_inv {A B : Type} (c : exc A) (k : A -> exc B) (b : B) :
  Py.bind c k = Ret b -> exists a, c = Ret a /\ k a = Ret b.
Proof.
  destruct c as [a | e]; simpl; intros H; [eauto | discriminate].
Qed.

Lemma try_except_ret {A : Type} (a : A) (h : exn -> A) :
  try_except (Ret a) h = a.
Proof. reflexivity. Qed.

Lemma try_except_raise {A : Type} (e : exn) (h : exn -> A) :
  try_except (Raise e) h = h e.
Proof. reflexivity. Qed.

(** Split an equation [x <- c ;; k = Ret b] into its two steps. *)
Ltac bind_inv H :=
  let a := fresh "a" in
  let Ha := fresh "Ha" in
  apply bind_ret_inv in H; destruct H as (a & Ha & H).

(** ** The keyword loop *)

Section KeywordLoop.

Variables (weight : Z) (label text : string).

(** The loop adds [weight] per keyword found, and one factor for each,
    in the order of the list. *)
Lemma keyword_pass_spec (keywords : list string) (st : Z * list string) :
  keyword_pass weight label keywords text st =
  (fst st + weight * Z.of_nat (List.length (hits text keywords)),
   app (snd st) (map (fun keyword => label ++ keyword) (hits text keywords))).
Proof.
  revert st; induction keywords as [| keyword rest IH]; intros [n fs].
  - simpl. rewrite Z.mul_0_r, Z.add_0_r, app_nil_r. reflexivity.
  - cbn [keyword_pass hits filter]. rewrite IH. fold (hits text rest).
    destruct (contains keyword text).
    + cbn [fst snd List.length map]. rewrite <- app_assoc. f_equal.
      rewrite Nat2Z.inj_succ. lia.
    + reflexivity.
Qed.

Lemma hits_length_le (keywords : list string) :
  (List.length (hits text keywords) <= List.length keywords)%nat.
Proof. apply filter_length_le. Qed.

Lemma hit_in (keyword : string) (keywords : list string) :
  In keyword keywords -> contains keyword text = true ->
  In keyword (hits text keywords).
Proof. intros Hin Hc. apply filter_In. split; assumption. Qed.

Lemma keyword_pass_bounds (keywords : list string) (st : Z * list string) :
  0 <= weight ->
  fst st <= fst (keyword_pass weight label keywords text st)
         <= fst st + weight * Z.of_nat (List.length keywords).
Proof.
  intros Hw. rewrite keyword_pass_spec. cbn [fst].
  pose proof (hits_length_le keywords). nia.
Qed.

Lemma keyword_pass_keeps (keywords : list string) (st : Z * list string)
    (factor : string) :
  In factor (snd st) ->
  In factor (snd (keyword_pass weight label keywords text st)).
Proof.
  intros Hin. rewrite keyword_pass_spec. cbn [snd]. apply in_or_app. now left.
Qed.

Lemma keyword_pass_reports (keywords : list string) (st : Z * list string)
    (keyword : string) :
  In keyword keywords -> contains keyword text = true ->
  In (label ++ keyword) (snd (keyword_pass weight label keywords text st)).
Proof.
  intros Hin Hc. rewrite keyword_pass_spec. cbn [snd]. apply in_or_app. right.
  apply in_map with (f := fun keyword => label ++ keyword).
  now apply hit_in.
Qed.

End KeywordLoop.

Arguments keyword_pass : simpl never.

Lemma if_bump_fst_le (c : bool) (w : Z) (f : string) (st : Z * list string) :
  0 <= w -> fst st <= fst (if c then bump w f st else st).
Proof. destruct c; unfold bump; cbn; lia. Qed.

Lemma if_bump_keeps (c : bool) (w : Z) (f : string) (st : Z * list string)
    (x : string) :
  In x (snd st) -> In x (snd (if c then bump w f st else st)).
Proof.
  destruct c; unfold bump; cbn; [| tauto].
  intros; apply in_or_app; now left.
Qed.

(* ------------------------------------------------------------------ *)
(** ** The crisis detector                                            *)
(* ------------------------------------------------------------------ *)

Section CrisisDetector.
Context {rt : Runtime}.
Import MentalHealthSecurityService.

Lemma rating_rule_bounds (rating : value) (test : Z -> bool) (w : Z)
    (indicator : string) (st : Z * list string) :
  0 <= w ->
  fst st <= fst (rating_rule rating test w indicator st) <= fst st + w.
Proof.
  intros Hw. unfold rating_rule, bump.
  destruct (as_int rating) as [n |]; [destruct (test n) |]; simpl; lia.
Qed.

(** What the [try] block returns when it returns: a score between 0 and
    143 (eight keywords in each tier and the three ratings), the level
    the thresholds give, and the two flags read off the level. *)
Lemma crisis_body_shape (now : string) (user_input : value)
    (r : CrisisResult) :
  crisis_body now user_input = Ret r ->
  0 <= risk_score r <= 143 /\
  risk_level r = level_of (risk_score r) /\
  crisis_intervention_needed r = String.eqb (risk_level r) "crisis" /\
  professional_referral_suggested r =
    existsb (String.eqb (risk_level r)) ["crisis"; "high"] /\
  assessment_timestamp r = now.
Proof.
  unfold crisis_body. intros H.
  do 8 bind_inv H.
  injection H as <-. cbn [risk_score risk_level crisis_intervention_needed
    professional_referral_suggested assessment_timestamp].
  repeat split; try reflexivity;
    match type of Ha6 with context [join ?sep ?parts] =>
      set (all_text := join sep parts) in Ha6 end;
    pose proof (keyword_pass_bounds 10 "Crisis indicator: " all_text
                  (crisis risk_keywords) (0, [])) as B1;
    set (st1 := keyword_pass 10 _ _ _ _) in *;
    pose proof (keyword_pass_bounds 5 "High risk indicator: " all_text
                  (high_risk risk_keywords) st1) as B2;
    set (st2 := keyword_pass 5 _ _ _ _) in *;
    pose proof (keyword_pass_bounds 2 "Moderate risk indicator: " all_text
                  (moderate_risk risk_keywords) st2) as B3;
    set (st3 := keyword_pass 2 _ _ _ _) in *;
    cbn in B1, B2, B3;
    (destruct (is_dict a);
     [ do 3 bind_inv Ha6; injection Ha6 as <-;
       match goal with |- context [rating_rule ?r3 ?t3 2 ?i3
                                    (rating_rule ?r2 ?t2 2 ?i2
                                       (rating_rule ?r1 ?t1 3 ?i1 st3))] =>
         pose proof (rating_rule_bounds r1 t1 3 i1 st3);
         pose proof (rating_rule_bounds r2 t2 2 i2
                       (rating_rule r1 t1 3 i1 st3));
         pose proof (rating_rule_bounds r3 t3 2 i3
                       (rating_rule r2 t2 2 i2 (rating_rule r1 t1 3 i1 st3)))
       end; lia
     | injection Ha6 as <-; lia ]).
Qed.

Lemma level_of_crisis (n : Z) : level_of n = "crisis" <-> 10 <= n.
Proof.
  unfold level_of.
  destruct (10 <=? n) eqn:H10; [apply Z.leb_le in H10; tauto |].
  apply Z.leb_gt in H10.
  destruct (6 <=? n); [| destruct (3 <=? n)];
    (split; [discriminate | lia]).
Qed.

Lemma level_of_high (n : Z) : level_of n = "high" <-> 6 <= n < 10.
Proof.
  unfold level_of.
  destruct (10 <=? n) eqn:H10;
    [apply Z.leb_le in H10; split; [discriminate | lia] |].
  apply Z.leb_gt in H10.
  destruct (6 <=? n) eqn:H6;
    [apply Z.leb_le in H6; split; [lia | reflexivity] |].
  apply Z.leb_gt in H6.
  destruct (3 <=? n); (split; [discriminate | lia]).
Qed.

(** Claim C2.  Whenever the [try] block of [assess_crisis_risk] raises,
    the caller still gets a result, and it is the fail-safe one: level
    "high", score 999, the single indicator "Assessment system error -
    defaulting to high risk", both flags true.  Whenever the block
    returns, that is the result, and its score lies between 0 and 143, so
    that 999 is the score of the error path only. *)
Theorem crisis_detector_fails_safe_with_sentinel
    (now : string) (user_input : value) :
  match crisis_body now user_input with
  | Raise _ =>
      let r := assess_crisis_risk now user_input in
      risk_level r = "high" /\
      risk_score r = 999 /\
      risk_indicators r =
        ["Assessment system error - defaulting to high risk"] /\
      crisis_intervention_needed r = true /\
      professional_referral_suggested r = true
  | Ret r =>
      assess_crisis_risk now user_input = r /\
      0 <= risk_score r <= 143 /\
      risk_score r <> 999
  end.
Proof.
  unfold assess_crisis_risk.
  destruct (crisis_body now user_input) as [r | e] eqn:Hbody.
  - rewrite try_except_ret. split; [reflexivity |].
    apply crisis_body_shape in Hbody. lia.
  - rewrite try_except_raise. cbn. repeat split.
Qed.

(** Claim C3, where the code departs from it.  For responses
    [{mood_rating: 1, anxiety_level: 10, stress_level: 10}] and symptoms
    [["suicidal thoughts"]], the detector returns score 7, not 17 or
    more: the crisis list holds "suicide", which "suicidal thoughts" does
    not contain, so the phrase is missed and only the three ratings add
    3 + 2 + 2.  The level is "high", not "crisis", and crisis
    intervention is not flagged. *)
Theorem suicidal_thoughts_questionnaire_scores_high (now : string) :
  str_lower "suicidal thoughts" = "suicidal thoughts" ->
  assess_crisis_risk now Requests.questionnaire_suicidal_thoughts =
  {| risk_level := "high";
     risk_score := 7;
     risk_indicators :=
       ["Very low mood rating"; "High anxiety level"; "High stress level"];
     crisis_intervention_needed := false;
     professional_referral_suggested := true;
     assessment_timestamp := now |}.
Proof.
  intros Hlower.
  unfold assess_crisis_risk, crisis_body,
    Requests.questionnaire_suicidal_thoughts.
  cbn [get lookup String.eqb Ascii.eqb Bool.eqb Py.bind items_of
       response_texts iter lowered map str app truthy negb].
  rewrite Hlower. reflexivity.
Qed.

(** Claim C4, amended.  On every result, a referral is suggested exactly
    when the level is "crisis" or "high".  Crisis intervention is flagged
    exactly when the level is "crisis" on every result the [try] block
    returns; the fail-safe result of the error path flags it under the
    level "high". *)
Theorem crisis_flags_follow_risk_level (now : string) (user_input : value) :
  let r := assess_crisis_risk now user_input in
  (professional_referral_suggested r = true <->
   risk_level r = "crisis" \/ risk_level r = "high") /\
  match crisis_body now user_input with
  | Ret _ => crisis_intervention_needed r = true <-> risk_level r = "crisis"
  | Raise _ => crisis_intervention_needed r = true /\ risk_level r = "high"
  end.
Proof.
  unfold assess_crisis_risk.
  destruct (crisis_body now user_input) as [r | e] eqn:Hbody.
  - rewrite try_except_ret. cbv zeta.
    apply crisis_body_shape in Hbody as (_ & Hlevel & Hcrisis & Hreferral & _).
    rewrite Hcrisis, Hreferral. cbn [existsb].
    rewrite orb_false_r, orb_true_iff, !String.eqb_eq. tauto.
  - rewrite try_except_raise. cbn. intuition congruence.
Qed.

End CrisisDetector.

Section CrisisDetectorRuns.
Import MentalHealthSecurityService.

(** A questionnaire whose [responses] is [null] takes the error path:
    [None.items()] raises, and the sentinel comes back. *)
Lemma null_responses_return_the_sentinel :
  crisis_body Requests.noon Requests.questionnaire_null_responses
    = Raise AttributeError /\
  risk_score
    (assess_crisis_risk Requests.noon Requests.questionnaire_null_responses)
    = 999 /\
  risk_level
    (assess_crisis_risk Requests.noon Requests.questionnaire_null_responses)
    = "high".
Proof.
  split; [reflexivity |].
  pose proof (crisis_detector_fails_safe_with_sentinel Requests.noon
                Requests.questionnaire_null_responses) as H.
  cbv zeta in H. destruct H as (Hlevel & Hscore & _).
  split; assumption.
Defined.

(** The crisis-level input of the repository's own check is classified
    "crisis", through "hurt myself" (10), "hopeless" (5) and the two
    ratings (3 + 2). *)
Example test_crisis_detection_passes :
  assess_crisis_risk Requests.noon Requests.test_crisis_input =
  {| risk_level := "crisis";
     risk_score := 20;
     risk_indicators :=
       ["Crisis indicator: hurt myself"; "High risk indicator: hopeless";
        "Very low mood rating"; "High anxiety level"];
     crisis_intervention_needed := true;
     professional_referral_suggested := true;
     assessment_timestamp := Requests.noon |}.
Proof. reflexivity. Qed.

(** On the reference runtime: the questionnaire of C3 scores 7, not 17
    or more, and is classified "high", not "crisis". *)
Lemma suicidal_thoughts_questionnaire_is_not_a_crisis :
  risk_score
    (assess_crisis_risk Requests.noon Requests.questionnaire_suicidal_thoughts)
    = 7 /\
  risk_level
    (assess_crisis_risk Requests.noon Requests.questionnaire_suicidal_thoughts)
    = "high" /\
  crisis_intervention_needed
    (assess_crisis_risk Requests.noon Requests.questionnaire_suicidal_thoughts)
    = false /\
  ~ (17 <= risk_score
             (assess_crisis_risk Requests.noon
                Requests.questionnaire_suicidal_thoughts)
     /\ risk_level
          (assess_crisis_risk Requests.noon
             Requests.questionnaire_suicidal_thoughts) = "crisis").
Proof.
  repeat split. vm_compute. intros [H _]. apply H. reflexivity.
Qed.

(** The phrase goes unnoticed on its own, where naming the keyword is a
    crisis: "suicidal thoughts" alone is rated "low" with no indicator,
    "thoughts of suicide" is rated "crisis". *)
Lemma suicidal_thoughts_alone_are_rated_low :
  assess_crisis_risk Requests.noon
    (PDict [("symptoms", PList [PStr "suicidal thoughts"])]) =
  {| risk_level := "low";
     risk_score := 0;
     risk_indicators := [];
     crisis_intervention_needed := false;
     professional_referral_suggested := false;
     assessment_timestamp := Requests.noon |} /\
  assess_crisis_risk Requests.noon
    (PDict [("symptoms", PList [PStr "thoughts of suicide"])]) =
  {| risk_level := "crisis";
     risk_score := 10;
     risk_indicators := ["Crisis indicator: suicide"];
     crisis_intervention_needed := true;
     professional_referral_suggested := true;
     assessment_timestamp := Requests.noon |}.
Proof. split; reflexivity. Qed.

Lemma suicidal_thoughts_questionnaire_scores_high_on_cpython :
  str_lower "suicidal thoughts" = "suicidal thoughts" /\
  risk_score
    (assess_crisis_risk Requests.noon Requests.questionnaire_suicidal_thoughts)
    = 7.
Proof.
  split; [reflexivity |].
  rewrite (@suicidal_thoughts_questionnaire_scores_high cpython Requests.noon
             eq_refl).
  reflexivity.
Defined.

(** The claim of C4 as stated fails on the error path: crisis
    intervention is flagged although the level is "high". *)
Lemma null_responses_flag_intervention_at_level_high :
  crisis_intervention_needed
    (assess_crisis_risk Requests.noon Requests.questionnaire_null_responses)
    = true /\
  risk_level
    (assess_crisis_risk Requests.noon Requests.questionnaire_null_responses)
    = "high" /\
  ~ (crisis_intervention_needed
       (assess_crisis_risk Requests.noon Requests.questionnaire_null_responses)
       = true <->
     risk_level
       (assess_crisis_risk Requests.noon Requests.questionnaire_null_responses)
       = "crisis").
Proof.
  repeat split. vm_compute. intros [H _]. specialize (H eq_refl).
  discriminate H.
Qed.

Lemma crisis_flags_on_the_error_path :
  crisis_body Requests.noon Requests.questionnaire_null_responses
    = Raise AttributeError /\
  professional_referral_suggested
    (assess_crisis_risk Requests.noon Requests.questionnaire_null_responses)
    = true.
Proof.
  split; [reflexivity |].
  apply (proj1 (crisis_flags_follow_risk_level Requests.noon
                  Requests.questionnaire_null_responses)).
  right. reflexivity.
Defined.

End CrisisDetectorRuns.

(* ------------------------------------------------------------------ *)
(** ** The symptom scorer                                             *)
(* ------------------------------------------------------------------ *)

Section SymptomScorer.
Context {rt : Runtime}.
Import RiskAssessmentService.

Lemma all_str_strings (l : list string) : all_str (map PStr l) = Ret l.
Proof.
  induction l as [| s rest IH]; [reflexivity |].
  cbn [map all_str]. rewrite IH. reflexivity.
Qed.

(** Joining a list of strings does not raise. *)
Lemma str_join_strings (sep : string) (l : list string) :
  str_join sep (PList (map PStr l)) = Ret (join sep l).
Proof.
  unfold str_join. cbn [iter Py.bind]. rewrite all_str_strings. reflexivity.
Qed.

Lemma two_emergency_hits (text : string) :
  contains "chest pain" text = true ->
  contains "difficulty breathing" text = true \/
  contains "shortness of breath" text = true ->
  (2 <= List.length (hits text emergency_keywords))%nat.
Proof.
  intros Hc Hb. unfold emergency_keywords, hits. cbn [filter].
  rewrite Hc.
  destruct Hb as [Hb | Hb]; rewrite Hb.
  - cbn [List.length]. lia.
  - destruct (contains "difficulty breathing" text); cbn [List.length]; lia.
Qed.

(** Claim C6, amended.  For every list of symptom strings whose joined
    lowercase text contains "chest pain" and one of "difficulty
    breathing" and "shortness of breath", the symptom score is 10, the
    cap, and the factors hold the emergency factor of "chest pain" and of
    each of the other two keywords the text contains.  When the text
    contains "shortness of breath", the factors hold the combination
    factor as well. *)
Theorem chest_pain_with_breathing_trouble_scores_the_cap
    (symptoms : list string) (text : string) :
  text = str_lower (join " " symptoms) ->
  contains "chest pain" text = true ->
  contains "difficulty breathing" text = true \/
  contains "shortness of breath" text = true ->
  let r := _assess_symptom_risk (PList (map PStr symptoms)) in
  score r = 10 /\
  In "Emergency symptom detected: chest pain" (factors r) /\
  (contains "difficulty breathing" text = true ->
   In "Emergency symptom detected: difficulty breathing" (factors r)) /\
  (contains "shortness of breath" text = true ->
   In "Emergency symptom detected: shortness of breath" (factors r) /\
   In "Chest pain + breathing difficulty - high risk combination"
      (factors r)).
Proof.
  intros Htext Hchest Hbreath.
  unfold _assess_symptom_risk, symptom_body.
  rewrite str_join_strings. cbn [Py.bind len try_except]. rewrite <- Htext.
  set (st1 := keyword_pass 8 _ emergency_keywords text (0, [])).
  set (st2 := keyword_pass 5 _ high_risk_keywords text st1).
  set (st3 := keyword_pass 2 _ moderate_risk_keywords text st2).
  cbv zeta. cbn [score factors].
  match goal with |- context [Z.min (fst ?s) 10] => set (st5 := s) end.
  assert (H1 : 16 <= fst st1).
  { subst st1. rewrite keyword_pass_spec. cbn [fst].
    pose proof (two_emergency_hits text Hchest Hbreath). lia. }
  assert (H2 : fst st1 <= fst st2) by (apply keyword_pass_bounds; lia).
  assert (H3 : fst st2 <= fst st3) by (apply keyword_pass_bounds; lia).
  assert (H5 : fst st3 <= fst st5).
  { subst st5. etransitivity; [| apply if_bump_fst_le; lia].
    apply if_bump_fst_le; lia. }
  assert (Hkeep : forall x, In x (snd st1) -> In x (snd st5)).
  { intros x Hx. subst st5 st3 st2.
    do 2 apply if_bump_keeps. do 2 apply keyword_pass_keeps. exact Hx. }
  assert (Hreport : forall keyword,
             In keyword emergency_keywords -> contains keyword text = true ->
             In ("Emergency symptom detected: " ++ keyword) (snd st5)).
  { intros keyword Hin Hc. apply Hkeep. subst st1.
    now apply keyword_pass_reports. }
  split; [lia |].
  split; [apply (Hreport "chest pain"); [cbn; tauto | assumption] |].
  split.
  - intros Hd.
    apply (Hreport "difficulty breathing"); [cbn; tauto | assumption].
  - intros Hs. split.
    + apply (Hreport "shortness of breath"); [cbn; tauto | assumption].
    + subst st5. rewrite Hchest, Hs. cbn [andb]. unfold bump at 1. cbn [snd].
      apply in_or_app. right. now left.
Qed.

End SymptomScorer.

Section SymptomScorerRuns.
Import RiskAssessmentService.

Lemma chest_pain_with_shortness_of_breath_scores_the_cap :
  score (_assess_symptom_risk
           (PList (map PStr Requests.symptoms_chest_and_shortness))) = 10 /\
  In "Chest pain + breathing difficulty - high risk combination"
    (factors (_assess_symptom_risk
                (PList (map PStr Requests.symptoms_chest_and_shortness)))).
Proof.
  pose proof (@chest_pain_with_breathing_trouble_scores_the_cap cpython
                Requests.symptoms_chest_and_shortness
                "chest pain shortness of breath"
                eq_refl eq_refl (or_intror eq_refl)) as H.
  cbv zeta in H. destruct H as (Hscore & _ & _ & Hshort).
  split; [exact Hscore | exact (proj2 (Hshort eq_refl))].
Defined.

(** The claim of C6 as stated fails: "chest pain" with "difficulty
    breathing" reaches the cap and gets both emergency factors, but no
    combination factor, which the scorer gives for "shortness of breath"
    only. *)
Lemma chest_pain_with_difficulty_breathing_gets_no_combination_factor :
  contains "chest pain"
    (str_lower (join " " Requests.symptoms_chest_and_difficulty)) = true /\
  contains "difficulty breathing"
    (str_lower (join " " Requests.symptoms_chest_and_difficulty)) = true /\
  factors (_assess_symptom_risk
             (PList (map PStr Requests.symptoms_chest_and_difficulty))) =
    ["Emergency symptom detected: chest pain";
     "Emergency symptom detected: difficulty breathing"] /\
  ~ In "Chest pain + breathing difficulty - high risk combination"
       (factors (_assess_symptom_risk
                   (PList (map PStr Requests.symptoms_chest_and_difficulty)))).
Proof.
  repeat split. vm_compute. intros [H | [H | []]]; discriminate H.
Qed.

End SymptomScorerRuns.

(* ------------------------------------------------------------------ *)
(** ** The vitals scorer                                              *)
(* ------------------------------------------------------------------ *)

Section VitalsScorer.
Context {rt : Runtime}.
Import RiskAssessmentService.
Import Notions.

Lemma vs_app_init_r (st : VitalState) : vs_app st vital_init = st.
Proof.
  destruct st; unfold vs_app, vital_init; cbn.
  rewrite Z.add_0_r, !app_nil_r. reflexivity.
Qed.

Lemma vs_app_assoc (a b c : VitalState) :
  vs_app (vs_app a b) c = vs_app a (vs_app b c).
Proof.
  unfold vs_app; cbn. rewrite Z.add_assoc, <- !app_assoc. reflexivity.
Qed.

Lemma classify_vital_shift (name : string) (v : pyfloat) (st : VitalState) :
  classify_vital name v st = vs_app st (classify_vital name v vital_init).
Proof.
  unfold classify_vital.
  destruct (ranges_of name vital_ranges) as [ranges |];
    [| now rewrite vs_app_init_r].
  destruct (negb (within (critical ranges) v)); [reflexivity |].
  destruct (negb (within (concerning ranges) v)); [reflexivity |].
  destruct (negb (within (normal ranges) v)); [reflexivity |].
  now rewrite vs_app_init_r.
Qed.

Lemma invalid_vital_shift (name : string) (v : value) (st : VitalState) :
  invalid_vital name v st = vs_app st (invalid_vital name v vital_init).
Proof.
  unfold invalid_vital, vs_app; cbn. rewrite Z.add_0_r, app_nil_r.
  reflexivity.
Qed.

(** An iteration only adds to the state it starts from. *)
Lemma vital_step_shift (st : VitalState) (item : string * value) :
  vital_step st item =
  (d <- vital_step vital_init item ;; Ret (vs_app st d)).
Proof.
  destruct item as [name v]. unfold vital_step.
  destruct (is_none v || eq_str v EmptyString).
  - cbn. now rewrite vs_app_init_r.
  - destruct (to_float v) as [f | e].
    + cbn. now rewrite classify_vital_shift.
    + destruct e; try reflexivity.
      cbn. now rewrite invalid_vital_shift.
Qed.

Lemma vital_loop_shift (items : list (string * value)) (st : VitalState) :
  vital_loop items st =
  (d <- vital_loop items vital_init ;; Ret (vs_app st d)).
Proof.
  revert st. induction items as [| item rest IH]; intros st.
  - cbn. now rewrite vs_app_init_r.
  - cbn [vital_loop]. rewrite (vital_step_shift st).
    destruct (vital_step vital_init item) as [d | e]; [| reflexivity].
    cbn [Py.bind]. rewrite (IH (vs_app st d)), (IH d).
    destruct (vital_loop rest vital_init) as [d' | e]; [| reflexivity].
    cbn. now rewrite vs_app_assoc.
Qed.

Lemma vital_loop_app (before after : list (string * value))
    (st : VitalState) :
  vital_loop (before ++ after) st =
  (st' <- vital_loop before st ;; vital_loop after st').
Proof.
  revert st. induction before as [| item rest IH]; intros st; [reflexivity |].
  cbn [app vital_loop].
  destruct (vital_step st item) as [st' | e]; [| reflexivity].
  cbn. apply IH.
Qed.

(** The iteration over a text that [float] rejects: the handler of
    [ValueError] runs, and the loop goes on. *)
Lemma vital_step_unparsable (name s : string) (st : VitalState) :
  s <> EmptyString -> float_of_str s = None ->
  vital_step st (name, PStr s) = Ret (invalid_vital name (PStr s) st).
Proof.
  intros Hs Hf. unfold vital_step. cbn [is_none eq_str orb to_float].
  apply String.eqb_neq in Hs. rewrite Hs, Hf. reflexivity.
Qed.

(** A pain scale that [int] rejects ends the [try] block of the
    follow-up scorer. *)
Lemma unparsable_pain_scale_raises (s : string)
    (items : list (string * value)) :
  s <> EmptyString -> int_of_str s = None ->
  lookup "pain_scale" items = Some (PStr s) ->
  followup_body (PDict items) = Raise ValueError.
Proof.
  intros Hs Hi Hl. unfold followup_body. cbn [get Py.bind]. rewrite Hl.
  unfold pain_rule. cbn [truthy to_int].
  apply String.eqb_neq in Hs. rewrite Hs, Hi. reflexivity.
Qed.

Lemma unparsable_pain_scale_costs_the_other_answers (s : string)
    (items : list (string * value)) :
  s <> EmptyString -> int_of_str s = None ->
  lookup "pain_scale" items = Some (PStr s) ->
  _assess_followup_risk (PDict items) = followup_fallback.
Proof.
  intros Hs Hi Hl. unfold _assess_followup_risk.
  rewrite (unparsable_pain_scale_raises s items Hs Hi Hl). reflexivity.
Qed.

(** Claim C7, amended.  A vital sign whose value is a non-empty text
    that [float] rejects is recovered from inside the loop of the vitals
    scorer.  Where the other vital signs are scored without raising, the
    score is the one they give, they are scored as without it, and
    exactly one factor, "Invalid <name> value: <text>", stands for it in
    its place among theirs.  Where scoring the others raises (a value
    that [float] cannot take at all, such as a list), the scorer returns
    its fallback, as it does without the field. *)
Theorem unparsable_vital_is_reported_and_skipped
    (name s : string) (before after : list (string * value)) :
  s <> EmptyString ->
  float_of_str s = None ->
  let c0 := _assess_vital_signs_risk (PDict before) in
  let c' := _assess_vital_signs_risk
              (PDict (before ++ (name, PStr s) :: after)) in
  match vital_body (PDict (before ++ after)) with
  | Ret c =>
      score c' = score c /\
      exists later,
        factors c = app (factors c0) later /\
        factors c' =
          app (factors c0) (("Invalid " ++ name ++ " value: " ++ s) :: later)
  | Raise _ =>
      c' = vital_fallback /\
      _assess_vital_signs_risk (PDict (before ++ after)) = vital_fallback
  end.
Proof.
  intros Hs Hf. cbv zeta.
  unfold _assess_vital_signs_risk, vital_body. cbn [items_of Py.bind].
  rewrite !vital_loop_app.
  destruct (vital_loop before vital_init) as [st1 | e] eqn:Hbefore;
    cbn [Py.bind try_except]; [| split; reflexivity].
  cbn [vital_loop]. rewrite (vital_step_unparsable name s st1 Hs Hf).
  cbn [Py.bind].
  rewrite (vital_loop_shift after st1),
          (vital_loop_shift after (invalid_vital name (PStr s) st1)).
  destruct (vital_loop after vital_init) as [d | e] eqn:Hafter;
    cbn [Py.bind try_except]; [| split; reflexivity].
  unfold vital_component.
  cbn [score factors vs_app invalid_vital v_score v_factors str].
  split; [reflexivity |].
  exists (v_factors d). split; [reflexivity |].
  rewrite <- app_assoc. reflexivity.
Qed.

Lemma within_finite (band : Q * Q) (v : pyfloat) :
  within band v = true ->
  exists q, v = FFin q /\ (fst band <= q <= snd band)%Q.
Proof.
  unfold within. rewrite andb_true_iff. intros [Hlo Hhi].
  destruct v as [| [|] | q]; cbn in Hlo, Hhi; try discriminate.
  exists q. rewrite !Qle_bool_iff in *. tauto.
Qed.

Lemma within_wider (inner outer : Q * Q) (v : pyfloat) :
  (fst outer <= fst inner)%Q -> (snd inner <= snd outer)%Q ->
  within inner v = true -> within outer v = true.
Proof.
  intros Hlo Hhi Hin. apply within_finite in Hin as (q & -> & Hq1 & Hq2).
  unfold within. cbn [float_le]. rewrite andb_true_iff, !Qle_bool_iff.
  split; [apply Qle_trans with (fst inner) | apply Qle_trans with (snd inner)];
    assumption.
Qed.

(** The bands of the five vital signs other than the oxygen saturation
    are nested. *)
Lemma five_vitals_are_nested (name : string) (ranges : Bands) :
  ranges_of name vital_ranges = Some ranges ->
  name <> "oxygen_saturation" ->
  nested_bands ranges.
Proof.
  unfold vital_ranges. cbn [ranges_of]. intros H Hname.
  repeat (match type of H with
          | (if String.eqb ?k name then _ else _) = _ =>
              destruct (String.eqb_spec k name) as [Heq | _]
          end;
          [ first [ congruence
                  | injection H as <-; unfold nested_bands; cbn; repeat split;
                    unfold Qle; cbn; lia ] | ]).
  discriminate.
Qed.

(** Under nested bands a reading inside the normal band is not flagged. *)
Lemma normal_reading_adds_nothing (name : string) (ranges : Bands)
    (v : pyfloat) (st : VitalState) :
  ranges_of name vital_ranges = Some ranges ->
  nested_bands ranges ->
  within (normal ranges) v = true ->
  classify_vital name v st = st.
Proof.
  intros Hr (H1 & H2 & H3 & H4) Hn. unfold classify_vital. rewrite Hr.
  assert (Hc : within (concerning ranges) v = true)
    by (apply (within_wider (normal ranges)); assumption).
  assert (Hk : within (critical ranges) v = true)
    by (apply (within_wider (concerning ranges)); assumption).
  rewrite Hk, Hc, Hn. reflexivity.
Qed.

(** Property X2.  For the five vital signs other than the oxygen
    saturation the bands are nested, and a value that [float] reads as a
    number inside the normal band leaves the score, the factors and the
    list of abnormal vitals as they were. *)
Theorem normal_reading_of_a_nested_vital_is_not_flagged
    (name : string) (ranges : Bands) (value : value) (v : pyfloat)
    (st : VitalState) :
  ranges_of name vital_ranges = Some ranges ->
  name <> "oxygen_saturation" ->
  to_float value = Ret v ->
  within (normal ranges) v = true ->
  nested_bands ranges /\ vital_step st (name, value) = Ret st.
Proof.
  intros Hr Hname Hv Hn.
  pose proof (five_vitals_are_nested name ranges Hr Hname) as Hnested.
  split; [exact Hnested |].
  unfold vital_step.
  destruct (is_none value || eq_str value EmptyString); [reflexivity |].
  rewrite Hv. f_equal. now apply normal_reading_adds_nothing with ranges.
Qed.

End VitalsScorer.

Section VitalsScorerRuns.
Import RiskAssessmentService.
Import Notions.

(** [{"heart_rate": "abc", "temperature_f": 104}]: the text is reported,
    the fever is scored as on its own. *)
Lemma text_heart_rate_beside_a_fever :
  score (_assess_vital_signs_risk
           (PDict [("heart_rate", PStr "abc"); ("temperature_f", PInt 104)]))
    = 6 /\
  factors (_assess_vital_signs_risk
             (PDict [("heart_rate", PStr "abc"); ("temperature_f", PInt 104)]))
    = ["Invalid heart_rate value: abc"; "Critical temperature_f: 104.0"].
Proof.
  assert (Hs : "abc" <> EmptyString) by discriminate.
  pose proof (@unparsable_vital_is_reported_and_skipped cpython
                "heart_rate" "abc" [] [("temperature_f", PInt 104)]
                Hs eq_refl) as H.
  cbv zeta in H.
  change (vital_body (PDict ([] ++ [("temperature_f", PInt 104)])))
    with (Ret (_assess_vital_signs_risk Requests.vitals_high_fever)) in H.
  destruct H as (Hscore & later & Hlater & Hfactors).
  split; [exact Hscore |].
  cbn in Hlater. subst later. exact Hfactors.
Defined.

(** [{"heart_rate": "abc", "systolic_bp": [1]}]: the list makes [float]
    raise [TypeError], which the loop does not catch; the scorer returns
    its fallback, with or without the text beside it. *)
Lemma text_vital_beside_a_list_falls_back :
  _assess_vital_signs_risk
    (PDict [("heart_rate", PStr "abc"); ("systolic_bp", PList [PInt 1])])
    = vital_fallback /\
  _assess_vital_signs_risk (PDict [("systolic_bp", PList [PInt 1])])
    = vital_fallback.
Proof. split; reflexivity. Qed.

Lemma resting_heart_rate_is_not_flagged :
  vital_step vital_init ("heart_rate", PInt 72) = Ret vital_init.
Proof.
  assert (Hname : "heart_rate" <> "oxygen_saturation") by discriminate.
  exact (proj2 (@normal_reading_of_a_nested_vital_is_not_flagged cpython
                  "heart_rate" _ (PInt 72) (FFin 72) vital_init
                  eq_refl Hname eq_refl eq_refl)).
Defined.

(** A temperature of 104 lies outside the critical band
    (95 to 103): one factor, "Critical temperature_f", worth 6. *)
Theorem high_fever_is_one_critical_factor :
  _assess_vital_signs_risk Requests.vitals_high_fever =
  {| score := 6;
     factors := ["Critical temperature_f: 104.0"];
     details :=
       [("abnormal_vitals", PList [PStr "temperature_f"]);
        ("vitals_provided", PList [PStr "temperature_f"])] |}.
Proof. reflexivity. Qed.

(** The claim of C7 as stated fails twice.  A heart rate of "abc" does
    get a factor.  A pain scale of "abc" is not skipped on its own: it
    costs the follow-up scorer its other fields, and the answer "yes" to
    breathing difficulty, worth 4 with a factor of its own, is lost to
    the fallback. *)
Lemma text_values_are_not_skipped_silently :
  factors (_assess_vital_signs_risk Requests.vitals_text_heart_rate) =
    ["Invalid heart_rate value: abc"] /\
  _assess_followup_risk Requests.followup_text_pain = followup_fallback /\
  ~ In "Patient reports breathing difficulty"
       (factors (_assess_followup_risk Requests.followup_text_pain)).
Proof.
  repeat split. vm_compute. intros [H | []]. discriminate H.
Qed.

(** Claim C5, where the code departs from it.  The bands of the oxygen
    saturation are not nested: 98 lies in its normal band (95 to 100) and
    outside its critical band (0 to 89), which the scorer tests first.
    The healthy reading is scored 6 and reported critical. *)
Theorem healthy_oxygen_saturation_is_flagged_critical :
  (exists ranges,
      ranges_of "oxygen_saturation" vital_ranges = Some ranges /\
      within (normal ranges) (FFin 98) = true /\
      ~ nested_bands ranges) /\
  _assess_vital_signs_risk Requests.vitals_healthy_oxygen =
  {| score := 6;
     factors := ["Critical oxygen_saturation: 98.0"];
     details :=
       [("abnormal_vitals", PList [PStr "oxygen_saturation"]);
        ("vitals_provided", PList [PStr "oxygen_saturation"])] |}.
Proof.
  split; [| reflexivity].
  eexists. split; [reflexivity |]. split; [reflexivity |].
  unfold nested_bands. cbn. intros (_ & _ & H & _). revert H.
  unfold Qle. cbn. lia.
Qed.

End VitalsScorerRuns.

(* ------------------------------------------------------------------ *)
(** ** The context scorer                                             *)
(* ------------------------------------------------------------------ *)

Section ContextScorer.
Context {rt : Runtime}.
Import RiskAssessmentService.

(** The age rule on an integer age.  The test [if age:]
    lets an age of 0 through as if no age were given; every other
    integer gets the bracket it belongs to. *)
Lemma age_rule_int (z : Z) (st : Z * list string) :
  age_rule (PInt z) st =
  Ret (if z =? 0 then st
       else if 65 <=? z
       then bump 2 "Age 65+ increases risk for complications" st
       else if z <=? 2
       then bump 3 "Very young age increases risk" st
       else if z <=? 12
       then bump 1 "Pediatric patient - increased monitoring needed" st
       else st).
Proof.
  unfold age_rule. cbn [truthy ge_int le_int as_int Py.bind].
  destruct (z =? 0); cbn [negb]; [reflexivity |].
  destruct (65 <=? z); [reflexivity |].
  destruct (z <=? 2); [reflexivity |].
  destruct (z <=? 12); reflexivity.
Qed.

(** Claim C8, where the code departs from it.  An age of 0 is an integer
    age of at most 2, for which the claim has the scorer add 3.  The
    scorer adds nothing and reports the age category "unknown", although
    [_get_age_category] files the same age under "infant". *)
Theorem newborn_age_adds_nothing :
  age_rule (PInt 0) (0, []) = Ret (0, []) /\
  _get_age_category (PInt 0) = Ret "infant" /\
  _assess_context_risk Requests.context_newborn =
  {| score := 0;
     factors := [];
     details := [("age_category", PStr "unknown")] |}.
Proof. repeat split. Qed.

End ContextScorer.

(* ------------------------------------------------------------------ *)
(** ** The aggregator                                                 *)
(* ------------------------------------------------------------------ *)

Section Aggregator.
Context {rt : Runtime}.
Import RiskAssessmentService.
Import Notions.

(** With the scorers of the class, the [try] block of the aggregator
    returns: the total is the sum of the scores of the steps taken, the
    factors are theirs in the order of the steps, and the level is the
    one the thresholds give the total. *)
Lemma assess_body_returns (now : string)
    (symptoms vitals user_context follow_up_data : value) :
  exists r,
    assess_body this now symptoms vitals user_context follow_up_data
      = Ret r /\
    risk_score r =
      score (_assess_symptom_risk symptoms)
      + share vitals (_assess_vital_signs_risk vitals)
      + share user_context (_assess_context_risk user_context)
      + share follow_up_data (_assess_followup_risk follow_up_data) /\
    risk_factors r =
      app (factors (_assess_symptom_risk symptoms))
        (app (shared_factors vitals (_assess_vital_signs_risk vitals))
           (app (shared_factors user_context
                   (_assess_context_risk user_context))
              (shared_factors follow_up_data
                 (_assess_followup_risk follow_up_data)))) /\
    overall_risk_level r =
      final_risk_level (_determine_final_risk_level (risk_score r)) /\
    urgency_level r =
      final_urgency_level (_determine_final_risk_level (risk_score r)) /\
    error r = None.
Proof.
  unfold assess_body, this, share, shared_factors.
  cbn [score_symptoms score_vitals score_context score_followup Py.bind].
  destruct (truthy vitals), (truthy user_context), (truthy follow_up_data);
    cbn [Py.bind]; eexists; (split; [reflexivity |]);
    cbn [risk_score risk_factors overall_risk_level urgency_level error absorb
         run_score run_factors];
    rewrite ?app_nil_r, <- ?app_assoc; repeat split; try reflexivity; lia.
Qed.

Lemma symptom_score_bounds (symptoms : value) :
  0 <= score (_assess_symptom_risk symptoms) <= 10.
Proof.
  unfold _assess_symptom_risk.
  destruct (symptom_body symptoms) as [c | e] eqn:Hbody;
    [| cbn; lia].
  cbn [try_except]. unfold symptom_body in Hbody.
  bind_inv Hbody. cbv zeta in Hbody. bind_inv Hbody.
  injection Hbody as <-. cbn [score].
  match goal with |- context [Z.min (fst ?s) 10] => set (st5 := s) end.
  assert (0 <= fst st5); [| lia].
  subst st5.
  etransitivity; [| apply if_bump_fst_le; lia].
  etransitivity; [| apply if_bump_fst_le; lia].
  etransitivity; [| apply keyword_pass_bounds; lia].
  etransitivity; [| apply keyword_pass_bounds; lia].
  etransitivity; [| apply keyword_pass_bounds; lia].
  cbn. lia.
Qed.

Lemma classify_vital_mono (name : string) (v : pyfloat) (st : VitalState) :
  v_score st <= v_score (classify_vital name v st).
Proof.
  unfold classify_vital, flag.
  destruct (ranges_of name vital_ranges) as [ranges |]; [| lia].
  destruct (negb (within (critical ranges) v)); [cbn; lia |].
  destruct (negb (within (concerning ranges) v)); [cbn; lia |].
  destruct (negb (within (normal ranges) v)); cbn; lia.
Qed.

Lemma vital_step_mono (st st' : VitalState) (item : string * value) :
  vital_step st item = Ret st' -> v_score st <= v_score st'.
Proof.
  destruct item as [name v]. unfold vital_step.
  destruct (is_none v || eq_str v EmptyString).
  - intros [= <-]. lia.
  - destruct (to_float v) as [f | e].
    + intros [= <-]. apply classify_vital_mono.
    + destruct e; try discriminate. intros [= <-]. cbn. lia.
Qed.

Lemma vital_loop_mono (items : list (string * value)) (st st' : VitalState) :
  vital_loop items st = Ret st' -> v_score st <= v_score st'.
Proof.
  revert st. induction items as [| item rest IH]; intros st H.
  - injection H as <-. lia.
  - cbn [vital_loop] in H. bind_inv H.
    apply vital_step_mono in Ha. apply IH in H. lia.
Qed.

Lemma vital_score_bounds (vitals : value) :
  0 <= score (_assess_vital_signs_risk vitals) <= 8.
Proof.
  unfold _assess_vital_signs_risk.
  destruct (vital_body vitals) as [c | e] eqn:Hbody; [| cbn; lia].
  cbn [try_except]. unfold vital_body in Hbody.
  bind_inv Hbody. bind_inv Hbody. injection Hbody as <-.
  apply vital_loop_mono in Ha0. cbn in *. lia.
Qed.

Lemma age_rule_mono (age : value) (st st' : Z * list string) :
  age_rule age st = Ret st' -> fst st <= fst st'.
Proof.
  unfold age_rule. destruct (truthy age); [| intros [= <-]; lia].
  intros H. bind_inv H. destruct a.
  { injection H as <-. cbn. lia. }
  bind_inv H. destruct a.
  { injection H as <-. cbn. lia. }
  bind_inv H. destruct a; injection H as <-; cbn; lia.
Qed.

Lemma history_loop_mono (conditions : list value) (st st' : Z * list string) :
  history_loop conditions st = Ret st' -> fst st <= fst st'.
Proof.
  revert st. induction conditions as [| condition rest IH]; intros st H.
  - injection H as <-. lia.
  - cbn [history_loop] in H. bind_inv H. apply IH in H.
    etransitivity; [| exact H]. apply if_bump_fst_le. lia.
Qed.

Lemma context_score_bounds (context : value) :
  0 <= score (_assess_context_risk context) <= 6.
Proof.
  unfold _assess_context_risk.
  destruct (context_body context) as [c | e] eqn:Hbody; [| cbn; lia].
  cbn [try_except]. unfold context_body in Hbody.
  do 6 bind_inv Hbody. cbv zeta in Hbody. bind_inv Hbody.
  injection Hbody as <-. cbn [score].
  apply age_rule_mono in Ha0. apply history_loop_mono in Ha3.
  pose proof (if_bump_fst_le (truthy a4) 2
                "Pregnancy requires special medical consideration" a3).
  cbn in Ha0. lia.
Qed.

Lemma pain_rule_mono (pain_scale : value) (st st' : Z * list string) :
  pain_rule pain_scale st = Ret st' -> fst st <= fst st'.
Proof.
  unfold pain_rule. destruct (truthy pain_scale); [| intros [= <-]; lia].
  intros H. bind_inv H.
  destruct (8 <=? a); [injection H as <-; cbn; lia |].
  destruct (6 <=? a); injection H as <-; cbn; lia.
Qed.

Lemma followup_score_bounds (follow_up_data : value) :
  0 <= score (_assess_followup_risk follow_up_data) <= 5.
Proof.
  unfold _assess_followup_risk.
  destruct (followup_body follow_up_data) as [c | e] eqn:Hbody; [| cbn; lia].
  cbn [try_except]. unfold followup_body in Hbody.
  do 4 bind_inv Hbody. cbv zeta in Hbody. 
  injection Hbody as <-. cbn [score].
  apply pain_rule_mono in Ha0. cbn in Ha0.
  match goal with |- context [Z.min (fst ?s) 5] => set (st3 := s) end.
  assert (fst a0 <= fst st3); [| lia].
  subst st3. etransitivity; [| apply if_bump_fst_le; lia].
  destruct (eq_str a1 "Getting worse"); [cbn; lia |].
  apply if_bump_fst_le. lia.
Qed.

(** Property X1.  Every component score lies between 0 and the cap of
    its scorer (10, 8, 6 and 5), on the fallback paths as well, and the
    total between 0 and 29. *)
Theorem component_scores_are_capped (now : string)
    (symptoms vitals user_context follow_up_data : value) :
  0 <= score (_assess_symptom_risk symptoms) <= 10 /\
  0 <= score (_assess_vital_signs_risk vitals) <= 8 /\
  0 <= score (_assess_context_risk user_context) <= 6 /\
  0 <= score (_assess_followup_risk follow_up_data) <= 5 /\
  0 <= risk_score (assess_comprehensive_risk now symptoms vitals
                     user_context follow_up_data) <= 29.
Proof.
  pose proof (symptom_score_bounds symptoms).
  pose proof (vital_score_bounds vitals).
  pose proof (context_score_bounds user_context).
  pose proof (followup_score_bounds follow_up_data).
  repeat (split; [assumption |]).
  destruct (assess_body_returns now symptoms vitals user_context
              follow_up_data) as (r & Hbody & Hscore & _).
  unfold assess_comprehensive_risk, assess_with. rewrite Hbody.
  cbn [try_except]. rewrite Hscore. unfold share.
  destruct (truthy vitals), (truthy user_context), (truthy follow_up_data); lia.
Qed.

(** The level of a total is decided by the thresholds 15,
    10, 6 and 3 and nothing else. *)
Theorem final_risk_level_thresholds (total : Z) :
  let level := final_risk_level (_determine_final_risk_level total) in
  (level = "CRITICAL" <-> 15 <= total) /\
  (level = "HIGH" <-> 10 <= total < 15) /\
  (level = "MODERATE" <-> 6 <= total < 10) /\
  (level = "LOW_MODERATE" <-> 3 <= total < 6) /\
  (level = "LOW" <-> total < 3).
Proof.
  cbv zeta. unfold _determine_final_risk_level.
  destruct (15 <=? total) eqn:H15;
    [apply Z.leb_le in H15 | apply Z.leb_gt in H15];
  [| destruct (10 <=? total) eqn:H10;
       [apply Z.leb_le in H10 | apply Z.leb_gt in H10];
  [| destruct (6 <=? total) eqn:H6;
       [apply Z.leb_le in H6 | apply Z.leb_gt in H6];
  [| destruct (3 <=? total) eqn:H3;
       [apply Z.leb_le in H3 | apply Z.leb_gt in H3]]]];
  cbn [final_risk_level]; repeat split; intros;
    try discriminate; try lia; try reflexivity.
Qed.

(** Claim C1, amended.  No input makes [assess_comprehensive_risk] raise.
    An exception that reaches the [try] block of the aggregator, whatever
    the scorers it calls are, is answered with the fail-safe result:
    HIGH, 10, urgent, the factor "Assessment error - defaulting to high
    risk for safety", and the recommendation written for the error.  An
    exception raised inside a component scorer of the class does not
    reach it: the scorer catches it and returns its own fallback (the
    symptom scorer 5, the vitals scorer 3, the context scorer 1, the
    follow-up scorer 1, each with one factor naming the error).  The
    aggregator then sums the components and reads the level off the
    total as on any other input, so that the result is not the fail-safe
    one and can lie in any band. *)
Theorem scoring_faults_are_absorbed (now : string)
    (symptoms vitals user_context follow_up_data : value) :
  (forall (self : Scorers) (e : exn),
      assess_body self now symptoms vitals user_context follow_up_data
        = Raise e ->
      let r := assess_with self now symptoms vitals user_context
                 follow_up_data in
      overall_risk_level r = "HIGH" /\
      risk_score r = 10 /\
      urgency_level r = "urgent" /\
      risk_factors r =
        ["Assessment error - defaulting to high risk for safety"] /\
      recommendations r =
        ["Seek immediate medical attention due to assessment system error"] /\
      error r = Some e) /\
  (forall e, symptom_body symptoms = Raise e ->
      let c := _assess_symptom_risk symptoms in
      score c = 5 /\ factors c = ["Symptom assessment error"]) /\
  (forall e, vital_body vitals = Raise e ->
      let c := _assess_vital_signs_risk vitals in
      score c = 3 /\ factors c = ["Vital signs assessment error"]) /\
  (forall e, context_body user_context = Raise e ->
      let c := _assess_context_risk user_context in
      score c = 1 /\ factors c = ["Context assessment error"]) /\
  (forall e, followup_body follow_up_data = Raise e ->
      let c := _assess_followup_risk follow_up_data in
      score c = 1 /\ factors c = ["Follow-up assessment error"]) /\
  (exists r,
      assess_body this now symptoms vitals user_context follow_up_data
        = Ret r /\
      assess_comprehensive_risk now symptoms vitals user_context
        follow_up_data = r /\
      risk_score r =
        score (_assess_symptom_risk symptoms)
        + share vitals (_assess_vital_signs_risk vitals)
        + share user_context (_assess_context_risk user_context)
        + share follow_up_data (_assess_followup_risk follow_up_data) /\
      overall_risk_level r =
        final_risk_level (_determine_final_risk_level (risk_score r)) /\
      error r = None).
Proof.
  split; [| split; [| split; [| split; [| split]]]].
  - intros self e Hbody. unfold assess_with. rewrite Hbody.
    cbn. repeat split.
  - intros e Hbody. unfold _assess_symptom_risk. rewrite Hbody. now cbn.
  - intros e Hbody. unfold _assess_vital_signs_risk. rewrite Hbody. now cbn.
  - intros e Hbody. unfold _assess_context_risk. rewrite Hbody. now cbn.
  - intros e Hbody. unfold _assess_followup_risk. rewrite Hbody. now cbn.
  - destruct (assess_body_returns now symptoms vitals user_context
                follow_up_data)
      as (r & Hbody & Hscore & _ & Hlevel & _ & Herror).
    exists r. unfold assess_comprehensive_risk, assess_with.
    rewrite Hbody. cbn [try_except]. tauto.
Qed.

End Aggregator.

(* ------------------------------------------------------------------ *)
(** ** The shared service object                                      *)
(* ------------------------------------------------------------------ *)

Section SharedObject.
Context {rt : Runtime}.
Import RiskAssessmentService.
Import RiskAssessmentObject.

Lemma bind_on {A B : Type} (m : method A) (k : A -> method B)
    (self self' : Attributes) (a : A) :
  m self = (Ret a, self') -> bind m k self = k a self'.
Proof. intros H. unfold bind. now rewrite H. Qed.

Lemma attempt_on {A : Type} (m : method A) (handler : exn -> method A)
    (self self' : Attributes) (a : A) :
  m self = (Ret a, self') -> attempt m handler self = (Ret a, self').
Proof. intros H. unfold attempt. now rewrite H. Qed.

(** Run a sequence of statements whose results are at hand. *)
Ltac run_on :=
  repeat (erewrite bind_on;
          [| first [ eassumption
                   | reflexivity
                   | erewrite bind_on by (first [eassumption | reflexivity]);
                     reflexivity ]]).

(** The symptom scorer returns on every object, whatever its tables
    hold, and leaves the object as it found it. *)
Lemma symptom_scorer_reads_only (symptoms : value) (self : Attributes) :
  exists c, _assess_symptom_risk symptoms self = (Ret c, self).
Proof.
  unfold _assess_symptom_risk, attempt, symptom_body, bind, lift, read, ret.
  destruct (str_join " " symptoms) as [joined | e]; [| eauto].
  destruct (len symptoms) as [n | e]; eauto.
Qed.

Lemma vital_step_reads_only (st : VitalState) (item : string * value)
    (self : Attributes) :
  exists r, vital_step st item self = (r, self).
Proof.
  destruct item as [name value]. unfold vital_step.
  destruct (is_none value || eq_str value EmptyString); [now eexists |].
  destruct (to_float value) as [v | []]; try (now eexists).
  unfold classify_vital, bind, read, ret.
  destruct (ranges_of name (self_vital_ranges self)); now eexists.
Qed.

Lemma vital_loop_reads_only (items : list (string * value)) (st : VitalState)
    (self : Attributes) :
  exists r, vital_loop items st self = (r, self).
Proof.
  revert st. induction items as [| item rest IH]; intros st.
  - now eexists.
  - cbn [vital_loop]. unfold bind at 1.
    destruct (vital_step_reads_only st item self) as (r & ->).
    destruct r as [st' | e]; [apply IH | now eexists].
Qed.

Lemma vitals_scorer_reads_only (vitals : value) (self : Attributes) :
  exists c, _assess_vital_signs_risk vitals self = (Ret c, self).
Proof.
  unfold _assess_vital_signs_risk, attempt, vital_body.
  unfold bind at 1. unfold lift.
  destruct (items_of vitals) as [items | e]; [| now eexists].
  unfold bind.
  destruct (vital_loop_reads_only items vital_init self) as (r & ->).
  destruct r as [st | e]; now eexists.
Qed.

Lemma lift_bind {A B : Type} (c : exc A) (k : A -> method B)
    (self : Attributes) :
  bind (lift c) k self =
  match c with
  | Ret a => k a self
  | Raise e => (Raise e, self)
  end.
Proof. destruct c; reflexivity. Qed.

(** The context scorer and the follow-up scorer return on every object
    what the functions of the service return, and leave the object as
    they found it. *)
Lemma context_scorer_reads_only (context : value) (self : Attributes) :
  _assess_context_risk context self =
  (Ret (RiskAssessmentService._assess_context_risk context), self).
Proof.
  unfold _assess_context_risk, RiskAssessmentService._assess_context_risk,
    attempt, context_body, RiskAssessmentService.context_body.
  rewrite lift_bind.
  destruct (get context "age" PNone) as [age | e]; [| reflexivity].
  cbn [Py.bind]. rewrite lift_bind.
  destruct (age_rule age (0, [])) as [st | e]; [| reflexivity].
  cbn [Py.bind]. rewrite lift_bind.
  destruct (get context "medical_history" (PList [])) as [history | e];
    [| reflexivity].
  cbn [Py.bind]. rewrite lift_bind.
  destruct (iter history) as [conditions | e]; [| reflexivity].
  cbn [Py.bind]. rewrite lift_bind.
  destruct (history_loop conditions st) as [st' | e]; [| reflexivity].
  cbn [Py.bind]. rewrite lift_bind.
  destruct (get context "pregnant" PNone) as [pregnant | e]; [| reflexivity].
  cbn [Py.bind].
  destruct (truthy age).
  - unfold _get_age_category. rewrite lift_bind.
    destruct (RiskAssessmentService._get_age_category age); reflexivity.
  - reflexivity.
Qed.

Lemma followup_scorer_reads_only (follow_up_data : value)
    (self : Attributes) :
  _assess_followup_risk follow_up_data self =
  (Ret (RiskAssessmentService._assess_followup_risk follow_up_data), self).
Proof.
  unfold _assess_followup_risk, RiskAssessmentService._assess_followup_risk,
    attempt, lift.
  destruct (followup_body follow_up_data); reflexivity.
Qed.

(** A whole assessment returns on every object, leaves it as it found
    it, and reads the clock into the timestamp alone. *)
Lemma assessment_reads_only (self : Attributes) (now1 now2 : string)
    (symptoms vitals user_context follow_up_data : value) :
  exists r1 r2,
    assess_comprehensive_risk now1 symptoms vitals user_context
      follow_up_data self = (Ret r1, self) /\
    assess_comprehensive_risk now2 symptoms vitals user_context
      follow_up_data self = (Ret r2, self) /\
    risk_score r1 = risk_score r2 /\
    overall_risk_level r1 = overall_risk_level r2 /\
    risk_factors r1 = risk_factors r2.
Proof.
  destruct (symptom_scorer_reads_only symptoms self) as (cs & Hs).
  destruct (vitals_scorer_reads_only vitals self) as (cv & Hv).
  pose proof (context_scorer_reads_only user_context self) as Hc.
  pose proof (followup_scorer_reads_only follow_up_data self) as Hf.
  unfold assess_comprehensive_risk, assess_body.
  destruct (truthy vitals), (truthy user_context), (truthy follow_up_data);
    (do 2 eexists;
     split; [apply attempt_on; run_on; reflexivity |];
     split; [apply attempt_on; run_on; reflexivity |];
     repeat split).
Qed.

Lemma call_reads_only (c : call) (self : Attributes) : after c self = self.
Proof.
  destruct c as [now symptoms vitals user_context follow_up_data
                | symptoms | vitals | context | follow_up_data
                | total_score | risk_level | age];
    cbn [after].
  - destruct (assessment_reads_only self now now symptoms vitals
                user_context follow_up_data) as (r & _ & -> & _).
    reflexivity.
  - destruct (symptom_scorer_reads_only symptoms self) as (c & ->).
    reflexivity.
  - destruct (vitals_scorer_reads_only vitals self) as (c & ->).
    reflexivity.
  - now rewrite context_scorer_reads_only.
  - now rewrite followup_scorer_reads_only.
  - reflexivity.
  - reflexivity.
  - reflexivity.
Qed.

Lemma calls_read_only (calls : list call) (self : Attributes) :
  after_all calls self = self.
Proof.
  unfold after_all. induction calls as [| c rest IH]; [reflexivity |].
  cbn [fold_left]. now rewrite call_reads_only.
Qed.

(** On the object [__init__] makes, the methods return what the
    functions of [RiskAssessmentService] return. *)
Lemma vital_loop_on_the_service (items : list (string * value))
    (st : VitalState) :
  vital_loop items st risk_service =
  (RiskAssessmentService.vital_loop items st, risk_service).
Proof.
  revert st. induction items as [| [name value] rest IH]; intros st;
    [reflexivity |].
  cbn [vital_loop RiskAssessmentService.vital_loop].
  unfold bind at 1. unfold vital_step, RiskAssessmentService.vital_step.
  destruct (is_none value || eq_str value EmptyString);
    [unfold ret; cbn [Py.bind]; apply IH |].
  destruct (to_float value) as [v | []]; try reflexivity.
  - unfold classify_vital, RiskAssessmentService.classify_vital, bind, read.
    change (self_vital_ranges risk_service) with vital_ranges.
    destruct (ranges_of name vital_ranges); unfold ret; cbn [Py.bind];
      apply IH.
  - unfold ret. cbn [Py.bind]. apply IH.
Qed.

Lemma assessment_on_the_service (now : string)
    (symptoms vitals user_context follow_up_data : value) :
  assess_comprehensive_risk now symptoms vitals user_context follow_up_data
    risk_service =
  (Ret (RiskAssessmentService.assess_comprehensive_risk now symptoms vitals
          user_context follow_up_data), risk_service).
Proof.
  assert (Hs : _assess_symptom_risk symptoms risk_service =
               (Ret (RiskAssessmentService._assess_symptom_risk symptoms),
                risk_service)).
  { unfold _assess_symptom_risk, RiskAssessmentService._assess_symptom_risk,
      attempt, symptom_body, RiskAssessmentService.symptom_body, bind, lift,
      read, ret.
    destruct (str_join " " symptoms) as [joined | e]; [| reflexivity].
    cbn [Py.bind].
    destruct (len symptoms) as [n | e]; reflexivity. }
  assert (Hv : _assess_vital_signs_risk vitals risk_service =
               (Ret (RiskAssessmentService._assess_vital_signs_risk vitals),
                risk_service)).
  { unfold _assess_vital_signs_risk,
      RiskAssessmentService._assess_vital_signs_risk, attempt, vital_body,
      RiskAssessmentService.vital_body.
    unfold bind at 1. unfold lift.
    destruct (items_of vitals) as [items | e]; [| reflexivity].
    unfold bind. rewrite vital_loop_on_the_service. cbn [Py.bind].
    destruct (RiskAssessmentService.vital_loop items vital_init);
      reflexivity. }
  pose proof (context_scorer_reads_only user_context risk_service) as Hc.
  pose proof (followup_scorer_reads_only follow_up_data risk_service) as Hf.
  unfold assess_comprehensive_risk,
    RiskAssessmentService.assess_comprehensive_risk, assess_with,
    RiskAssessmentService.assess_body, this, assess_body.
  cbn [score_symptoms score_vitals score_context score_followup Py.bind].
  destruct (truthy vitals), (truthy user_context), (truthy follow_up_data);
    (erewrite attempt_on; [reflexivity |]; run_on; reflexivity).
Qed.

(** Claim C9.  The service is one object that every request calls.  On
    any such object, whatever its tables hold, two assessments of the
    same symptoms, vitals, context and follow-up data return the same
    score, the same level and the same factors, whenever they are made
    and whatever calls of the object's methods are made between them:
    every method only reads the attributes of [self], so each call
    leaves the object as it found it, and the clock reaches the
    timestamp alone.  On the object [__init__] makes, the assessment is
    the one [assess_comprehensive_risk] of the service returns. *)
Theorem repeated_assessments_agree (self : Attributes) (now1 now2 : string)
    (symptoms vitals user_context follow_up_data : value)
    (between : list call) :
  let first :=
    assess_comprehensive_risk now1 symptoms vitals user_context
      follow_up_data self in
  let second :=
    assess_comprehensive_risk now2 symptoms vitals user_context
      follow_up_data (after_all between (snd first)) in
  exists r1 r2,
    fst first = Ret r1 /\
    fst second = Ret r2 /\
    risk_score r1 = risk_score r2 /\
    overall_risk_level r1 = overall_risk_level r2 /\
    risk_factors r1 = risk_factors r2 /\
    snd second = self /\
    (self = risk_service ->
     r1 = RiskAssessmentService.assess_comprehensive_risk now1 symptoms
            vitals user_context follow_up_data).
Proof.
  cbv zeta.
  destruct (assessment_reads_only self now1 now2 symptoms vitals
              user_context follow_up_data)
    as (r1 & r2 & H1 & H2 & Hscore & Hlevel & Hfactors).
  rewrite H1. cbn [fst snd]. rewrite calls_read_only, H2. cbn [fst snd].
  exists r1, r2. repeat split; try assumption.
  intros ->. rewrite assessment_on_the_service in H1. now injection H1.
Qed.

End SharedObject.

Section SharedObjectRuns.
Import RiskAssessmentService.
Import RiskAssessmentObject.

(** What a call returns does depend on the object: on the service with
    its emergency keywords assigned anew, chest pain scores nothing.  An
    assignment in any method would reach the calls after it. *)
Lemma an_assignment_would_be_seen :
  fst (_assess_symptom_risk (PList [PStr "chest pain"]) risk_service)
    = Ret {| score := 8;
             factors := ["Emergency symptom detected: chest pain"];
             details := [("symptom_count", PInt 1);
                         ("emergency_symptoms_detected", PBool true)] |} /\
  fst (_assess_symptom_risk (PList [PStr "chest pain"])
         (snd (assign (set_emergency_keywords []) risk_service)))
    = Ret {| score := 0;
             factors := [];
             details := [("symptom_count", PInt 1);
                         ("emergency_symptoms_detected", PBool false)] |}.
Proof. split; reflexivity. Qed.

End SharedObjectRuns.

Section AggregatorRuns.
Import RiskAssessmentService.

Lemma faults_at_both_levels :
  overall_risk_level
    (assess_with Requests.raising_scorers Requests.noon
       (PList []) PNone Requests.context_with_text_age PNone) = "HIGH" /\
  score (_assess_context_risk Requests.context_with_text_age) = 1.
Proof.
  pose proof (@scoring_faults_are_absorbed cpython Requests.noon
                (PList []) PNone Requests.context_with_text_age PNone)
    as (Haggregator & _ & _ & Hcontext & _).
  split.
  - exact (proj1 (Haggregator Requests.raising_scorers TypeError eq_refl)).
  - exact (proj1 (Hcontext TypeError eq_refl)).
Defined.

(** With no symptoms and nothing else given, the
    aggregator returns a result: score 0, level LOW. *)
Theorem empty_request_is_low_risk :
  assess_comprehensive_risk Requests.noon (PList []) PNone PNone PNone =
  {| overall_risk_level := "LOW";
     risk_score := 0;
     risk_factors := [];
     recommendations := _generate_recommendations "LOW";
     urgency_level := "routine";
     triage_category := Some "non_urgent";
     time_to_care := Some "Routine care (1-7 days)";
     assessment_components :=
       [("symptoms",
         {| score := 0;
            factors := [];
            details := [("symptom_count", PInt 0);
                        ("emergency_symptoms_detected", PBool false)] |})];
     assessment_timestamp := Some Requests.noon;
     assessment_version := Some "2.0";
     error := None |}.
Proof. reflexivity. Qed.

(** The claim of C1 as stated fails.  An age that is text makes the
    context scorer raise ([ "abc" >= 65 ] is a [TypeError]); the scorer
    answers with its fallback of score 1, and with no symptoms the
    aggregate is LOW, routine, score 1: not the fail-safe result, and a
    drop to LOW. *)
Lemma text_age_fault_ends_in_low_risk :
  context_body Requests.context_with_text_age = Raise TypeError /\
  overall_risk_level
    (assess_comprehensive_risk Requests.noon
       (PList []) PNone Requests.context_with_text_age PNone) = "LOW" /\
  risk_score
    (assess_comprehensive_risk Requests.noon
       (PList []) PNone Requests.context_with_text_age PNone) = 1 /\
  urgency_level
    (assess_comprehensive_risk Requests.noon
       (PList []) PNone Requests.context_with_text_age PNone) = "routine" /\
  risk_factors
    (assess_comprehensive_risk Requests.noon
       (PList []) PNone Requests.context_with_text_age PNone)
    = ["Context assessment error"].
Proof. repeat split. Qed.

End AggregatorRuns.

(* ------------------------------------------------------------------ *)
(** ** The sanitizer                                                  *)
(* ------------------------------------------------------------------ *)

Section Sanitizer.
Context {rt : Runtime}.
Import MentalHealthSecurityService.

(** Induction on a value, with the property at hand for every item of a
    list or a dictionary. *)
Lemma value_nested_ind (P : value -> Prop) :
  P PNone ->
  (forall b, P (PBool b)) ->
  (forall z, P (PInt z)) ->
  (forall f, P (PFloat f)) ->
  (forall s, P (PStr s)) ->
  (forall l, Forall P l -> P (PList l)) ->
  (forall items, Forall (fun kv => P (snd kv)) items -> P (PDict items)) ->
  forall v, P v.
Proof.
  intros Hnone Hbool Hint Hfloat Hstr Hlist Hdict.
  fix IH 1. intros [| b | z | f | s | l | items].
  - exact Hnone.
  - apply Hbool.
  - apply Hint.
  - apply Hfloat.
  - apply Hstr.
  - apply Hlist. induction l as [| x rest IHl]; constructor;
      [apply IH | exact IHl].
  - apply Hdict. induction items as [| [k x] rest IHl]; constructor;
      [apply IH | exact IHl].
Qed.

(** [clean_dict] returns exactly when the stack holds the frames the
    value needs, and then with every leaf cleaned; otherwise it raises
    [RecursionError]. *)
Lemma clean_dict_spec (d : value) (stack : nat) :
  ((Measures.stack_need d <= stack)%nat ->
   clean_dict stack d = Ret (Measures.map_leaves clean_text d)) /\
  ((stack < Measures.stack_need d)%nat ->
   clean_dict stack d = Raise RecursionError).
Proof.
  revert stack. induction d as [| b | z | f | s | l Hl | items Hitems]
    using value_nested_ind; intros [| stack];
    try (split; [intros H; cbn in H; lia | reflexivity]);
    try (split; [reflexivity | intros H; cbn in H; lia]).
  - (* a str *)
    cbn [clean_dict Measures.stack_need Measures.map_leaves].
    destruct (Nat.leb_spec (S re_sub_frames) stack) as [H | H];
      (split; [intros H'; reflexivity || lia | intros H'; reflexivity || lia]).
  - (* a list *)
    cbn [clean_dict Measures.stack_need Measures.map_leaves].
    destruct (Nat.leb_spec comprehension_frames stack) as [Hc | Hc];
      [| split; [lia | reflexivity]].
    set (room := (stack - comprehension_frames)%nat).
    match goal with
    | |- context [Py.bind (?each l) _] =>
        match goal with
        | |- context [(comprehension_frames + ?neediest l)%nat] =>
            assert (Heach :
              ((neediest l <= room)%nat ->
               each l = Ret (map (Measures.map_leaves clean_text) l)) /\
              ((room < neediest l)%nat -> each l = Raise RecursionError))
        end
    end.
    { induction Hl as [| x rest Hx Hrest IHrest]; [split; [reflexivity | cbn; lia] |].
      destruct (Hx room) as [Hx1 Hx2]. destruct IHrest as [IH1 IH2].
      cbn [map]. split; intros H.
      - rewrite Hx1 by lia. cbn [Py.bind]. rewrite IH1 by lia. reflexivity.
      - destruct (Nat.le_gt_cases (Measures.stack_need x) room) as [Hle | Hgt].
        + rewrite (Hx1 Hle). cbn [Py.bind]. rewrite IH2 by lia. reflexivity.
        + rewrite (Hx2 Hgt). reflexivity. }
    destruct Heach as [H1 H2]. split; intros H.
    + rewrite H1 by lia. reflexivity.
    + rewrite H2 by lia. reflexivity.
  - (* a dictionary *)
    cbn [clean_dict Measures.stack_need Measures.map_leaves].
    destruct (Nat.leb_spec comprehension_frames stack) as [Hc | Hc];
      [| split; [lia | reflexivity]].
    set (room := (stack - comprehension_frames)%nat).
    match goal with
    | |- context [Py.bind (?each items) _] =>
        match goal with
        | |- context [(comprehension_frames + ?neediest items)%nat] =>
            match goal with
            | |- context [PDict (?cleaned items)] =>
                assert (Heach :
                  ((neediest items <= room)%nat ->
                   each items = Ret (cleaned items)) /\
                  ((room < neediest items)%nat ->
                   each items = Raise RecursionError))
            end
        end
    end.
    { induction Hitems as [| [k x] rest Hx Hrest IHrest];
        [split; [reflexivity | cbn; lia] |].
      cbn [snd] in Hx.
      destruct (Hx room) as [Hx1 Hx2]. destruct IHrest as [IH1 IH2].
      split; intros H.
      - rewrite Hx1 by lia. cbn [Py.bind]. rewrite IH1 by lia. reflexivity.
      - destruct (Nat.le_gt_cases (Measures.stack_need x) room) as [Hle | Hgt].
        + rewrite (Hx1 Hle). cbn [Py.bind]. rewrite IH2 by lia. reflexivity.
        + rewrite (Hx2 Hgt). reflexivity. }
    destruct Heach as [H1 H2]. split; intros H.
    + rewrite H1 by lia. reflexivity.
    + rewrite H2 by lia. reflexivity.
Qed.

(** Once it has started, [clean_dict] raises for one reason only: the
    stack is exhausted. *)
Lemma clean_dict_raises (stack : nat) (d : value) (e : exn) :
  clean_dict stack d = Raise e -> e = RecursionError.
Proof.
  intros H. destruct (clean_dict_spec d stack) as [Hret Hraise].
  destruct (Nat.le_gt_cases (Measures.stack_need d) stack) as [Hle | Hgt].
  - rewrite (Hret Hle) in H. discriminate.
  - rewrite (Hraise Hgt) in H. now injection H.
Qed.

(** Claim C10.  [sanitize_mental_health_input] returns on every input.
    When its [try] block returns, the result is the cleaned copy.  When
    the block raises (the input has no [copy] method, or it is nested
    deeper than the stack allows), the result is the input itself, with
    every text in it as it came. *)
Theorem sanitizer_returns_input_on_internal_error (data : value) :
  match sanitize_body data with
  | Ret cleaned => sanitize_mental_health_input data = cleaned
  | Raise e =>
      sanitize_mental_health_input data = data /\
      (Py.copy data = Raise AttributeError /\ e = AttributeError \/
       e = RecursionError)
  end.
Proof.
  unfold sanitize_mental_health_input.
  destruct (sanitize_body data) as [cleaned | e] eqn:Hbody; [reflexivity |].
  split; [reflexivity |].
  unfold sanitize_body in Hbody.
  destruct (Py.copy data) as [sanitized | e'] eqn:Hcopy; cbn [Py.bind] in Hbody.
  - right. eapply clean_dict_raises. exact Hbody.
  - left. injection Hbody as <-.
    destruct data; cbn in Hcopy; try discriminate; injection Hcopy as <-;
      split; reflexivity.
Qed.

End Sanitizer.

Section SanitizerRuns.
Import MentalHealthSecurityService.

(** On a request of ordinary shape every dangerous pattern is replaced,
    the patterns taken in the order of the list. *)
Example sanitizer_replaces_dangerous_text :
  sanitize_mental_health_input
    (PDict [("symptoms", PList [PStr "<script>alert(1)</script>"]);
            ("support_system", PStr "eval(document.cookie)")]) =
  PDict [("symptoms", PList [PStr "[REMOVED]"]);
         ("support_system", PStr "[REMOVED][REMOVED]cookie)")].
Proof. reflexivity. Qed.

(** A script tag under a thousand list brackets exhausts the stack of
    [clean_dict]; it comes back as it went in. *)
Lemma deeply_nested_script_comes_back_unchanged :
  sanitize_body Requests.deeply_nested_script = Raise RecursionError /\
  sanitize_mental_health_input Requests.deeply_nested_script
    = Requests.deeply_nested_script.
Proof.
  split.
  - vm_compute. reflexivity.
  - exact (proj1 (sanitizer_returns_input_on_internal_error
                    Requests.deeply_nested_script)).
Defined.

End SanitizerRuns.

(* ================================================================== *)
(** * Further properties                                              *)
(* ================================================================== *)

(* ------------------------------------------------------------------ *)
(** ** More on the vitals scorer                                      *)
(* ------------------------------------------------------------------ *)

Section VitalsScorerMore.
Context {rt : Runtime}.
Import RiskAssessmentService.
Import Notions.

(** Property X3.  Every oxygen saturation that [float] reads is flagged:
    a reading inside 0 to 89 is inside the critical band and outside the
    concerning one (90 to 94), so it is reported concerning and worth 4;
    any other reading is outside the critical band, so it is reported
    critical and worth 6.  No reading is left unflagged. *)
Theorem every_oxygen_reading_is_flagged (value : value) (v : pyfloat) :
  eq_str value EmptyString = false ->
  to_float value = Ret v ->
  let c := _assess_vital_signs_risk (PDict [("oxygen_saturation", value)]) in
  if within (0, 89)%Q v
  then score c = 4 /\
       factors c = ["Concerning oxygen_saturation: " ++ float_repr v]
  else score c = 6 /\
       factors c = ["Critical oxygen_saturation: " ++ float_repr v].
Proof.
  intros Hempty Hv. cbv zeta.
  unfold _assess_vital_signs_risk, vital_body.
  cbn [items_of Py.bind vital_loop vital_step]. rewrite Hempty, Hv.
  assert (Hnone : is_none value = false)
    by (destruct value; try reflexivity; discriminate).
  rewrite Hnone. cbn [orb Py.bind try_except].
  unfold classify_vital. cbn [ranges_of vital_ranges String.eqb Ascii.eqb
    Bool.eqb critical concerning normal].
  destruct (within (0, 89)%Q v) eqn:Hcritical; cbn [negb].
  - apply within_finite in Hcritical as (q & -> & Hq0 & Hq89).
    cbn [fst snd] in Hq0, Hq89.
    assert (Hc : within (90, 94)%Q (FFin q) = false).
    { unfold within. cbn [float_le fst snd].
      apply andb_false_iff. left.
      destruct (Qle_bool 90 q) eqn:H90; [| reflexivity].
      apply Qle_bool_iff in H90. lra. }
    rewrite Hc. cbn. split; reflexivity.
  - cbn. split; reflexivity.
Qed.

(** What one iteration of the loop can do to the state. *)
Lemma vital_step_cases (st st' : VitalState) (name : string) (value : value) :
  vital_step st (name, value) = Ret st' ->
  st' = st \/
  st' = invalid_vital name value st \/
  exists weight label v ranges,
    ranges_of name vital_ranges = Some ranges /\
    2 <= weight <= 6 /\
    st' = flag weight label name v st.
Proof.
  unfold vital_step.
  destruct (is_none value || eq_str value EmptyString);
    [intros [= <-]; now left |].
  destruct (to_float value) as [v | e].
  - intros [= <-]. unfold classify_vital.
    destruct (ranges_of name vital_ranges) as [ranges |] eqn:Hr; [| now left].
    destruct (negb (within (critical ranges) v));
      [right; right; exists 6, "Critical ", v, ranges; repeat split; lia |].
    destruct (negb (within (concerning ranges) v));
      [right; right; exists 4, "Concerning ", v, ranges; repeat split; lia |].
    destruct (negb (within (normal ranges) v));
      [right; right; exists 2, "Abnormal ", v, ranges; repeat split; lia |].
    now left.
  - destruct e; try discriminate. intros [= <-]. right. now left.
Qed.

Lemma vital_loop_invariant (keys : list string)
    (items : list (string * value)) (k : nat) (st st' : VitalState) :
  incl (map fst items) keys ->
  Measures.vital_invariant keys k st ->
  vital_loop items st = Ret st' ->
  Measures.vital_invariant keys (k + List.length items) st'.
Proof.
  revert k st. induction items as [| [name value] rest IH];
    intros k st Hkeys Hinv Hloop.
  - injection Hloop as <-. cbn. rewrite Nat.add_0_r. exact Hinv.
  - cbn [vital_loop] in Hloop. bind_inv Hloop.
    cbn [List.length]. rewrite Nat.add_succ_r, <- Nat.add_succ_l.
    apply (IH (S k) a); [| | exact Hloop].
    { intros x Hx. apply Hkeys. now right. }
    destruct Hinv as (Hscore & Hlen & Hknown).
    apply vital_step_cases in Ha
      as [-> | [-> | (weight & label & v & ranges & Hr & Hw & ->)]].
    + split; [exact Hscore |]. split; [lia | exact Hknown].
    + unfold invalid_vital, Measures.vital_invariant.
      cbn [v_score v_factors v_abnormal].
      rewrite length_app. cbn [List.length].
      split; [exact Hscore |]. split; [lia | exact Hknown].
    + unfold flag, Measures.vital_invariant.
      cbn [v_score v_factors v_abnormal].
      rewrite !length_app. cbn [List.length].
      split; [lia |]. split; [lia |].
      intros n Hn. apply in_app_or in Hn as [Hn | [<- | []]].
      * now apply Hknown.
      * split; [apply Hkeys; now left | now exists ranges].
Qed.

(** Property X4.  Whenever the [try] block of the vitals scorer returns,
    the vitals it lists as abnormal are keys of the request and vital
    signs of the table, the uncapped score lies between 2 and 6 for each
    of them, every abnormal vital has a factor, and there is at most one
    factor per key of the request. *)
Theorem vitals_component_invariants (items : list (string * value))
    (c : RiskComponent) :
  vital_body (PDict items) = Ret c ->
  exists (abnormal : list string) (raw : Z),
    lookup "abnormal_vitals" (details c) = Some (PList (map PStr abnormal)) /\
    score c = Z.min raw 8 /\
    2 * Z.of_nat (List.length abnormal) <= raw
      <= 6 * Z.of_nat (List.length abnormal) /\
    (List.length abnormal <= List.length (factors c) <= List.length items)%nat
    /\
    forall name, In name abnormal ->
      In name (map fst items) /\
      exists ranges, ranges_of name vital_ranges = Some ranges.
Proof.
  unfold vital_body. cbn [items_of Py.bind]. intros H. bind_inv H.
  injection H as <-.
  assert (Hinit : Measures.vital_invariant (map fst items) 0 vital_init).
  { unfold Measures.vital_invariant, vital_init. cbn.
    split; [lia |]. split; [lia |]. intros name []. }
  pose proof (vital_loop_invariant (map fst items) items 0 vital_init a
                (incl_refl _) Hinit Ha) as (Hscore & Hlen & Hknown).
  exists (v_abnormal a), (v_score a).
  cbn [vital_component details score factors lookup String.eqb Ascii.eqb
       Bool.eqb].
  split; [reflexivity |]. split; [reflexivity |].
  split; [exact Hscore |]. split; [exact Hlen | exact Hknown].
Qed.

End VitalsScorerMore.

(* ------------------------------------------------------------------ *)
(** ** More on the aggregator                                         *)
(* ------------------------------------------------------------------ *)

Section AggregatorMore.
Context {rt : Runtime}.
Import RiskAssessmentService.
Import Notions.

(** The place of the level on the ladder, read off the total. *)
Lemma rank_of_total (total : Z) :
  Measures.rank (final_risk_level (_determine_final_risk_level total)) =
  if 15 <=? total then 4%nat
  else if 10 <=? total then 3%nat
  else if 6 <=? total then 2%nat
  else if 3 <=? total then 1%nat
  else 0%nat.
Proof.
  unfold _determine_final_risk_level.
  destruct (15 <=? total); [reflexivity |].
  destruct (10 <=? total); [reflexivity |].
  destruct (6 <=? total); [reflexivity |].
  destruct (3 <=? total); reflexivity.
Qed.

(** A higher total is never given a lower level. *)
Lemma rank_is_monotone (a b : Z) :
  a <= b ->
  (Measures.rank (final_risk_level (_determine_final_risk_level a)) <=
   Measures.rank (final_risk_level (_determine_final_risk_level b)))%nat.
Proof.
  intros Hab. rewrite !rank_of_total.
  destruct (15 <=? a) eqn:A15, (15 <=? b) eqn:B15,
           (10 <=? a) eqn:A10, (10 <=? b) eqn:B10,
           (6 <=? a) eqn:A6, (6 <=? b) eqn:B6,
           (3 <=? a) eqn:A3, (3 <=? b) eqn:B3; lia.
Qed.

(** The result of the aggregator, field by field. *)
Lemma assess_result (now : string)
    (symptoms vitals user_context follow_up_data : value) :
  let r := assess_comprehensive_risk now symptoms vitals user_context
             follow_up_data in
  let final := _determine_final_risk_level (risk_score r) in
  risk_score r =
    score (_assess_symptom_risk symptoms)
    + share vitals (_assess_vital_signs_risk vitals)
    + share user_context (_assess_context_risk user_context)
    + share follow_up_data (_assess_followup_risk follow_up_data) /\
  overall_risk_level r = final_risk_level final /\
  urgency_level r = final_urgency_level final /\
  triage_category r = Some (final_triage_category final) /\
  time_to_care r = Some (final_time_to_care final) /\
  recommendations r = _generate_recommendations (final_risk_level final) /\
  assessment_timestamp r = Some now /\
  assessment_version r = Some "2.0" /\
  error r = None.
Proof.
  cbv zeta. unfold assess_comprehensive_risk, assess_with, assess_body, this,
    share.
  cbn [score_symptoms score_vitals score_context score_followup Py.bind].
  destruct (truthy vitals), (truthy user_context), (truthy follow_up_data);
    cbn [Py.bind try_except risk_score overall_risk_level urgency_level
         triage_category time_to_care recommendations assessment_timestamp
         assessment_version error absorb run_score];
    repeat split; lia.
Qed.

Lemma share_nonneg (input : value) (c : RiskComponent) :
  0 <= score c -> 0 <= share input c.
Proof. unfold share. destruct (truthy input); lia. Qed.

(** Property X5.  Vitals, context and follow-up data can only add to an
    assessment: the score with them is at least the score of the
    symptoms alone, and the level is at least as high. *)
Theorem further_inputs_never_lower_the_risk (now : string)
    (symptoms vitals user_context follow_up_data : value) :
  let alone := assess_comprehensive_risk now symptoms PNone PNone PNone in
  let full := assess_comprehensive_risk now symptoms vitals user_context
                follow_up_data in
  risk_score alone <= risk_score full /\
  (Measures.rank (overall_risk_level alone) <=
   Measures.rank (overall_risk_level full))%nat.
Proof.
  cbv zeta.
  destruct (assess_result now symptoms PNone PNone PNone)
    as (Hs0 & Hl0 & _).
  destruct (assess_result now symptoms vitals user_context follow_up_data)
    as (Hs & Hl & _).
  pose proof (share_nonneg vitals _ (proj1 (vital_score_bounds vitals))).
  pose proof (share_nonneg user_context _
                (proj1 (context_score_bounds user_context))).
  pose proof (share_nonneg follow_up_data _
                (proj1 (followup_score_bounds follow_up_data))).
  assert (Hle : risk_score
                  (assess_comprehensive_risk now symptoms PNone PNone PNone)
                <= risk_score
                     (assess_comprehensive_risk now symptoms vitals
                        user_context follow_up_data)).
  { rewrite Hs0, Hs. unfold share at 1 2 3. cbn [truthy]. lia. }
  split; [exact Hle |].
  rewrite Hl0, Hl. now apply rank_is_monotone.
Qed.

(** Property X6.  No component reaches the CRITICAL threshold on its
    own: whenever an assessment is CRITICAL, at least two of its four
    components have a positive score. *)
Theorem critical_takes_two_components (now : string)
    (symptoms vitals user_context follow_up_data : value) :
  overall_risk_level
    (assess_comprehensive_risk now symptoms vitals user_context
       follow_up_data) = "CRITICAL" ->
  let s := score (_assess_symptom_risk symptoms) in
  let v := share vitals (_assess_vital_signs_risk vitals) in
  let c := share user_context (_assess_context_risk user_context) in
  let f := share follow_up_data (_assess_followup_risk follow_up_data) in
  (0 < s /\ 0 < v) \/ (0 < s /\ 0 < c) \/ (0 < s /\ 0 < f) \/
  (0 < v /\ 0 < c) \/ (0 < v /\ 0 < f) \/ (0 < c /\ 0 < f).
Proof.
  intros Hlevel. cbv zeta.
  destruct (assess_result now symptoms vitals user_context follow_up_data)
    as (Hs & Hl & _).
  rewrite Hl in Hlevel.
  assert (H15 : 15 <= risk_score
                        (assess_comprehensive_risk now symptoms vitals
                           user_context follow_up_data)).
  { revert Hlevel. unfold _determine_final_risk_level.
    destruct (15 <=? _) eqn:H15; [intros _; now apply Z.leb_le |].
    destruct (10 <=? _); [discriminate |].
    destruct (6 <=? _); [discriminate |].
    destruct (3 <=? _); discriminate. }
  rewrite Hs in H15.
  pose proof (symptom_score_bounds symptoms).
  pose proof (vital_score_bounds vitals).
  pose proof (context_score_bounds user_context).
  pose proof (followup_score_bounds follow_up_data).
  unfold share in *.
  destruct (truthy vitals), (truthy user_context), (truthy follow_up_data);
    lia.
Qed.

(** Property X7.  Every result of the aggregator is one of five rows,
    picked by its score: the level comes with its urgency, triage
    category, time to care and three recommendations, and the keys the
    callers read ([triage_category], [time_to_care], the timestamp) are
    always set; the fail-safe dictionary, which lacks them, is never
    returned. *)
Theorem result_is_one_of_five_rows (now : string)
    (symptoms vitals user_context follow_up_data : value) :
  let r := assess_comprehensive_risk now symptoms vitals user_context
             follow_up_data in
  In (overall_risk_level r, urgency_level r, triage_category r,
      time_to_care r)
     [("CRITICAL", "emergency", Some "immediate",
       Some "Immediate (0-15 minutes)");
      ("HIGH", "urgent", Some "urgent", Some "Within 1 hour");
      ("MODERATE", "semi_urgent", Some "semi_urgent",
       Some "Within 2-4 hours");
      ("LOW_MODERATE", "less_urgent", Some "less_urgent",
       Some "Within 24 hours");
      ("LOW", "routine", Some "non_urgent", Some "Routine care (1-7 days)")]
  /\
  recommendations r = _generate_recommendations (overall_risk_level r) /\
  List.length (recommendations r) = 3%nat /\
  assessment_timestamp r = Some now /\
  error r = None.
Proof.
  cbv zeta.
  destruct (assess_result now symptoms vitals user_context follow_up_data)
    as (_ & Hl & Hu & Ht & Hc & Hr & Hts & _ & He).
  rewrite Hl, Hu, Ht, Hc, Hr, Hts, He.
  unfold _determine_final_risk_level.
  destruct (15 <=? _); [cbn; intuition |].
  destruct (10 <=? _); [cbn; intuition |].
  destruct (6 <=? _); [cbn; intuition |].
  destruct (3 <=? _); cbn; intuition.
Qed.

(** Property X8.  The factors of a result are those of its components
    in the order symptoms, vitals, context, follow-up, and the
    components recorded are the symptom component and one for every
    further input that was given, in the same order. *)
Theorem factors_and_components_come_in_order (now : string)
    (symptoms vitals user_context follow_up_data : value) :
  let r := assess_comprehensive_risk now symptoms vitals user_context
             follow_up_data in
  let given (key : string) (input : value) (c : RiskComponent) :=
    if truthy input then [(key, c)] else [] in
  assessment_components r =
    app [("symptoms", _assess_symptom_risk symptoms)]
      (app (given "vitals" vitals (_assess_vital_signs_risk vitals))
         (app (given "context" user_context
                 (_assess_context_risk user_context))
            (given "follow_up" follow_up_data
               (_assess_followup_risk follow_up_data)))) /\
  risk_factors r =
    concat (map (fun kc => factors (snd kc)) (assessment_components r)).
Proof.
  cbv zeta. unfold assess_comprehensive_risk, assess_with, assess_body, this.
  cbn [score_symptoms score_vitals score_context score_followup Py.bind].
  destruct (truthy vitals), (truthy user_context), (truthy follow_up_data);
    cbn [Py.bind try_except assessment_components risk_factors absorb
         run_factors run_components app map concat snd];
    rewrite ?app_nil_r, <- ?app_assoc; split; reflexivity.
Qed.

End AggregatorMore.

(* ------------------------------------------------------------------ *)
(** ** Substrings                                                     *)
(* ------------------------------------------------------------------ *)

Lemma prefix_iff (a b : string) :
  String.prefix a b = true <-> exists rest, b = a ++ rest.
Proof.
  revert b. induction a as [| c a IH]; intros b.
  - split; [intros _; now exists b | intros _; now destruct b].
  - destruct b as [| d b]; cbn.
    + split; [discriminate | intros [rest H]; discriminate H].
    + destruct (Ascii.ascii_dec c d) as [<- | Hcd].
      * rewrite IH. split; intros [rest H]; exists rest.
        -- now rewrite H.
        -- now injection H.
      * split; [discriminate |].
        intros [rest H]. injection H as H1 _. congruence.
Qed.

Lemma append_assoc (a b c : string) : (a ++ b) ++ c = a ++ (b ++ c).
Proof. induction a as [| x a IH]; cbn; [reflexivity | now rewrite IH]. Qed.

(** [needle in hay] holds exactly when [hay] is [needle] between two
    texts. *)
Lemma contains_iff (needle hay : string) :
  contains needle hay = true <->
  exists before after, hay = before ++ needle ++ after.
Proof.
  induction hay as [| c hay IH]; cbn [contains]; rewrite orb_true_iff.
  - split.
    + intros [H | H]; [| discriminate].
      apply prefix_iff in H as [rest H]. now exists EmptyString, rest.
    + intros ([| d before] & after & H).
      * left. apply prefix_iff. now exists after.
      * discriminate H.
  - rewrite IH, prefix_iff. split.
    + intros [[rest H] | (before & after & H)].
      * now exists EmptyString, rest.
      * exists (String c before), after. cbn. now rewrite H.
    + intros ([| d before] & after & H).
      * left. now exists after.
      * right. injection H as _ H. now exists before, after.
Qed.

(** A part of a part is a part. *)
Lemma contains_trans (a b text : string) :
  contains a b = true -> contains b text = true -> contains a text = true.
Proof.
  rewrite !contains_iff.
  intros (p & q & ->) (before & after & ->).
  exists (before ++ p), (q ++ after). now rewrite !append_assoc.
Qed.

(** What stands in a part of a joined text stands in the joined text. *)
Lemma contains_join (needle sep part : string) (parts : list string) :
  In part parts -> contains needle part = true ->
  contains needle (join sep parts) = true.
Proof.
  intros Hin Hc. apply contains_trans with part; [exact Hc |].
  clear Hc. apply contains_iff. unfold join.
  induction parts as [| p rest IH]; [destruct Hin |].
  destruct Hin as [-> | Hin].
  - destruct rest as [| p' rest]; cbn.
    + exists EmptyString, EmptyString. cbn.
      induction part as [| c part IHp]; cbn; [reflexivity | now rewrite <- IHp].
    + now exists EmptyString, (sep ++ String.concat sep (p' :: rest)).
  - destruct (IH Hin) as (before & after & H).
    destruct rest as [| p' rest]; [destruct Hin |].
    change (String.concat sep (p :: p' :: rest))
      with (p ++ sep ++ String.concat sep (p' :: rest)).
    rewrite H.
    exists (p ++ sep ++ before), after. now rewrite !append_assoc.
Qed.

(* ------------------------------------------------------------------ *)
(** ** More on the symptom scorer                                     *)
(* ------------------------------------------------------------------ *)

Section SymptomScorerMore.
Context {rt : Runtime}.
Import RiskAssessmentService.
Import Notions.

(** The symptom scorer on a list of strings, loop by loop. *)
Lemma symptom_risk_on_strings (symptoms : list string) :
  let text := str_lower (join " " symptoms) in
  let st1 := keyword_pass 8 "Emergency symptom detected: "
               emergency_keywords text (0, []) in
  let st2 := keyword_pass 5 "High-risk symptom: "
               high_risk_keywords text st1 in
  let st3 := keyword_pass 2 "Moderate-risk symptom: "
               moderate_risk_keywords text st2 in
  exists st5,
    fst st3 <= fst st5 /\
    (forall x, In x (snd st3) -> In x (snd st5)) /\
    _assess_symptom_risk (PList (map PStr symptoms)) =
    {| score := Z.min (fst st5) 10;
       factors := snd st5;
       details :=
         [("symptom_count", PInt (Z.of_nat (List.length (map PStr symptoms))));
          ("emergency_symptoms_detected",
           PBool (existsb (fun es => contains es text) emergency_keywords))]
    |}.
Proof.
  cbv zeta. unfold _assess_symptom_risk, symptom_body.
  rewrite str_join_strings. cbn [Py.bind len try_except].
  set (text := str_lower (join " " symptoms)).
  set (st3 := keyword_pass 2 _ moderate_risk_keywords text _).
  eexists. split; [| split; [| reflexivity]].
  - etransitivity; [| apply if_bump_fst_le; lia]. apply if_bump_fst_le; lia.
  - intros x Hx. now do 2 apply if_bump_keeps.
Qed.

(** Property X9.  An emergency keyword anywhere in the joined lowercase
    symptoms is never scored below 8: its factor is reported, the
    component says that an emergency symptom was detected, and the
    assessment as a whole is MODERATE or above whatever else the request
    holds. *)
Theorem emergency_symptom_is_never_low (now : string)
    (symptoms : list string) (keyword : string)
    (vitals user_context follow_up_data : value) :
  In keyword emergency_keywords ->
  contains keyword (str_lower (join " " symptoms)) = true ->
  let c := _assess_symptom_risk (PList (map PStr symptoms)) in
  8 <= score c /\
  In ("Emergency symptom detected: " ++ keyword) (factors c) /\
  lookup "emergency_symptoms_detected" (details c) = Some (PBool true) /\
  (2 <= Measures.rank
          (overall_risk_level
             (assess_comprehensive_risk now (PList (map PStr symptoms))
                vitals user_context follow_up_data)))%nat.
Proof.
  intros Hin Hc. cbv zeta.
  destruct (symptom_risk_on_strings symptoms) as (st5 & Hle & Hkeep & Heq).
  cbv zeta in Hle, Hkeep, Heq.
  set (text := str_lower (join " " symptoms)) in *.
  set (st1 := keyword_pass 8 _ emergency_keywords text (0, [])) in *.
  set (st2 := keyword_pass 5 _ high_risk_keywords text st1) in *.
  set (st3 := keyword_pass 2 _ moderate_risk_keywords text st2) in *.
  assert (H1 : 8 <= fst st1).
  { subst st1. rewrite keyword_pass_spec. cbn [fst].
    pose proof (hit_in text keyword emergency_keywords Hin Hc) as Hhit.
    destruct (hits text emergency_keywords); [destruct Hhit |].
    cbn [List.length]. lia. }
  assert (H2 : fst st1 <= fst st2) by (apply keyword_pass_bounds; lia).
  assert (H3 : fst st2 <= fst st3) by (apply keyword_pass_bounds; lia).
  assert (Hscore : 8 <= score (_assess_symptom_risk (PList (map PStr symptoms))))
    by (rewrite Heq; cbn [score]; lia).
  split; [exact Hscore |].
  split.
  { rewrite Heq. cbn [factors]. apply Hkeep. subst st3 st2.
    do 2 apply keyword_pass_keeps. subst st1.
    now apply keyword_pass_reports. }
  split.
  { rewrite Heq. cbn [details lookup String.eqb Ascii.eqb Bool.eqb].
    do 2 f_equal. apply existsb_exists. now exists keyword. }
  destruct (assess_result now (PList (map PStr symptoms)) vitals
              user_context follow_up_data) as (Hs & Hl & _).
  pose proof (share_nonneg vitals _ (proj1 (vital_score_bounds vitals))).
  pose proof (share_nonneg user_context _
                (proj1 (context_score_bounds user_context))).
  pose proof (share_nonneg follow_up_data _
                (proj1 (followup_score_bounds follow_up_data))).
  rewrite Hl, rank_of_total. rewrite Hs.
  destruct (15 <=? _); [lia |]. destruct (10 <=? _); [lia |].
  destruct (6 <=? _) eqn:H6; [lia |]. apply Z.leb_gt in H6. lia.
Qed.

End SymptomScorerMore.

(* ------------------------------------------------------------------ *)
(** ** Symptoms given as one string                                   *)
(* ------------------------------------------------------------------ *)

Section SymptomsAsText.
Import RiskAssessmentService.
Import Measures.

(** The characters of an ASCII text are its bytes. *)
Lemma chars_cons (c : ascii) (rest : string) :
  chars (String c rest) =
  match chars rest with
  | following :: others =>
      if match rest with
         | String d _ => is_continuation d
         | EmptyString => false
         end
      then String c following :: others
      else String c EmptyString :: following :: others
  | [] => [String c EmptyString]
  end.
Proof. reflexivity. Qed.

(** A letter with an accent takes two bytes and is one character. *)
Example a_letter_with_an_accent_is_one_character :
  chars "née" = ["n"; "é"; "e"] /\ len (PStr "née") = Ret 3.
Proof. split; reflexivity. Qed.

Lemma chars_of_ascii (c : ascii) (rest : string) :
  is_ascii rest = true ->
  chars (String c rest) = String c EmptyString :: chars rest.
Proof.
  intros H. rewrite chars_cons. destruct rest as [| d r].
  - reflexivity.
  - cbn [is_ascii] in H. apply andb_true_iff in H as [Hd _].
    assert (Hcont : is_continuation d = false)
      by (destruct d as [? ? ? ? ? ? [] []]; try discriminate; reflexivity).
    rewrite Hcont. destruct (chars (String d r)); reflexivity.
Qed.

Lemma length_chars_of_ascii (s : string) :
  is_ascii s = true -> List.length (chars s) = String.length s.
Proof.
  induction s as [| c rest IH]; [reflexivity |]. intros H.
  cbn [is_ascii] in H. apply andb_true_iff in H as [_ Hrest].
  rewrite (chars_of_ascii c rest Hrest). cbn [List.length String.length].
  now rewrite IH.
Qed.

(** Joining the characters of an ASCII text puts a space after each but
    the last. *)
Lemma spaced_join_chars (s : string) :
  is_ascii s = true -> spaced (join " " (chars s)) = true.
Proof.
  induction s as [| c rest IH]; [reflexivity |]. intros H.
  cbn [is_ascii] in H. apply andb_true_iff in H as [_ Hrest].
  rewrite (chars_of_ascii c rest Hrest).
  specialize (IH Hrest).
  destruct rest as [| d r]; [reflexivity |].
  cbn [is_ascii] in Hrest. apply andb_true_iff in Hrest as [_ Hr].
  rewrite (chars_of_ascii d r Hr) in IH |- *.
  change (join " " (String c EmptyString :: String d EmptyString :: chars r))
    with (String c (String " "
            (join " " (String d EmptyString :: chars r)))).
  cbn [spaced]. now rewrite IH.
Qed.

Lemma lower_char_space (c : ascii) :
  Ascii.eqb (CPython.lower_char c) " " = Ascii.eqb c " ".
Proof.
  destruct c as [[] [] [] [] [] [] [] []]; reflexivity.
Qed.

Lemma spaced_lower (t : string) : spaced (CPython.lower t) = spaced t.
Proof.
  revert t.
  fix IH 1. intros [| c [| d rest]]; [reflexivity | reflexivity |].
  cbn [CPython.lower spaced]. now rewrite lower_char_space, IH.
Qed.

(** A keyword that starts with two letters is nowhere in a spaced text,
    nor in a spaced text after a space. *)
Lemma spaced_text_has_no_keyword (keyword : string) :
  starts_with_two_letters keyword = true ->
  forall n t, (String.length t <= n)%nat -> spaced t = true ->
    contains keyword t = false /\ contains keyword (String " " t) = false.
Proof.
  destruct keyword as [| a [| b k]]; try discriminate.
  cbn [starts_with_two_letters]. intros Hk.
  apply andb_true_iff in Hk as [Ha Hb].
  apply negb_true_iff, Ascii.eqb_neq in Ha, Hb.
  assert (Hsp : forall t, String.prefix (String a (String b k)) (String " " t)
                          = false).
  { intros t. cbn [String.prefix].
    destruct (Ascii.ascii_dec a " "); [contradiction | reflexivity]. }
  assert (Hcons : forall c t,
            contains (String a (String b k)) (String c t)
            = String.prefix (String a (String b k)) (String c t)
              || contains (String a (String b k)) t) by reflexivity.
  assert (Hnil : contains (String a (String b k)) EmptyString = false)
    by reflexivity.
  assert (Hone : forall x,
            contains (String a (String b k)) (String x EmptyString) = false).
  { intros x. rewrite Hcons, Hnil, orb_false_r. cbn [String.prefix].
    destruct (Ascii.ascii_dec a x); reflexivity. }
  induction n as [| n IH]; intros t Hlen Hspaced.
  - destruct t; [| cbn in Hlen; lia].
    split; [exact Hnil | now rewrite Hcons, Hsp, Hnil].
  - destruct t as [| x [| y rest]].
    + split; [exact Hnil | now rewrite Hcons, Hsp, Hnil].
    + split; [apply Hone | now rewrite Hcons, Hsp, Hone].
    + cbn [spaced] in Hspaced. apply andb_true_iff in Hspaced as [Hy Hrest].
      apply Ascii.eqb_eq in Hy. subst y.
      destruct (IH rest) as [_ Hnext]; [cbn in Hlen; lia | exact Hrest |].
      assert (Ht : contains (String a (String b k))
                     (String x (String " " rest)) = false).
      { rewrite Hcons, Hnext, orb_false_r. cbn [String.prefix].
        destruct (Ascii.ascii_dec a x); [| reflexivity].
        destruct (Ascii.ascii_dec b " "); [contradiction | reflexivity]. }
      split; [exact Ht |]. now rewrite Hcons, Hsp, Ht.
Qed.

Lemma no_hits_in_spaced_text (text : string) (keywords : list string) :
  spaced text = true ->
  forallb starts_with_two_letters keywords = true ->
  hits text keywords = [].
Proof.
  intros Hs Hk. unfold hits. induction keywords as [| k ks IH];
    [reflexivity |].
  cbn [forallb] in Hk. apply andb_true_iff in Hk as [Hk Hks].
  cbn [filter].
  rewrite (proj1 (spaced_text_has_no_keyword k Hk _ text (le_n _) Hs)).
  now apply IH.
Qed.

(** Property X10.  Symptoms given as one string instead of a list of
    strings are read character by character: the text that is searched
    has a space between any two characters, so that no keyword and no
    combination is ever found in it.  Whatever an ASCII string says, on
    the reference runtime the symptom component has score 0 and no
    factor, reports no emergency symptom and counts the characters as
    symptoms, and the assessment of the string alone is LOW. *)
Theorem symptoms_as_one_string_score_nothing (now s : string) :
  is_ascii s = true ->
  @_assess_symptom_risk cpython (PStr s) =
  {| score := 0;
     factors := [];
     details := [("symptom_count", PInt (Z.of_nat (String.length s)));
                 ("emergency_symptoms_detected", PBool false)] |} /\
  overall_risk_level
    (@assess_comprehensive_risk cpython now (PStr s) PNone PNone PNone)
  = "LOW".
Proof.
  intros Hascii.
  assert (Hcomponent :
    @_assess_symptom_risk cpython (PStr s) =
    {| score := 0;
       factors := [];
       details := [("symptom_count", PInt (Z.of_nat (String.length s)));
                   ("emergency_symptoms_detected", PBool false)] |});
    [| split; [exact Hcomponent |];
       destruct (@assess_result cpython now (PStr s) PNone PNone PNone)
         as (Hscore & Hlevel & _);
       rewrite Hlevel, Hscore, Hcomponent; reflexivity].
  unfold _assess_symptom_risk, symptom_body, Py.str_join.
  cbn [Py.iter Py.bind]. rewrite all_str_strings. cbn [Py.bind Py.len].
  rewrite (length_chars_of_ascii s Hascii).
  change (@str_lower cpython) with CPython.lower.
  set (text := CPython.lower (join " " (chars s))).
  assert (Hs : spaced text = true)
    by (subst text; rewrite spaced_lower; now apply spaced_join_chars).
  assert (Hno : forall k, starts_with_two_letters k = true ->
                          contains k text = false).
  { intros k Hk.
    exact (proj1 (spaced_text_has_no_keyword k Hk _ text (le_n _) Hs)). }
  rewrite !keyword_pass_spec.
  rewrite !(no_hits_in_spaced_text text) by (exact Hs || reflexivity).
  rewrite (Hno "fever"), (Hno "chest pain") by reflexivity.
  assert (Hnone : existsb (fun es => contains es text) emergency_keywords
                  = false).
  { apply not_true_is_false. intros H.
    apply existsb_exists in H as (k & Hin & Hk).
    assert (Hk2 : starts_with_two_letters k = true).
    { revert Hin. clear Hk. revert k. apply forallb_forall. reflexivity. }
    rewrite (Hno k Hk2) in Hk. discriminate. }
  rewrite Hnone. reflexivity.
Qed.

End SymptomsAsText.

(* ------------------------------------------------------------------ *)
(** ** The two scorers of follow-up answers                           *)
(* ------------------------------------------------------------------ *)

Section TwoFollowUpScorers.
Context {rt : Runtime}.
Import Measures.

(** Property X11.  The triage service and the conversation service
    score the same answers.  On answers without a temperature reading
    and without fluctuating symptoms, which only one of them counts
    each, they agree: either both take their error path (the pain scale
    cannot be converted), or the triage score is the conversation score
    capped at 5, with as many factors as insights. *)
Theorem the_two_follow_up_scorers_agree (items : list (string * value)) :
  truthy (get_or_none "temperature_reading" items) = false ->
  eq_str (get_or_none "symptom_progression" items) "Fluctuating" = false ->
  let c := RiskAssessmentService._assess_followup_risk (PDict items) in
  let r := ConversationService._analyze_follow_up_risk (PDict items) in
  (c = RiskAssessmentService.followup_fallback /\
   r = ConversationService.analysis_fallback) \/
  (RiskAssessmentService.score c = Z.min (ConversationService.risk_score r) 5 /\
   List.length (RiskAssessmentService.factors c) =
   List.length (ConversationService.insights r)).
Proof.
  intros Htemp Hfluct. cbv zeta.
  unfold RiskAssessmentService._assess_followup_risk,
    RiskAssessmentService.followup_body,
    ConversationService._analyze_follow_up_risk,
    ConversationService.analysis_body.
  unfold get_or_none in Htemp, Hfluct.
  cbn [Py.get Py.bind].
  set (pain := match lookup "pain_scale" items with
               | Some v => v | None => PNone end).
  set (breathing := match lookup "breathing_difficulty" items with
                    | Some v => v | None => PNone end).
  set (progression := match lookup "symptom_progression" items with
                      | Some v => v | None => PNone end) in *.
  set (temperature := match lookup "temperature_reading" items with
                      | Some v => v | None => PNone end) in *.
  unfold RiskAssessmentService.pain_rule, ConversationService.analyze_pain,
    ConversationService.analyze_temperature.
  rewrite Htemp, Hfluct.
  destruct (truthy pain).
  - destruct (to_int pain) as [n | e]; cbn [Py.bind try_except];
      [| left; split; reflexivity].
    right.
    destruct (8 <=? n); [| destruct (6 <=? n)];
      destruct (eq_str breathing "yes"),
               (eq_str progression "Getting worse");
      cbn; split; reflexivity.
  - right. cbn [Py.bind try_except].
    destruct (eq_str breathing "yes"), (eq_str progression "Getting worse");
      cbn; split; reflexivity.
Qed.

End TwoFollowUpScorers.

(* ------------------------------------------------------------------ *)
(** ** More on the context scorer                                     *)
(* ------------------------------------------------------------------ *)

Section ContextScorerMore.
Context {rt : Runtime}.
Import RiskAssessmentService.
Import Measures.

(** The loop over a medical history of strings: two points and one
    factor for every entry that names a high-risk condition. *)
Lemma history_loop_strings (history : list string) (st : Z * list string) :
  history_loop (map PStr history) st =
  Ret (fst st
       + 2 * Z.of_nat (List.length (filter names_high_risk_condition history)),
       app (snd st)
         (map (fun condition => "High-risk medical condition: " ++ condition)
            (filter names_high_risk_condition history))).
Proof.
  revert st. induction history as [| h rest IH]; intros [s fs].
  - cbn [map history_loop filter List.length fst snd].
    rewrite app_nil_r. f_equal. f_equal. lia.
  - cbn [map history_loop Py.lower Py.bind filter]. rewrite IH.
    change (existsb (fun risk_condition =>
                       contains risk_condition (str_lower h))
              high_risk_conditions)
      with (names_high_risk_condition h).
    destruct (names_high_risk_condition h);
      cbn [bump fst snd List.length map Py.str];
      rewrite <- ?app_assoc; f_equal; f_equal; lia.
Qed.

Lemma age_rule_of_int (age : Z) (st : Z * list string) :
  exists added,
    age_rule (PInt age) st = Ret (fst st + age_points age, app (snd st) added)
    /\ (List.length added <= 1)%nat.
Proof.
  unfold age_rule, age_points. cbn [truthy ge_int le_int as_int Py.bind].
  destruct st as [s fs]. cbn [fst snd].
  destruct (age =? 0); cbn [negb].
  { exists []. rewrite app_nil_r, Z.add_0_r. split; [reflexivity | cbn; lia]. }
  destruct (65 <=? age); cbn [Py.bind bump fst snd].
  { eexists [_]. split; [reflexivity | cbn; lia]. }
  destruct (age <=? 2); cbn [Py.bind bump fst snd].
  { eexists [_]. split; [reflexivity | cbn; lia]. }
  destruct (age <=? 12); cbn [Py.bind bump fst snd].
  { eexists [_]. split; [reflexivity | cbn; lia]. }
  exists []. rewrite app_nil_r, Z.add_0_r. split; [reflexivity | cbn; lia].
Qed.

(** Property X12.  The context score in closed form, for an integer age
    and a medical history of strings: the points of the age (none for
    0, three up to 2, one up to 12, two from 65), two for every history
    entry that names a high-risk condition (an entry naming several
    counts once, a repeated entry counts again), two for a pregnancy,
    and the sum capped at 6.  The history factors come in the order of
    the history. *)
Theorem context_score_in_closed_form (items : list (string * value))
    (age : Z) (history : list string) :
  lookup "age" items = Some (PInt age) ->
  lookup "medical_history" items = Some (PList (map PStr history)) ->
  let c := _assess_context_risk (PDict items) in
  let named := filter names_high_risk_condition history in
  score c =
    Z.min (age_points age + 2 * Z.of_nat (List.length named)
           + (if truthy (get_or_none "pregnant" items) then 2 else 0)) 6 /\
  exists before after,
    factors c =
      app before
        (app (map (fun condition =>
                     "High-risk medical condition: " ++ condition) named)
           after) /\
    (List.length before <= 1)%nat /\
    after = (if truthy (get_or_none "pregnant" items)
             then ["Pregnancy requires special medical consideration"]
             else []).
Proof.
  intros Hage Hhistory. cbv zeta.
  unfold _assess_context_risk, context_body, get_or_none.
  cbn [Py.get Py.bind]. rewrite Hage, Hhistory.
  destruct (age_rule_of_int age (0, [])) as (added & -> & Hadded).
  cbn [Py.bind Py.iter fst snd app]. rewrite history_loop_strings.
  cbn [Py.bind fst snd].
  set (pregnant := match lookup "pregnant" items with
                   | Some v => v | None => PNone end).
  assert (Hcat : exists cat,
    (if truthy (PInt age) then _get_age_category (PInt age)
     else Ret "unknown") = Ret cat).
  { unfold _get_age_category. cbn [truthy le_int as_int Py.bind].
    destruct (negb (age =? 0)); [| now eexists].
    destruct (age <=? 2); [now eexists |]. cbn [Py.bind].
    destruct (age <=? 12); [now eexists |]. cbn [Py.bind].
    destruct (age <=? 17); [now eexists |]. cbn [Py.bind].
    destruct (age <=? 64); now eexists. }
  destruct Hcat as (cat & ->). cbn [Py.bind try_except score factors].
  destruct (truthy pregnant); cbn [bump fst snd].
  - split; [f_equal; lia |].
    eexists added, _. rewrite <- app_assoc. repeat split; assumption.
  - split; [f_equal; lia |].
    exists added, []. rewrite app_nil_r. repeat split; assumption.
Qed.

End ContextScorerMore.

(* ------------------------------------------------------------------ *)
(** ** More on the crisis detector                                    *)
(* ------------------------------------------------------------------ *)

Section CrisisDetectorMore.
Context {rt : Runtime}.
Import MentalHealthSecurityService.

Import Measures.

Lemma weigh_app (a b : list string) : weigh (app a b) = weigh a + weigh b.
Proof.
  induction a as [| i a IH]; [reflexivity |].
  change (weigh (app (i :: a) b))
    with (indicator_weight i + weigh (app a b)).
  change (weigh (i :: a)) with (indicator_weight i + weigh a).
  rewrite IH. lia.
Qed.

Lemma prefix_append (a b : string) : String.prefix a (a ++ b) = true.
Proof. apply prefix_iff. now exists b. Qed.

Lemma weigh_labelled (label : string) (w : Z) (keywords : list string) :
  (forall k, Measures.indicator_weight (label ++ k) = w) ->
  weigh (map (fun k => label ++ k) keywords) = w * Z.of_nat (List.length keywords).
Proof.
  intros Hw. induction keywords as [| k ks IH].
  - change (weigh (map (fun k => label ++ k) [])) with 0.
    cbn [List.length]. lia.
  - change (weigh (map (fun k => label ++ k) (k :: ks)))
      with (indicator_weight (label ++ k)
            + weigh (map (fun k => label ++ k) ks)).
    rewrite Hw, IH. cbn [List.length]. lia.
Qed.

Lemma keyword_pass_weighs (w : Z) (label text : string)
    (keywords : list string) (st : Z * list string) :
  (forall k, Measures.indicator_weight (label ++ k) = w) ->
  fst st = weigh (snd st) ->
  let st' := keyword_pass w label keywords text st in
  fst st' = weigh (snd st').
Proof.
  intros Hw Hst. cbv zeta. rewrite keyword_pass_spec. cbn [fst snd].
  rewrite weigh_app, (weigh_labelled label w) by exact Hw. lia.
Qed.

Lemma rating_rule_weighs (rating : value) (test : Z -> bool) (w : Z)
    (indicator : string) (st : Z * list string) :
  Measures.indicator_weight indicator = w ->
  fst st = weigh (snd st) ->
  let st' := rating_rule rating test w indicator st in
  fst st' = weigh (snd st').
Proof.
  intros Hw Hst. cbv zeta. unfold rating_rule, bump.
  destruct (as_int rating) as [n |]; [destruct (test n) |]; cbn [fst snd];
    rewrite ?weigh_app;
    change (weigh [indicator]) with (indicator_weight indicator + 0); lia.
Qed.

(** Property X13.  Whenever the crisis detector returns from its [try]
    block, its score is the sum of the weights of the indicators it
    reports: 10, 5 and 2 for a keyword of the three tiers, 3 for a very
    low mood rating, 2 for high anxiety and 2 for high stress.  No point
    is given without an indicator that accounts for it, and there is no
    cap. *)
Theorem crisis_score_is_the_sum_of_its_indicators (now : string)
    (user_input : value) (r : CrisisResult) :
  crisis_body now user_input = Ret r ->
  risk_score r = Measures.weigh (risk_indicators r).
Proof.
  unfold crisis_body. intros H. do 8 bind_inv H.
  injection H as <-. cbn [risk_score risk_indicators].
  match type of Ha6 with context [join ?sep ?parts] =>
    set (all_text := join sep parts) in Ha6 end.
  assert (H1 : fst (keyword_pass 10 "Crisis indicator: "
                      (crisis risk_keywords) all_text (0, []))
               = weigh (snd (keyword_pass 10 "Crisis indicator: "
                      (crisis risk_keywords) all_text (0, [])))).
  { apply keyword_pass_weighs; [| reflexivity].
    intros k. unfold Measures.indicator_weight.
    now rewrite prefix_append. }
  set (st1 := keyword_pass 10 _ _ _ _) in *.
  assert (H2 : fst (keyword_pass 5 "High risk indicator: "
                      (high_risk risk_keywords) all_text st1)
               = weigh (snd (keyword_pass 5 "High risk indicator: "
                      (high_risk risk_keywords) all_text st1))).
  { apply keyword_pass_weighs; [| exact H1].
    intros k. unfold Measures.indicator_weight.
    now rewrite prefix_append. }
  set (st2 := keyword_pass 5 _ _ _ _) in *.
  assert (H3 : fst (keyword_pass 2 "Moderate risk indicator: "
                      (moderate_risk risk_keywords) all_text st2)
               = weigh (snd (keyword_pass 2 "Moderate risk indicator: "
                      (moderate_risk risk_keywords) all_text st2))).
  { apply keyword_pass_weighs; [| exact H2].
    intros k. unfold Measures.indicator_weight.
    now rewrite prefix_append. }
  set (st3 := keyword_pass 2 _ _ _ _) in *.
  destruct (is_dict a).
  - do 3 bind_inv Ha6. injection Ha6 as <-.
    repeat (apply rating_rule_weighs; [reflexivity |]). exact H3.
  - injection Ha6 as <-. exact H3.
Qed.

(** Property X14.  A crisis keyword in any entry of [symptoms] calls for
    intervention whatever else the questionnaire holds, and whether or
    not the assessment runs into an error: both flags are set and the
    score is at least 10. *)
Theorem crisis_keyword_in_a_symptom_calls_for_intervention (now : string)
    (items : list (string * value)) (symptoms : list value)
    (symptom : value) (keyword : string) :
  lookup "symptoms" items = Some (PList symptoms) ->
  In symptom symptoms ->
  In keyword (crisis risk_keywords) ->
  contains keyword (str_lower (Py.str symptom)) = true ->
  let r := assess_crisis_risk now (PDict items) in
  crisis_intervention_needed r = true /\
  professional_referral_suggested r = true /\
  10 <= risk_score r.
Proof.
  intros Hsym Hin Hkw Hc. cbv zeta. unfold assess_crisis_risk.
  destruct (crisis_body now (PDict items)) as [r | e] eqn:Hbody;
    cbn [try_except]; [| cbn; repeat split; lia].
  pose proof (crisis_body_shape _ _ _ Hbody) as (_ & Hlevel & Hneed & Href & _).
  assert (H10 : 10 <= risk_score r).
  { clear Hlevel Hneed Href. unfold crisis_body in Hbody.
    do 8 bind_inv Hbody. injection Hbody as <-. cbn [risk_score].
    cbn [Py.get] in Ha1. rewrite Hsym in Ha1. injection Ha1 as <-.
    cbn [Py.iter] in Ha2. injection Ha2 as <-.
    match type of Ha6 with context [join ?sep ?parts] =>
      set (all_text := join sep parts) in Ha6;
      assert (Hall : contains keyword all_text = true)
    end.
    { subst all_text. eapply contains_join; [| exact Hc].
      assert (Hl : In (str_lower (Py.str symptom)) (lowered symptoms))
        by (unfold lowered; apply in_map_iff; now exists symptom).
      destruct (truthy a5); rewrite !in_app_iff; tauto. }
    pose proof (hit_in all_text keyword _ Hkw Hall) as Hhit.
    assert (B1 : 10 <= fst (keyword_pass 10 "Crisis indicator: "
                              (crisis risk_keywords) all_text (0, []))).
    { rewrite keyword_pass_spec. cbn [fst].
      destruct (hits all_text (crisis risk_keywords)); [destruct Hhit |].
      cbn [List.length]. lia. }
    set (st1 := keyword_pass 10 _ _ _ _) in *.
    pose proof (keyword_pass_bounds 5 "High risk indicator: " all_text
                  (high_risk risk_keywords) st1) as B2.
    set (st2 := keyword_pass 5 _ _ _ _) in *.
    pose proof (keyword_pass_bounds 2 "Moderate risk indicator: " all_text
                  (moderate_risk risk_keywords) st2) as B3.
    set (st3 := keyword_pass 2 _ _ _ _) in *.
    cbn in B2, B3.
    destruct (is_dict a).
    - do 3 bind_inv Ha6. injection Ha6 as <-.
      match goal with |- context [rating_rule ?r3 ?t3 2 ?i3
                                    (rating_rule ?r2 ?t2 2 ?i2
                                       (rating_rule ?r1 ?t1 3 ?i1 st3))] =>
        pose proof (rating_rule_bounds r1 t1 3 i1 st3);
        pose proof (rating_rule_bounds r2 t2 2 i2
                      (rating_rule r1 t1 3 i1 st3));
        pose proof (rating_rule_bounds r3 t3 2 i3
                      (rating_rule r2 t2 2 i2 (rating_rule r1 t1 3 i1 st3)))
      end. lia.
    - injection Ha6 as <-. lia. }
  apply level_of_crisis in H10 as Hl. rewrite <- Hlevel in Hl.
  rewrite Hneed, Href, Hl. repeat split; try reflexivity. exact H10.
Qed.

End CrisisDetectorMore.

(* ------------------------------------------------------------------ *)
(** ** How indicators add up                                          *)
(* ------------------------------------------------------------------ *)

Section IndicatorsAddUp.
Context {rt : Runtime}.
Import MentalHealthSecurityService.

Lemma keyword_pass_two_each (w : Z) (label text : string)
    (keywords : list string) (st : Z * list string) :
  2 <= w ->
  2 * Z.of_nat (List.length (snd st)) <= fst st ->
  let st' := keyword_pass w label keywords text st in
  2 * Z.of_nat (List.length (snd st')) <= fst st'.
Proof.
  intros Hw Hst. cbv zeta. rewrite keyword_pass_spec. cbn [fst snd].
  rewrite length_app, length_map. nia.
Qed.

Lemma rating_rule_two_each (rating : value) (test : Z -> bool) (w : Z)
    (indicator : string) (st : Z * list string) :
  2 <= w ->
  2 * Z.of_nat (List.length (snd st)) <= fst st ->
  let st' := rating_rule rating test w indicator st in
  2 * Z.of_nat (List.length (snd st')) <= fst st'.
Proof.
  intros Hw Hst. cbv zeta. unfold rating_rule, bump.
  destruct (as_int rating) as [n |]; [destruct (test n) |]; cbn [fst snd];
    rewrite ?length_app; cbn [List.length]; lia.
Qed.

(** Property X15.  Every indicator the crisis detector reports costs at
    least two points, whatever its kind.  So whenever the [try] block
    returns, three indicators are enough for the level "high" and a
    suggested referral, and five for a crisis intervention: moderate
    words alone add up to a crisis. *)
Theorem indicators_of_any_kind_add_up (now : string) (user_input : value)
    (r : CrisisResult) :
  crisis_body now user_input = Ret r ->
  2 * Z.of_nat (List.length (risk_indicators r)) <= risk_score r /\
  ((3 <= List.length (risk_indicators r))%nat ->
   professional_referral_suggested r = true /\
   (risk_level r = "high" \/ risk_level r = "crisis")) /\
  ((5 <= List.length (risk_indicators r))%nat ->
   crisis_intervention_needed r = true /\ risk_level r = "crisis").
Proof.
  intros Hbody.
  assert (Htwo : 2 * Z.of_nat (List.length (risk_indicators r))
                 <= risk_score r).
  { unfold crisis_body in Hbody. do 8 bind_inv Hbody.
    injection Hbody as <-. cbn [risk_score risk_indicators].
    match type of Ha6 with context [join ?sep ?parts] =>
      set (all_text := join sep parts) in Ha6 end.
    assert (H3 : 2 * Z.of_nat (List.length (snd
                   (keyword_pass 2 "Moderate risk indicator: "
                      (moderate_risk risk_keywords) all_text
                      (keyword_pass 5 "High risk indicator: "
                         (high_risk risk_keywords) all_text
                         (keyword_pass 10 "Crisis indicator: "
                            (crisis risk_keywords) all_text (0, []))))))
                 <= fst (keyword_pass 2 "Moderate risk indicator: "
                      (moderate_risk risk_keywords) all_text
                      (keyword_pass 5 "High risk indicator: "
                         (high_risk risk_keywords) all_text
                         (keyword_pass 10 "Crisis indicator: "
                            (crisis risk_keywords) all_text (0, []))))).
    { repeat (apply keyword_pass_two_each; [lia |]). cbn. lia. }
    set (st3 := keyword_pass 2 _ _ _ _) in *.
    destruct (is_dict a).
    - do 3 bind_inv Ha6. injection Ha6 as <-.
      repeat (apply rating_rule_two_each; [lia |]). exact H3.
    - injection Ha6 as <-. exact H3. }
  pose proof (crisis_body_shape _ _ _ Hbody) as (_ & Hlevel & Hneed & Href & _).
  split; [exact Htwo |]. split.
  - intros H3. assert (H6 : 6 <= risk_score r) by lia.
    assert (Hl : risk_level r = "high" \/ risk_level r = "crisis").
    { destruct (Z_lt_le_dec (risk_score r) 10) as [Hlt | Hge].
      - left. rewrite Hlevel. apply level_of_high. lia.
      - right. rewrite Hlevel. apply level_of_crisis. exact Hge. }
    split; [| exact Hl]. rewrite Href.
    destruct Hl as [-> | ->]; reflexivity.
  - intros H5. assert (H10 : 10 <= risk_score r) by lia.
    apply level_of_crisis in H10. rewrite <- Hlevel in H10.
    split; [| exact H10]. now rewrite Hneed, H10.
Qed.

End IndicatorsAddUp.

(* ------------------------------------------------------------------ *)
(** ** More on the sanitizer                                          *)
(* ------------------------------------------------------------------ *)

Section SanitizerMore.
Context {rt : Runtime}.
Import MentalHealthSecurityService.
Import Measures.


(** On the reference runtime a script under 400 list brackets is
    removed, and one under 600 comes back as it went in: every bracket
    takes two frames of the thousand. *)
Example four_hundred_brackets_fit_and_six_hundred_do_not :
  @sanitize_mental_health_input cpython (Cases.script_under 400)
    = PDict [("symptoms", Requests.nested 400 (PStr "[REMOVED]"))] /\
  @sanitize_mental_health_input cpython (Cases.script_under 600)
    = Cases.script_under 600.
Proof. split; vm_compute; reflexivity. Qed.

End SanitizerMore.

(* ------------------------------------------------------------------ *)
(** ** Consent for mental health data                                 *)
(* ------------------------------------------------------------------ *)

Section Consent.
Import MentalHealthComplianceService.

(** The loop over the required consents, for a list of provided ones:
    it appends those that are not in the list, in the order of
    [required]. *)
Lemma missing_loop_list (provided : list value) (required missing : list string) :
  missing_loop required (PList provided) missing =
  Ret (app missing
         (filter (fun consent =>
                    negb (existsb (fun given => eq_str given consent) provided))
            required)).
Proof.
  revert missing. induction required as [| c rest IH]; intros missing.
  - cbn. now rewrite app_nil_r.
  - cbn [missing_loop PyMore.contained Py.bind filter]. rewrite IH.
    destruct (existsb _ provided); cbn [negb]; [reflexivity |].
    now rewrite <- app_assoc.
Qed.

(** Property X17.  Consent validation on a request whose [consent_types]
    is a list, or is absent: the missing consents are the required ones
    that no entry of the list equals, in the order of the requirements,
    and the consent is valid exactly when all five are there.  Entries
    that are not required, repeated entries and entries that are no
    strings change nothing. *)
Theorem consent_is_valid_with_all_five_only (now : string)
    (consent_data : value) (provided : list value) :
  Py.get consent_data "consent_types" (PList []) = Ret (PList provided) ->
  let given consent := existsb (fun entry => eq_str entry consent) provided in
  let r := validate_mental_health_consent now consent_data in
  missing_consents r =
    Some (filter (fun consent => negb (given consent))
            required_mental_health_consents) /\
  valid r = forallb given required_mental_health_consents /\
  (valid r = true <-> missing_consents r = Some []) /\
  error r = None /\
  timestamp r = now.
Proof.
  intros Hget. cbv zeta.
  unfold validate_mental_health_consent, consent_body.
  rewrite Hget. cbn [Py.bind]. rewrite missing_loop_list.
  cbn [Py.bind try_except missing_consents valid error timestamp app].
  set (given := fun consent => existsb (fun entry => eq_str entry consent)
                                  provided).
  assert (Hvalid :
    (List.length (filter (fun consent => negb (given consent))
                    required_mental_health_consents) =? 0)%nat
    = forallb given required_mental_health_consents).
  { generalize required_mental_health_consents as required.
    induction required as [| c rest IH]; [reflexivity |].
    cbn [filter forallb]. destruct (given c); cbn [negb andb];
      [exact IH | reflexivity]. }
  split; [reflexivity |]. split; [exact Hvalid |].
  split; [| split; reflexivity].
  destruct (filter _ required_mental_health_consents) as [| m ms];
    cbn [List.length Nat.eqb]; split; congruence.
Qed.

End Consent.

(* ------------------------------------------------------------------ *)
(** ** Follow-up questions                                            *)
(* ------------------------------------------------------------------ *)

Section FollowUpQuestions.
Context {rt : Runtime}.
Import ConversationService.
Import Measures.

(** The result of [generate_follow_up_questions] on a list of strings. *)
Lemma questions_on_strings (items : list (string * value))
    (symptoms : list string) :
  let text := str_lower (join " " symptoms) in
  let r := generate_follow_up_questions (PDict items)
             (PList (map PStr symptoms)) in
  success r = true /\
  error r = None /\
  questions r =
    firstn 5
      (app (extend_if (mentions digestive_symptoms text) digestive_questions
              (extend_if (mentions respiratory_symptoms text)
                 respiratory_questions
                 (extend_if (mentions fever_symptoms text) fever_questions
                    (extend_if (mentions pain_symptoms text) pain_questions
                       []))))
         general_questions) /\
  total_questions r = Some (Z.of_nat (List.length (questions r))) /\
  has_follow_up r = (0 <? Z.of_nat (List.length (questions r))) /\
  estimated_time_minutes r =
    Some (FFin (inject_Z (Z.of_nat (List.length (questions r))) * (1 # 2))).
Proof.
  cbv zeta. unfold generate_follow_up_questions, questions_body.
  cbn [Py.get Py.bind]. rewrite str_join_strings.
  cbn [Py.bind try_except success error questions total_questions
       has_follow_up estimated_time_minutes].
  repeat split; reflexivity.
Qed.

(** Property X18.  What [generate_follow_up_questions] returns on a list
    of symptom strings.  With an initial assessment that is a
    dictionary it succeeds, and the questions are the first five of the
    triggered blocks in the order pain, fever, respiratory, digestive,
    general: three questions, the general ones, when no block is
    triggered, and exactly five as soon as one is; the estimated time is
    half a minute for each.  With an initial assessment that is no
    dictionary (such as [None]) it fails on reading [assessment_id] and
    returns no question. *)
Theorem three_questions_or_the_first_five (initial_assessment : value)
    (symptoms : list string) :
  let text := str_lower (join " " symptoms) in
  let block (words : list string) (questions : list Question) :=
    if mentions words text then questions else [] in
  let triggered :=
    mentions pain_symptoms text || mentions fever_symptoms text
    || mentions respiratory_symptoms text
    || mentions digestive_symptoms text in
  let r := generate_follow_up_questions initial_assessment
             (PList (map PStr symptoms)) in
  match initial_assessment with
  | PDict items =>
      success r = true /\
      has_follow_up r = true /\
      error r = None /\
      questions r =
        firstn 5
          (app (block pain_symptoms pain_questions)
             (app (block fever_symptoms fever_questions)
                (app (block respiratory_symptoms respiratory_questions)
                   (app (block digestive_symptoms digestive_questions)
                      general_questions)))) /\
      total_questions r = Some (if triggered then 5 else 3) /\
      estimated_time_minutes r =
        Some (FFin (inject_Z (if triggered then 5 else 3) * (1 # 2))) /\
      context r =
        Some {| assessment_id := get_or_none "assessment_id" items;
                symptoms_analyzed := PList (map PStr symptoms);
                question_round := 1 |}
  | _ =>
      success r = false /\
      has_follow_up r = false /\
      questions r = [] /\
      total_questions r = None /\
      error r = Some AttributeError
  end.
Proof.
  cbv zeta.
  destruct initial_assessment as [| b | z | f | s | l | items];
    try (repeat split; reflexivity).
  unfold generate_follow_up_questions, questions_body.
  cbn [Py.get Py.bind]. rewrite str_join_strings.
  cbn [Py.bind try_except success error questions total_questions
       has_follow_up estimated_time_minutes context].
  set (text := str_lower (join " " symptoms)).
  destruct (mentions pain_symptoms text), (mentions fever_symptoms text),
    (mentions respiratory_symptoms text), (mentions digestive_symptoms text);
    repeat split; reflexivity.
Qed.

(** Property X19.  Which questions survive the cut to five.  The pain
    scale is asked whenever pain is mentioned.  The question on
    breathing difficulty is asked when a respiratory word is mentioned,
    unless pain and fever are mentioned too.  The question on symptom
    progression, although marked as required, is asked only when no
    pain word is mentioned and at most one of the fever, respiratory and
    digestive blocks is triggered. *)
Theorem which_questions_survive_the_cut (items : list (string * value))
    (symptoms : list string) :
  let text := str_lower (join " " symptoms) in
  let pain := mentions pain_symptoms text in
  let fever := mentions fever_symptoms text in
  let respiratory := mentions respiratory_symptoms text in
  let digestive := mentions digestive_symptoms text in
  let qs := questions (generate_follow_up_questions (PDict items)
                         (PList (map PStr symptoms))) in
  asked "pain_scale" qs = pain /\
  asked "temperature_reading" qs = fever /\
  asked "breathing_difficulty" qs = respiratory && negb (pain && fever) /\
  asked "symptom_progression" qs =
    negb pain && negb (fever && respiratory) && negb (fever && digestive)
    && negb (respiratory && digestive).
Proof.
  cbv zeta.
  destruct (questions_on_strings items symptoms) as (_ & _ & Hq & _).
  cbv zeta in Hq. rewrite Hq.
  set (text := str_lower (join " " symptoms)).
  destruct (mentions pain_symptoms text), (mentions fever_symptoms text),
    (mentions respiratory_symptoms text), (mentions digestive_symptoms text);
    repeat split; reflexivity.
Qed.

End FollowUpQuestions.

(* ------------------------------------------------------------------ *)
(** ** Follow-up answers                                              *)
(* ------------------------------------------------------------------ *)

Section FollowUpAnswers.
Context {rt : Runtime}.
Import ConversationService.

(** What the two rules with a conversion do to the state when they
    return: the points they add, and whether they escalate. *)
Lemma analyze_pain_cases (pain_scale : value) (st st' : Analysis) :
  analyze_pain pain_scale st = Ret st' ->
  exists points added advice,
    a_risk_score st' = a_risk_score st + points /\
    a_insights st' = app (a_insights st) added /\
    a_recommendations st' = app (a_recommendations st) advice /\
    (points = 0 /\ added = [] /\ advice = [] /\ a_escalated st' = a_escalated st
     \/ points = 2 /\ List.length added = 1%nat /\ advice = []
        /\ a_escalated st' = a_escalated st
     \/ points = 3 /\ List.length added = 1%nat /\ List.length advice = 1%nat
        /\ a_escalated st' = true).
Proof.
  unfold analyze_pain. intros H.
  destruct (truthy pain_scale).
  - destruct (to_int pain_scale) as [n |]; [| discriminate].
    cbn [Py.bind] in H. destruct (8 <=? n).
    + injection H as <-. eexists 3, [_], [_]. cbn. intuition.
    + destruct (6 <=? n); injection H as <-.
      * eexists 2, [_], []. cbn. rewrite app_nil_r. intuition.
      * exists 0, [], []. rewrite !app_nil_r. intuition lia.
  - injection H as <-. exists 0, [], []. rewrite !app_nil_r. intuition lia.
Qed.

Lemma analyze_temperature_cases (temperature : value) (st st' : Analysis) :
  analyze_temperature temperature st = Ret st' ->
  exists points added advice,
    a_risk_score st' = a_risk_score st + points /\
    a_insights st' = app (a_insights st) added /\
    a_recommendations st' = app (a_recommendations st) advice /\
    (points = 0 /\ added = [] /\ advice = [] /\ a_escalated st' = a_escalated st
     \/ points = 2 /\ List.length added = 1%nat /\ advice = []
        /\ a_escalated st' = a_escalated st
     \/ points = 3 /\ List.length added = 1%nat /\ List.length advice = 1%nat
        /\ a_escalated st' = true).
Proof.
  unfold analyze_temperature. intros H.
  destruct (truthy temperature).
  - destruct (to_float temperature) as [t |]; [| discriminate].
    cbn [Py.bind] in H. destruct (float_le (FFin 103) t).
    + injection H as <-. eexists 3, [_], [_]. cbn. intuition.
    + destruct (float_le (FFin 101) t); injection H as <-.
      * eexists 2, [_], []. cbn. rewrite app_nil_r. intuition.
      * exists 0, [], []. rewrite !app_nil_r. intuition lia.
  - injection H as <-. exists 0, [], []. rewrite !app_nil_r. intuition lia.
Qed.

(** Property X20.  What [_analyze_follow_up_risk] keeps true of every
    result, the one of the error path included: the score lies between
    0 and 12 and the level is the one its thresholds give; an escalated
    result has at least 3 points, so it is never LOW; no single answer
    makes the level HIGH; and there are at most four insights and no
    more recommendations than insights. *)
Theorem follow_up_analysis_invariants (answers : value) :
  let r := _analyze_follow_up_risk answers in
  0 <= risk_score r <= 12 /\
  risk_level r = level_of (risk_score r) /\
  (escalated r = true -> 3 <= risk_score r /\ risk_level r <> "LOW") /\
  (risk_level r = "HIGH" -> (2 <= List.length (insights r))%nat) /\
  (List.length (recommendations r) <= List.length (insights r) <= 4)%nat.
Proof.
  cbv zeta. unfold _analyze_follow_up_risk.
  destruct (analysis_body answers) as [r | e] eqn:Hbody; cbn [try_except].
  2: { cbn. repeat split; try lia; try discriminate. }
  unfold analysis_body in Hbody. do 6 bind_inv Hbody.
  injection Hbody as <-.
  cbn [risk_score risk_level escalated insights recommendations].
  apply analyze_pain_cases in Ha0 as (p1 & i1 & r1 & Hs1 & Hi1 & Hr1 & C1).
  cbn [a_risk_score a_insights a_recommendations a_escalated app] in *.
  set (st2 := if eq_str a1 "yes" then _ else a0) in *.
  assert (H2 : exists p2 : Z, exists i2 r2 : list string,
    a_risk_score st2 = a_risk_score a0 + p2 /\
    a_insights st2 = app (a_insights a0) i2 /\
    a_recommendations st2 = app (a_recommendations a0) r2 /\
    (p2 = 0 /\ i2 = [] /\ r2 = [] /\ a_escalated st2 = a_escalated a0
     \/ p2 = 4 /\ List.length i2 = 1%nat /\ List.length r2 = 1%nat
        /\ a_escalated st2 = true)).
  { subst st2. destruct (eq_str a1 "yes").
    - eexists 4, [_], [_]. cbn. intuition.
    - exists 0, [], []. rewrite !app_nil_r. intuition lia. }
  destruct H2 as (p2 & i2 & r2 & Hs2 & Hi2 & Hr2 & C2).
  apply analyze_temperature_cases in Ha3
    as (p3 & i3 & r3 & Hs3 & Hi3 & Hr3 & C3).
  set (st := if eq_str a4 "Getting worse" then _ else a3).
  assert (H4 : exists p4 : Z, exists i4 r4 : list string,
    a_risk_score st = a_risk_score a3 + p4 /\
    a_insights st = app (a_insights a3) i4 /\
    a_recommendations st = app (a_recommendations a3) r4 /\
    a_escalated st = a_escalated a3 /\
    (p4 = 0 /\ i4 = [] /\ r4 = []
     \/ p4 = 2 /\ List.length i4 = 1%nat /\ List.length r4 = 1%nat)).
  { subst st. destruct (eq_str a4 "Getting worse").
    - eexists 2, [_], [_]. cbn. intuition.
    - exists 0, [], []. rewrite !app_nil_r. intuition lia. }
  destruct H4 as (p4 & i4 & r4 & Hs4 & Hi4 & Hr4 & He4 & C4).
  clearbody st st2.
  assert (Hlevel : forall n, level_of n <> "LOW" <-> 3 <= n).
  { intros n. unfold level_of.
    destruct (6 <=? n) eqn:H6;
      [apply Z.leb_le in H6; split; [lia | discriminate] |].
    destruct (3 <=? n) eqn:H3;
      [apply Z.leb_le in H3; split; [lia | discriminate] |].
    apply Z.leb_gt in H3. split; [congruence | lia]. }
  assert (Hhigh : forall n, level_of n = "HIGH" -> 6 <= n).
  { intros n. unfold level_of.
    destruct (6 <=? n) eqn:H6; [apply Z.leb_le in H6; lia |].
    destruct (3 <=? n); discriminate. }
  assert (Hall :
    0 <= a_risk_score st <= 12 /\
    (a_escalated st = true -> 3 <= a_risk_score st) /\
    (6 <= a_risk_score st -> (2 <= List.length (a_insights st))%nat) /\
    (List.length (a_recommendations st) <= List.length (a_insights st)
     <= 4)%nat).
  { rewrite Hs4, Hi4, Hr4, He4, Hs3, Hi3, Hr3, Hs2, Hi2, Hr2, Hs1, Hi1, Hr1.
    rewrite !length_app.
    destruct C1 as [(-> & -> & -> & E1) | [(-> & L1 & -> & E1)
                                          | (-> & L1 & A1 & E1)]];
    destruct C2 as [(-> & -> & -> & E2) | (-> & L2 & A2 & E2)];
    destruct C3 as [(-> & -> & -> & E3) | [(-> & L3 & -> & E3)
                                          | (-> & L3 & A3 & E3)]];
    destruct C4 as [(-> & -> & ->) | (-> & L4 & A4)];
    cbn [List.length]; rewrite ?L1, ?L2, ?L3, ?L4, ?A1, ?A2, ?A3, ?A4;
    rewrite ?E3, ?E2, ?E1;
    repeat split; try lia; try discriminate. }
  destruct Hall as (Hb & He & Hh & Hl).
  split; [exact Hb |]. split; [reflexivity |].
  split; [| split; [| exact Hl]].
  - intros H. split; [now apply He |]. apply Hlevel. now apply He.
  - intros H. apply Hh. now apply Hhigh.
Qed.

End FollowUpAnswers.

(* ------------------------------------------------------------------ *)
(** ** Runs on the reference runtime                                  *)
(* ------------------------------------------------------------------ *)

Section FurtherRuns.
Import RiskAssessmentService.
Import Notions.

(** An oxygen saturation of 85 is reported as concerning, not as
    critical. *)
Lemma low_oxygen_is_reported_concerning :
  score (_assess_vital_signs_risk
           (PDict [("oxygen_saturation", Cases.low_oxygen)])) = 4 /\
  factors (_assess_vital_signs_risk
             (PDict [("oxygen_saturation", Cases.low_oxygen)]))
    = ["Concerning oxygen_saturation: 85.0"].
Proof.
  exact (@every_oxygen_reading_is_flagged cpython Cases.low_oxygen (FFin 85)
           eq_refl eq_refl).
Defined.

(** A fever, an unreadable heart rate and a key that is no vital sign:
    one abnormal vital, two factors, three keys. *)
Lemma mixed_vitals_keep_the_invariants :
  exists (abnormal : list string) (raw : Z),
    lookup "abnormal_vitals"
      (details (_assess_vital_signs_risk (PDict Cases.vitals_mixed)))
      = Some (PList (map PStr abnormal)) /\
    score (_assess_vital_signs_risk (PDict Cases.vitals_mixed))
      = Z.min raw 8 /\
    2 * Z.of_nat (List.length abnormal) <= raw
      <= 6 * Z.of_nat (List.length abnormal) /\
    (List.length abnormal
       <= List.length
            (factors (_assess_vital_signs_risk (PDict Cases.vitals_mixed)))
       <= List.length Cases.vitals_mixed)%nat /\
    forall name, In name abnormal ->
      In name (map fst Cases.vitals_mixed) /\
      exists ranges, ranges_of name vital_ranges = Some ranges.
Proof.
  exact (@vitals_component_invariants cpython Cases.vitals_mixed
           (_assess_vital_signs_risk (PDict Cases.vitals_mixed)) eq_refl).
Defined.

(** Chest pain with shortness of breath and a fever of 104: CRITICAL,
    from the symptoms and the vitals together. *)
Lemma critical_from_symptoms_and_vitals :
  overall_risk_level
    (assess_comprehensive_risk Requests.noon
       (PList (map PStr Requests.symptoms_chest_and_shortness))
       Requests.vitals_high_fever PNone PNone) = "CRITICAL" /\
  0 < score (_assess_symptom_risk
               (PList (map PStr Requests.symptoms_chest_and_shortness))) /\
  0 < share Requests.vitals_high_fever
        (_assess_vital_signs_risk Requests.vitals_high_fever).
Proof.
  split; [reflexivity |].
  pose proof (@critical_takes_two_components cpython Requests.noon
                (PList (map PStr Requests.symptoms_chest_and_shortness))
                Requests.vitals_high_fever PNone PNone eq_refl) as H.
  cbv zeta in H.
  destruct H as [H | [[_ H] | [[_ H] | [[_ H] | [[_ H] | [H _]]]]]];
    [exact H | discriminate H ..].
Defined.

(** "chest pain and fever" given as one string: twenty symptoms, none
    of them found. *)
Lemma chest_pain_as_text_scores_nothing :
  _assess_symptom_risk (PStr Cases.symptoms_text) =
  {| score := 0;
     factors := [];
     details := [("symptom_count", PInt 20);
                 ("emergency_symptoms_detected", PBool false)] |} /\
  overall_risk_level
    (assess_comprehensive_risk Requests.noon (PStr Cases.symptoms_text)
       PNone PNone PNone)
  = "LOW".
Proof.
  exact (symptoms_as_one_string_score_nothing Requests.noon
           Cases.symptoms_text eq_refl).
Defined.

(** Upper case does not hide an emergency symptom. *)
Lemma upper_case_chest_pain_is_an_emergency :
  8 <= score (_assess_symptom_risk
                (PList (map PStr Cases.symptoms_upper_case))) /\
  In "Emergency symptom detected: chest pain"
    (factors (_assess_symptom_risk
                (PList (map PStr Cases.symptoms_upper_case)))) /\
  lookup "emergency_symptoms_detected"
    (details (_assess_symptom_risk
                (PList (map PStr Cases.symptoms_upper_case))))
    = Some (PBool true) /\
  (2 <= Measures.rank
          (overall_risk_level
             (assess_comprehensive_risk Requests.noon
                (PList (map PStr Cases.symptoms_upper_case))
                PNone PNone PNone)))%nat.
Proof.
  exact (@emergency_symptom_is_never_low cpython Requests.noon
           Cases.symptoms_upper_case "chest pain" PNone PNone PNone
           (or_introl eq_refl) eq_refl).
Defined.

(** A senior with diabetes and asthma: two points for the age, two for
    each of the two entries, capped at 6. *)
Lemma senior_with_two_conditions_reaches_the_cap :
  score (_assess_context_risk (PDict Cases.context_senior)) = 6 /\
  exists before after,
    factors (_assess_context_risk (PDict Cases.context_senior)) =
      app before
        (app ["High-risk medical condition: Type 2 Diabetes";
              "High-risk medical condition: asthma and copd"] after) /\
    (List.length before <= 1)%nat /\
    after = [].
Proof.
  exact (@context_score_in_closed_form cpython Cases.context_senior 70
           Cases.history_of_three eq_refl eq_refl).
Defined.

(** Severe pain with breathing difficulty: 7 points for the
    conversation service, 5 for the triage service. *)
Lemma severe_answers_are_capped_by_the_triage_scorer :
  ConversationService.risk_score
    (ConversationService._analyze_follow_up_risk (PDict Cases.answers_severe))
    = 7 /\
  score (_assess_followup_risk (PDict Cases.answers_severe)) = 5.
Proof.
  split; [reflexivity |].
  destruct (@the_two_follow_up_scorers_agree cpython Cases.answers_severe
              eq_refl eq_refl) as [[H _] | [H _]].
  - discriminate H.
  - exact H.
Defined.

End FurtherRuns.

Section FurtherSecurityRuns.
Import MentalHealthSecurityService.

(** The crisis input of the repository's own validation script: 20
    points, each accounted for by an indicator. *)
Lemma test_crisis_input_adds_up :
  risk_score (assess_crisis_risk Requests.noon Requests.test_crisis_input)
  = Measures.weigh
      (risk_indicators
         (assess_crisis_risk Requests.noon Requests.test_crisis_input)).
Proof.
  exact (@crisis_score_is_the_sum_of_its_indicators cpython Requests.noon
           Requests.test_crisis_input
           (assess_crisis_risk Requests.noon Requests.test_crisis_input)
           eq_refl).
Defined.

(** The moderate-risk input of the repository's validation script
    reports three moderate words, which make six points: it is rated
    "high", not "moderate" or "low" as the script expects, and a
    referral is suggested. *)
Lemma test_moderate_input_is_rated_high :
  risk_level (assess_crisis_risk Requests.noon Cases.test_moderate_input)
    = "high" /\
  risk_indicators (assess_crisis_risk Requests.noon Cases.test_moderate_input)
    = ["Moderate risk indicator: overwhelmed";
       "Moderate risk indicator: worried";
       "Moderate risk indicator: sad"] /\
  professional_referral_suggested
    (assess_crisis_risk Requests.noon Cases.test_moderate_input) = true.
Proof.
  pose proof (@indicators_of_any_kind_add_up cpython Requests.noon
                Cases.test_moderate_input
                (assess_crisis_risk Requests.noon Cases.test_moderate_input)
                eq_refl) as (_ & H3 & _).
  destruct H3 as [Href _]; [vm_compute; lia |].
  split; [reflexivity |]. split; [reflexivity | exact Href].
Defined.

(** A crisis keyword in one symptom of a questionnaire that is
    assessed without an error: ten points for the keyword, the level
    "crisis", and both flags. *)
Lemma crisis_keyword_in_a_symptom_is_found :
  (crisis_intervention_needed
     (assess_crisis_risk Requests.noon
        (PDict Cases.questionnaire_with_crisis_symptom)) = true /\
   professional_referral_suggested
     (assess_crisis_risk Requests.noon
        (PDict Cases.questionnaire_with_crisis_symptom)) = true /\
   10 <= risk_score
           (assess_crisis_risk Requests.noon
              (PDict Cases.questionnaire_with_crisis_symptom))) /\
  crisis_body Requests.noon (PDict Cases.questionnaire_with_crisis_symptom) =
  Ret {| risk_level := "crisis";
         risk_score := 10;
         risk_indicators := ["Crisis indicator: suicide"];
         crisis_intervention_needed := true;
         professional_referral_suggested := true;
         assessment_timestamp := Requests.noon |}.
Proof.
  split; [| reflexivity].
  exact (@crisis_keyword_in_a_symptom_calls_for_intervention cpython
           Requests.noon Cases.questionnaire_with_crisis_symptom
           [PStr "I think about suicide"] (PStr "I think about suicide")
           "suicide" eq_refl (or_introl eq_refl) (or_introl eq_refl)
           eq_refl).
Defined.

(** The same symptom beside responses that make the assessment fail:
    the fail-safe result calls for intervention as well. *)
Lemma crisis_keyword_beside_failing_responses :
  crisis_body Requests.noon (PDict Cases.questionnaire_failing)
    = Raise AttributeError /\
  assess_crisis_risk Requests.noon (PDict Cases.questionnaire_failing)
    = crisis_fail_safe Requests.noon.
Proof. split; reflexivity. Qed.

(** One required consent, one that is not required and a number: the
    four other required consents are missing. *)
Lemma partial_consent_is_not_valid :
  MentalHealthComplianceService.missing_consents
    (MentalHealthComplianceService.validate_mental_health_consent
       Requests.noon Cases.consent_partial)
  = Some ["psychological_assessment"; "professional_referral";
          "emergency_contact"; "data_retention_mental_health"] /\
  MentalHealthComplianceService.valid
    (MentalHealthComplianceService.validate_mental_health_consent
       Requests.noon Cases.consent_partial) = false.
Proof.
  pose proof (consent_is_valid_with_all_five_only Requests.noon
                Cases.consent_partial
                [PStr "crisis_intervention"; PStr "marketing"; PInt 7]
                eq_refl) as H.
  cbv zeta in H. destruct H as (Hm & Hv & _).
  split; [exact Hm | exact Hv].
Defined.

End FurtherSecurityRuns.
